(** * Task model of the task-management backend: scoring, queries, store

    A shallow embedding of [backend/src/models/Task.js] (class [Task]) and of
    the sample-task seeding of [backend/src/utils/database.js]
    ([initializeDatabase]), with the fragment of the JavaScript, moment and
    SQLite semantics those functions rest on; and of what stands around the
    model: class [User] of [backend/src/models/User.js], the middleware of
    [backend/src/middleware/auth.js] and
    [backend/src/middleware/validation.js], and the task routes of
    [backend/src/routes/tasks.js].

    Conventions.
    - A JavaScript number whose value is an integer is a [Z] (every integer
      that occurs is far below 2^53, where doubles are exact); [Js.NaN] is
      kept apart.  Where the code divides, the computation is carried out in
      IEEE-754 binary64 with the Standard Library's [SpecFloat].
    - Instants (the clock, what moment reads from a [due_date]) are
      milliseconds since the epoch.
    - A string is a sequence of 8-bit characters; [toUpperCase] and the
      case-insensitivity of LIKE are those of the ASCII letters, and a
      statement that rests on [toUpperCase] is about ASCII text.
    - A payload is data: its values are strings, numbers and booleans of
      the types of the schema, or, under keys that are no task fields, any
      JSON value.
    - A function that can throw returns a [result]. *)

From Stdlib Require Import ZArith String Ascii List Bool Lia DecimalString.
From Stdlib Require Import Floats.SpecFloat.
From stdpp Require Import gmap strings list fin_maps.

Open Scope Z_scope.

(** ** Thrown errors *)

Inductive error :=
| Error (message : string)
| TypeError (message : string)
| SqliteConstraint (message : string).

Inductive result (A : Type) :=
| Ok (a : A)
| Throw (e : error).
Arguments Ok {A} a.
Arguments Throw {A} e.

#[global] Instance result_ret : MRet result := @Ok.
#[global] Instance result_bind : MBind result := fun A B k r =>
  match r with
  | Ok a => k a
  | Throw e => Throw e
  end.
#[global] Instance result_fmap : FMap result := fun A B f r =>
  match r with
  | Ok a => Ok (f a)
  | Throw e => Throw e
  end.

(** ** The JavaScript fragment *)

Module Js.

(** Integer-valued numbers and NaN. *)
Inductive number :=
| Num (z : Z)
| NaN.

(** The objects a property lookup on an object literal can reach: the
    members of [Object.prototype]. *)
Inductive object :=
| ObjectPrototype
| NativeFunction (name : string).

Inductive value :=
| VUndefined
| VNull
| VBool (b : bool)
| VNumber (n : number)
| VString (s : string)
| VObject (o : object).

Definition num (z : Z) : value := VNumber (Num z).

(** ToBoolean. *)
Definition truthy (v : value) : bool :=
  match v with
  | VUndefined | VNull => false
  | VBool b => b
  | VNumber (Num z) => negb (z =? 0)
  | VNumber NaN => false
  | VString s => negb (String.eqb s "")
  | VObject _ => true
  end.

(** [a || b]. *)
Definition or (a b : value) : value := if truthy a then a else b.

(** *** Strings *)

Definition is_upper (c : ascii) : bool :=
  let n := N_of_ascii c in ((65 <=? n) && (n <=? 90))%N.
Definition is_lower (c : ascii) : bool :=
  let n := N_of_ascii c in ((97 <=? n) && (n <=? 122))%N.
Definition lower (c : ascii) : ascii :=
  if is_upper c then ascii_of_N (N_of_ascii c + 32) else c.
Definition upper (c : ascii) : ascii :=
  if is_lower c then ascii_of_N (N_of_ascii c - 32) else c.

Fixpoint map_string (f : ascii → ascii) (s : string) : string :=
  match s with
  | EmptyString => EmptyString
  | String c s' => String (f c) (map_string f s')
  end.

(** [String.prototype.toUpperCase], on ASCII text. *)
Definition toUpperCase (s : string) : string := map_string upper s.
Definition toLowerCase (s : string) : string := map_string lower s.

Definition object_toString (o : object) : string :=
  match o with
  | ObjectPrototype => "[object Object]"
  | NativeFunction name => "function " +:+ name +:+ "() { [native code] }"
  end.

Definition number_toString (n : number) : string :=
  match n with
  | Num z => NilZero.string_of_int (Z.to_int z)
  | NaN => "NaN"
  end.

Definition ToString (v : value) : string :=
  match v with
  | VUndefined => "undefined"
  | VNull => "null"
  | VBool true => "true"
  | VBool false => "false"
  | VNumber n => number_toString n
  | VString s => s
  | VObject o => object_toString o
  end.

Definition is_space (c : ascii) : bool :=
  let n := N_of_ascii c in ((n =? 32) || ((9 <=? n) && (n <=? 13)))%N.

Fixpoint trim_start (s : string) : string :=
  match s with
  | String c s' => if is_space c then trim_start s' else s
  | EmptyString => EmptyString
  end.

Definition trim (s : string) : string :=
  String.rev (trim_start (String.rev (trim_start s))).

(** StringToNumber for the integer literals (an optional sign and decimal
    digits, white space around them); every other text is not a number
    here. *)
Definition StringToNumber (s : string) : number :=
  let digits (neg : bool) (d : string) : number :=
    match d with
    | EmptyString => NaN
    | _ => match NilEmpty.uint_of_string d with
           | Some u => Num (if neg then - Z.of_uint u else Z.of_uint u)
           | None => NaN
           end
    end in
  match trim s with
  | EmptyString => Num 0
  | String "-" d => digits true d
  | String "+" d => digits false d
  | d => digits false d
  end.

Definition ToPrimitive (v : value) : value :=
  match v with
  | VObject o => VString (object_toString o)
  | _ => v
  end.

Definition ToNumber (v : value) : number :=
  match ToPrimitive v with
  | VUndefined => NaN
  | VNull => Num 0
  | VBool b => Num (if b then 1 else 0)
  | VNumber n => n
  | VString s => StringToNumber s
  | VObject _ => NaN
  end.

(** *** Arithmetic *)

Definition num_add (a b : number) : number :=
  match a, b with
  | Num x, Num y => Num (x + y)
  | _, _ => NaN
  end.
Definition num_sub (a b : number) : number :=
  match a, b with
  | Num x, Num y => Num (x - y)
  | _, _ => NaN
  end.
Definition num_mul (a b : number) : number :=
  match a, b with
  | Num x, Num y => Num (x * y)
  | _, _ => NaN
  end.

(** [a + b]: concatenation as soon as one side is a string (an object
    turns into its text), addition otherwise. *)
Definition add (a b : value) : value :=
  let a := ToPrimitive a in
  let b := ToPrimitive b in
  match a, b with
  | VString _, _ | _, VString _ => VString (ToString a +:+ ToString b)
  | _, _ => VNumber (num_add (ToNumber a) (ToNumber b))
  end.

(** [Math.min(a, b)]. *)
Definition Math_min (a b : value) : number :=
  match ToNumber a, ToNumber b with
  | Num x, Num y => Num (Z.min x y)
  | _, _ => NaN
  end.

(** *** Object literals

    A lookup [o[key]] on an object literal finds an own property or goes
    on to [Object.prototype]. *)

Fixpoint own_property (o : list (string * value)) (key : string) : option value :=
  match o with
  | [] => None
  | (k, v) :: o' => if String.eqb k key then Some v else own_property o' key
  end.

Definition ObjectPrototype_functions : list string :=
  [ "constructor"; "__defineGetter__"; "__defineSetter__"; "hasOwnProperty";
    "__lookupGetter__"; "__lookupSetter__"; "isPrototypeOf";
    "propertyIsEnumerable"; "toString"; "valueOf"; "toLocaleString" ]%string.

Definition ObjectPrototype_get (key : string) : value :=
  if String.eqb key "__proto__" then VObject ObjectPrototype
  else if String.eqb key "constructor" then VObject (NativeFunction "Object")
  else if existsb (String.eqb key) ObjectPrototype_functions
       then VObject (NativeFunction key)
  else VUndefined.

Definition Get (o : list (string * value)) (key : string) : value :=
  match own_property o key with
  | Some v => v
  | None => ObjectPrototype_get key
  end.

(** [array.includes(v)] on an array of strings. *)
Definition includes (array : list string) (v : value) : bool :=
  match v with
  | VString s => existsb (String.eqb s) array
  | _ => false
  end.

(** *** Doubles (binary64) *)

Definition double := spec_float.
Definition prec : Z := 53.
Definition emax : Z := 1024.

Definition double_of_Z (z : Z) : double := binary_normalize prec emax z 0 false.
Definition double_of_number (n : number) : double :=
  match n with
  | Num z => double_of_Z z
  | NaN => S754_nan
  end.
Definition div (a b : double) : double := SFdiv prec emax a b.
Definition mul (a b : double) : double := SFmul prec emax a b.

(** [m * 2^e] for [e < 0] is [m / 2^(-e)]. *)
Definition scaled (neg : bool) (m : positive) (e : Z) : Z * Z :=
  ((if neg then Z.neg m else Z.pos m), 2 ^ (- e)).

(** [Math.round]: the integer nearest to the argument, a half going up. *)
Definition Math_round (x : double) : double :=
  match x with
  | S754_finite neg m e =>
      if e <? 0 then
        let '(n, d) := scaled neg m e in
        let r := (2 * n + d) / (2 * d) in
        if (r =? 0) && neg then S754_zero true else double_of_Z r
      else x
  | _ => x
  end.

(** [Math.ceil]. *)
Definition Math_ceil (x : double) : double :=
  match x with
  | S754_finite neg m e =>
      if e <? 0 then
        let '(n, d) := scaled neg m e in
        let r := - ((- n) / d) in
        if (r =? 0) && neg then S754_zero true else double_of_Z r
      else x
  | _ => x
  end.

Definition double_truthy (x : double) : bool :=
  match x with
  | S754_zero _ | S754_nan => false
  | _ => true
  end.

(** *** split, parseInt *)

(** [s.split(sep)] for a separator of one character. *)
Fixpoint split (sep : ascii) (s : string) : list string :=
  match s with
  | EmptyString => [EmptyString]
  | String c s' =>
      if Ascii.eqb c sep then EmptyString :: split sep s'
      else match split sep s' with
           | piece :: pieces => String c piece :: pieces
           | [] => [String c EmptyString]
           end
  end.

(** The value of a digit in a radix up to 36. *)
Definition digit (c : ascii) : option Z :=
  let n := Z.of_N (N_of_ascii c) in
  if (48 <=? n) && (n <=? 57) then Some (n - 48)
  else if (97 <=? n) && (n <=? 122) then Some (n - 87)
  else if (65 <=? n) && (n <=? 90) then Some (n - 55)
  else None.

(** The number the longest prefix of digits of [s] denotes; [acc] is what
    was read before [s]. *)
Fixpoint digits (radix : Z) (s : string) (acc : option Z) : option Z :=
  match s with
  | String c s' =>
      match digit c with
      | Some d =>
          if d <? radix then digits radix s' (Some (default 0 acc * radix + d))
          else acc
      | None => acc
      end
  | EmptyString => acc
  end.

(** [parseInt(v)], no radix given: white space, a sign, [0x] for radix 16,
    then the longest prefix of digits; NaN when there is none. *)
Definition parseInt (v : value) : number :=
  let s := trim_start (ToString v) in
  let '(negative, s) :=
    match s with
    | String "-" s' => (true, s')
    | String "+" s' => (false, s')
    | _ => (false, s)
    end in
  let '(radix, s) :=
    match s with
    | String "0" (String "x" s') | String "0" (String "X" s') => (16, s')
    | _ => (10, s)
    end in
  match digits radix s None with
  | Some n => Num (if negative then - n else n)
  | None => NaN
  end.

End Js.

(** ** moment *)

Module Moment.

(** [absFloor] of the quotient [n / d]: towards zero. *)
Definition absFloor (n d : Z) : Z := Z.quot n d.

(** [this.diff(that, 'days')] for two moments in local mode, [utcOffset]
    giving the zone's offset from UTC in minutes at an instant: the
    difference in milliseconds, less the change of offset between the two
    instants, in whole days. *)
Definition diff_days (utcOffset : Z → Z) (this that : Z) : Z :=
  let zoneDelta := (utcOffset that - utcOffset this) * 60000 in
  absFloor (this - that - zoneDelta) 86400000.

End Moment.

(** ** Values of [due_date]

    What a [due_date] holds where the code reads it: the text of a payload
    or of a TEXT cell, or the number of an INTEGER cell.

    [text instant literal] is a text that is not empty and that moment
    reads as [instant]; [literal] is the number the text spells when it is a
    numeric literal for SQLite, as ['20991231'] spells 20991231, and [None]
    when it is none, as for ['2099-12-31'] and for what [toISOString()]
    returns.  [number n] is the number [n], which moment takes for [n]
    milliseconds since the epoch.  A text that moment cannot read is not
    represented. *)

Module Due.

Inductive t :=
| text (instant : Z) (literal : option Z)
| number (n : Z).

(** ToBoolean: [if (this.due_date)]. *)
Definition truthy (due_date : t) : bool :=
  match due_date with
  | text _ _ => true
  | number n => negb (n =? 0)
  end.

(** The instant of [moment(due_date)]. *)
Definition instant (due_date : t) : Z :=
  match due_date with
  | text instant _ => instant
  | number n => n
  end.

End Due.

(** ** What an operation reads from its environment: the clock, the zone of
    the process and the identifier [uuidv4()] would return. *)

Record Env := {
  now : Z;
  utcOffset : Z → Z;
  uuidv4 : string
}.

Definition UTC : Z → Z := fun _ => 0.

(** ** The store: table [tasks] of the SQLite database

    The rows by their primary key, each column with the type the schema
    declares and the constraints it puts on it.  A column gives back the
    value that was written to it, but for [due_date]: the declared type
    DATETIME gives that column NUMERIC affinity, under which a text that is
    a numeric literal is stored as the number. *)

Module Sqlite.

(** A cell of the column [due_date]: a text, by the instant moment reads
    from it, or a number. *)
Inductive datetime :=
| TEXT (instant : Z)
| INTEGER (n : Z).

(** The cell a bound value is stored in, under NUMERIC affinity. *)
Definition store_datetime (value : Due.t) : datetime :=
  match value with
  | Due.text _ (Some n) => INTEGER n
  | Due.text instant None => TEXT instant
  | Due.number n => INTEGER n
  end.

(** The value the driver returns for a cell. *)
Definition read_datetime (cell : datetime) : Due.t :=
  match cell with
  | TEXT instant => Due.text instant None
  | INTEGER n => Due.number n
  end.

Record Row := {
  id : string;                      (* TEXT PRIMARY KEY *)
  title : string;                   (* TEXT NOT NULL *)
  description : option string;
  status : option string;           (* CHECK(status IN (...)) *)
  priority : option string;         (* CHECK(priority IN (...)) *)
  is_urgent : bool;                 (* BOOLEAN, 1 or 0 *)
  due_date : option datetime;       (* DATETIME *)
  completion_percentage : Z;
  priority_score : Z;
  user_id : string;                 (* TEXT NOT NULL *)
  created_at : Z;
  updated_at : Z
}.

Abbreviation Store := (gmap string Row).

Definition status_values : list string :=
  [ "TODO"; "IN_PROGRESS"; "COMPLETED"; "CANCELLED" ]%string.
Definition priority_values : list string :=
  [ "LOW"; "MEDIUM"; "HIGH"; "URGENT" ]%string.

(** [CHECK(col IN (...))]: NULL passes. *)
Definition check_in (allowed : list string) (v : option string) : bool :=
  match v with
  | None => true
  | Some s => existsb (String.eqb s) allowed
  end.

(** [CURRENT_TIMESTAMP] has a resolution of one second. *)
Definition CURRENT_TIMESTAMP (clock : Z) : Z := clock / 1000 * 1000.

(** A number bound to a REAL column. *)
Definition real_of_value (v : Js.value) : option Z :=
  match v with
  | Js.VNumber (Js.Num z) => Some z
  | _ => None
  end.

(** The constraints on the columns that [Task.create] and [Task.update]
    write.  A derived field that is no number never comes with a status and
    a priority that pass their checks ([derived_fields_are_numbers] below),
    so the last refusal is never the one that decides. *)
Definition constraints (title : option string) (status priority : option string)
    (completion_percentage : Js.value) (priority_score : Js.number)
    : result (string * Z * Z) :=
  match title with
  | None => Throw (SqliteConstraint "NOT NULL constraint failed: tasks.title")
  | Some title =>
      if negb (check_in status_values status) then
        Throw (SqliteConstraint "CHECK constraint failed: status")
      else if negb (check_in priority_values priority) then
        Throw (SqliteConstraint "CHECK constraint failed: priority")
      else
        match real_of_value completion_percentage,
              real_of_value (Js.VNumber priority_score) with
        | Some c, Some p => Ok (title, c, p)
        | _, _ => Throw (SqliteConstraint "datatype mismatch")
        end
  end.

(** [INSERT INTO tasks (id, title, description, status, priority,
    is_urgent, due_date, completion_percentage, priority_score, user_id)
    VALUES (?, ...)]; [created_at] and [updated_at] take their default. *)
Definition insert_task (clock : Z) (db : Store)
    (id : string) (title description status priority : option string)
    (is_urgent : bool) (due_date : option Due.t)
    (completion_percentage : Js.value) (priority_score : Js.number)
    (user_id : option string) : result Store :=
  '(title, c, p) ← constraints title status priority
                      completion_percentage priority_score;
  match user_id with
  | None => Throw (SqliteConstraint "NOT NULL constraint failed: tasks.user_id")
  | Some user_id =>
      match db !! id with
      | Some _ => Throw (SqliteConstraint "UNIQUE constraint failed: tasks.id")
      | None =>
          Ok (<[ id := {| id := id; title := title; description := description;
                          status := status; priority := priority;
                          is_urgent := is_urgent;
                          due_date := store_datetime <$> due_date;
                          completion_percentage := c; priority_score := p;
                          user_id := user_id;
                          created_at := CURRENT_TIMESTAMP clock;
                          updated_at := CURRENT_TIMESTAMP clock |} ]> db)
      end
  end.

(** [UPDATE tasks SET title = ?, description = ?, status = ?, priority = ?,
    is_urgent = ?, due_date = ?, completion_percentage = ?,
    priority_score = ?, updated_at = CURRENT_TIMESTAMP WHERE id = ?]. *)
Definition update_task (clock : Z) (db : Store)
    (title description status priority : option string)
    (is_urgent : bool) (due_date : option Due.t)
    (completion_percentage : Js.value) (priority_score : Js.number)
    (id : string) : result Store :=
  match db !! id with
  | None => Ok db
  | Some old =>
      '(title, c, p) ← constraints title status priority
                          completion_percentage priority_score;
      Ok (<[ id := {| id := Sqlite.id old; title := title;
                      description := description;
                      status := status; priority := priority;
                      is_urgent := is_urgent;
                      due_date := store_datetime <$> due_date;
                      completion_percentage := c; priority_score := p;
                      user_id := Sqlite.user_id old;
                      created_at := Sqlite.created_at old;
                      updated_at := CURRENT_TIMESTAMP clock |} ]> db)
  end.

(** [DELETE FROM tasks WHERE id = ?], with the number of rows changed. *)
Definition delete_task (db : Store) (id : string) : Store * Z :=
  match db !! id with
  | Some _ => (delete id db, 1)
  | None => (db, 0)
  end.

(** [SELECT * FROM tasks WHERE id = ?]. *)
Definition select_by_id (db : Store) (id : string) : option Row := db !! id.

(** *** Aggregates of [getStatistics] *)

Definition rows_of_user (db : Store) (user_id : string) : list Row :=
  List.filter (fun r => String.eqb (Sqlite.user_id r) user_id)
              (snd <$> map_to_list db).

Definition COUNT (rows : list Row) : Z := Z.of_nat (length rows).

(** [SUM(CASE WHEN p THEN 1 ELSE 0 END)]: NULL over no rows. *)
Definition SUM_CASE (p : Row → bool) (rows : list Row) : option Z :=
  match rows with
  | [] => None
  | _ => Some (Z.of_nat (length (List.filter p rows)))
  end.

(** [AVG(col)]: NULL over no rows. *)
Definition AVG (col : Row → Z) (rows : list Row) : option Js.double :=
  match rows with
  | [] => None
  | _ => Some (Js.div (Js.double_of_Z (fold_right Z.add 0 (List.map col rows)))
                      (Js.double_of_Z (COUNT rows)))
  end.

Definition status_is (s : string) (r : Row) : bool :=
  match status r with
  | Some s' => String.eqb s' s
  | None => false
  end.

Record Aggregates := {
  total_tasks : Z;
  completed_tasks : option Z;
  in_progress_tasks : option Z;
  pending_tasks : option Z;
  urgent_tasks : option Z;
  avg_completion : option Js.double;
  avg_priority_score : option Js.double
}.

Definition select_statistics (db : Store) (user_id : string) : Aggregates :=
  let rows := rows_of_user db user_id in
  {| total_tasks := COUNT rows;
     completed_tasks := SUM_CASE (status_is "COMPLETED") rows;
     in_progress_tasks := SUM_CASE (status_is "IN_PROGRESS") rows;
     pending_tasks := SUM_CASE (status_is "TODO") rows;
     urgent_tasks := SUM_CASE is_urgent rows;
     avg_completion := AVG completion_percentage rows;
     avg_priority_score := AVG priority_score rows |}.

(** *** LIKE

    [%] stands for any run of characters, [_] for any one character, any
    other character for itself, ASCII letters without regard to case. *)
Fixpoint like (pattern text : string) {struct pattern} : bool :=
  match pattern with
  | EmptyString =>
      match text with
      | EmptyString => true
      | String _ _ => false
      end
  | String c pattern' =>
      if Ascii.eqb c "%" then
        (fix any (text : string) : bool :=
           like pattern' text
           || match text with
              | EmptyString => false
              | String _ text' => any text'
              end) text
      else
        match text with
        | EmptyString => false
        | String d text' =>
            (Ascii.eqb c "_" || Ascii.eqb (Js.lower c) (Js.lower d))
            && like pattern' text'
        end
  end.

(** [x LIKE pattern] on a nullable column: NULL is not a match. *)
Definition like_null (text : option string) (pattern : string) : bool :=
  match text with
  | Some t => like pattern t
  | None => false
  end.

(** [(title LIKE ? OR description LIKE ?)]. *)
Definition title_or_description_like (p1 p2 : string) (r : Row) : bool :=
  like p1 (title r) || like_null (description r) p2.

End Sqlite.

(** ** Plain objects carrying task fields

    [taskData] of [Task.create], [updateData] of [Task.update], the object
    the driver returns for a row: a field is absent or holds a value of the
    type the schema gives it (a NULL column of a row is an absent field; a
    payload with an explicit null is not represented).  The values are
    data, as JSON carries them: none is a function. *)

Module TaskData.

(** What an own key that is none of the twelve fields holds. *)
Inductive held :=
| primitive
| object_or_null.

Record t := {
  id : option string;
  title : option string;
  description : option string;
  status : option string;
  priority : option string;
  is_urgent : option bool;
  due_date : option Due.t;
  completion_percentage : option Z;
  priority_score : option Z;
  user_id : option string;
  created_at : option Z;
  updated_at : option Z;
  others : list (string * held)     (* the other own keys of the object *)
}.

Definition empty : t :=
  {| id := None; title := None; description := None; status := None;
     priority := None; is_urgent := None; due_date := None;
     completion_percentage := None; priority_score := None;
     user_id := None; created_at := None; updated_at := None;
     others := [] |}.

(** The object [database.get] returns for a row of [tasks]. *)
Definition of_row (r : Sqlite.Row) : t :=
  {| id := Some (Sqlite.id r);
     title := Some (Sqlite.title r);
     description := Sqlite.description r;
     status := Sqlite.status r;
     priority := Sqlite.priority r;
     is_urgent := Some (Sqlite.is_urgent r);
     due_date := Sqlite.read_datetime <$> Sqlite.due_date r;
     completion_percentage := Some (Sqlite.completion_percentage r);
     priority_score := Some (Sqlite.priority_score r);
     user_id := Some (Sqlite.user_id r);
     created_at := Some (Sqlite.created_at r);
     updated_at := Some (Sqlite.updated_at r);
     others := [] |}.

(** [!field] for a string field. *)
Definition falsy (field : option string) : bool :=
  match field with
  | Some s => String.eqb s ""
  | None => true
  end.

(** [field || default] for a string field. *)
Definition or_else (field : option string) (default : string) : string :=
  match field with
  | Some s => if String.eqb s "" then default else s
  | None => default
  end.

(** Whether [target.method] stops being the method of the class once
    [Object.assign(target, data)] has run on a target that had no own
    property of that name: an own key of [data] with the name of the method
    is assigned and hides it, and an own key [__proto__] that holds an
    object or null goes to the setter, which takes the prototype with its
    methods away. *)
Definition hides (data : t) (method : string) : bool :=
  existsb (fun '(key, value) =>
             String.eqb key method
             || (String.eqb key "__proto__"
                 && match value with
                    | object_or_null => true
                    | primitive => false
                    end))
          (others data).

End TaskData.

(** ** class Task *)

Module Task.

Record t := {
  id : string;
  title : option string;
  description : option string;
  status : string;
  priority : string;
  is_urgent : bool;
  due_date : option Due.t;
  completion_percentage : Js.value;
  priority_score : Js.number;
  user_id : option string;
  created_at : option Z;
  updated_at : option Z
}.

(** [constructor(data = {})]. *)
Definition new (env : Env) (data : TaskData.t) : t :=
  {| id := TaskData.or_else (TaskData.id data) (uuidv4 env);
     title := TaskData.title data;
     description := TaskData.description data;
     status := TaskData.or_else (TaskData.status data) "TODO";
     priority := TaskData.or_else (TaskData.priority data) "MEDIUM";
     is_urgent := default false (TaskData.is_urgent data);
     due_date := TaskData.due_date data;
     completion_percentage := Js.num (default 0 (TaskData.completion_percentage data));
     priority_score := Js.Num (default 0 (TaskData.priority_score data));
     user_id := TaskData.user_id data;
     created_at := TaskData.created_at data;
     updated_at := TaskData.updated_at data |}.

Definition set_completion_percentage (v : Js.value) (task : t) : t :=
  {| id := id task; title := title task; description := description task;
     status := status task; priority := priority task;
     is_urgent := is_urgent task; due_date := due_date task;
     completion_percentage := v;
     priority_score := priority_score task; user_id := user_id task;
     created_at := created_at task; updated_at := updated_at task |}.

Definition set_priority_score (n : Js.number) (task : t) : t :=
  {| id := id task; title := title task; description := description task;
     status := status task; priority := priority task;
     is_urgent := is_urgent task; due_date := due_date task;
     completion_percentage := completion_percentage task;
     priority_score := n; user_id := user_id task;
     created_at := created_at task; updated_at := updated_at task |}.

Definition statusPercentages : list (string * Js.value) :=
  [ ("TODO", Js.num 0); ("IN_PROGRESS", Js.num 50);
    ("COMPLETED", Js.num 100); ("CANCELLED", Js.num 0) ]%string.

Definition calculateCompletionPercentage (this : t) : Js.value :=
  Js.or (Js.Get statusPercentages (status this)) (Js.num 0).

Definition priorityWeights : list (string * Js.value) :=
  [ ("LOW", Js.num 10); ("MEDIUM", Js.num 25);
    ("HIGH", Js.num 40); ("URGENT", Js.num 60) ]%string.

Definition calculatePriorityScore (env : Env) (this : t) : Js.number :=
  let score := Js.num 0 in
  (* Priority weight *)
  let score := Js.add score (Js.or (Js.Get priorityWeights (priority this)) (Js.num 25)) in
  (* Urgency bonus *)
  let score := if is_urgent this then Js.add score (Js.num 20) else score in
  (* Due date urgency *)
  let score :=
    match due_date this with
    | Some value =>
        if Due.truthy value then
          let dueDate := Due.instant value in
          let daysUntilDue := Moment.diff_days (utcOffset env) dueDate (now env) in
          if daysUntilDue <? 0 then Js.add score (Js.num 40)
          else if daysUntilDue <=? 1 then Js.add score (Js.num 35)
          else if daysUntilDue <=? 3 then Js.add score (Js.num 25)
          else if daysUntilDue <=? 7 then Js.add score (Js.num 15)
          else Js.add score (Js.num 5)
        else score
    | None => score
    end in
  Js.Math_min score (Js.num 100).

(** [static async create(taskData)]: the store after the INSERT and the
    task returned. *)
Definition create (env : Env) (db : Sqlite.Store) (taskData : TaskData.t)
    : result (Sqlite.Store * t) :=
  if TaskData.falsy (TaskData.title taskData)
     || TaskData.falsy (TaskData.user_id taskData)
  then Throw (Error "Title and user_id are required")
  else
    let task := new env taskData in
    let task := set_completion_percentage (calculateCompletionPercentage task) task in
    let task := set_priority_score (calculatePriorityScore env task) task in
    db' ← Sqlite.insert_task (now env) db
            (id task) (title task) (description task)
            (Some (status task)) (Some (priority task))
            (is_urgent task) (due_date task)
            (completion_percentage task) (priority_score task) (user_id task);
    Ok (db', task).

(** [static async findById(id)]: [None] is [null]. *)
Definition findById (env : Env) (db : Sqlite.Store) (id : string) : option t :=
  match Sqlite.select_by_id db id with
  | Some taskData => Some (new env (TaskData.of_row taskData))
  | None => None
  end.

(** [Object.assign(task, updateData)], as to the twelve fields; what the
    other own keys of [updateData] do to the task is in [call]. *)
Definition assign (task : t) (updateData : TaskData.t) : t :=
  {| id := default (id task) (TaskData.id updateData);
     title := from_option Some (title task) (TaskData.title updateData);
     description := from_option Some (description task) (TaskData.description updateData);
     status := default (status task) (TaskData.status updateData);
     priority := default (priority task) (TaskData.priority updateData);
     is_urgent := default (is_urgent task) (TaskData.is_urgent updateData);
     due_date := from_option Some (due_date task) (TaskData.due_date updateData);
     completion_percentage :=
       from_option Js.num (completion_percentage task)
                   (TaskData.completion_percentage updateData);
     priority_score :=
       from_option Js.Num (priority_score task) (TaskData.priority_score updateData);
     user_id := from_option Some (user_id task) (TaskData.user_id updateData);
     created_at := from_option Some (created_at task) (TaskData.created_at updateData);
     updated_at := from_option Some (updated_at task) (TaskData.updated_at updateData) |}.

(** [task.method()] after [Object.assign(task, updateData)], [returned]
    being what the method of the class returns.  The task came from the
    constructor, with the twelve fields as its only own properties: where
    the payload does not hide the method, the call reaches it, and where it
    does, what is called is no function. *)
Definition call {A : Type} (updateData : TaskData.t) (method : string)
    (returned : A) : result A :=
  if TaskData.hides updateData method
  then Throw (TypeError ("task." +:+ method +:+ " is not a function"))
  else Ok returned.

(** [static async update(id, updateData)]: the store after the UPDATE and
    the task read back. *)
Definition update (env : Env) (db : Sqlite.Store) (id : string)
    (updateData : TaskData.t) : result (Sqlite.Store * option t) :=
  match findById env db id with
  | None => Throw (Error "Task not found")
  | Some task =>
      (* Update task properties *)
      let task := assign task updateData in
      (* Recalculate derived fields *)
      percentage ←
        call updateData "calculateCompletionPercentage"
             (calculateCompletionPercentage task);
      let task := set_completion_percentage percentage task in
      score ←
        call updateData "calculatePriorityScore" (calculatePriorityScore env task);
      let task := set_priority_score score task in
      db' ← Sqlite.update_task (now env) db
              (title task) (description task)
              (Some (status task)) (Some (priority task))
              (is_urgent task) (due_date task)
              (completion_percentage task) (priority_score task) id;
      Ok (db', findById env db' id)
  end.

(** [static async delete(id)]. *)
Definition delete (db : Sqlite.Store) (id : string) : Sqlite.Store * bool :=
  let '(db', changes) := Sqlite.delete_task db id in
  (db', changes >? 0).

(** *** findAll *)

Module Options.

(** The [options] object: a field that is missing is [VUndefined]. *)
Record t := {
  user_id : Js.value;
  page : Js.value;
  limit : Js.value;
  status : Js.value;
  priority : Js.value;
  is_urgent : Js.value;
  search : Js.value;
  sort_by : Js.value;
  sort_order : Js.value
}.

Definition empty : t :=
  {| user_id := Js.VUndefined; page := Js.VUndefined; limit := Js.VUndefined;
     status := Js.VUndefined; priority := Js.VUndefined;
     is_urgent := Js.VUndefined; search := Js.VUndefined;
     sort_by := Js.VUndefined; sort_order := Js.VUndefined |}.

(** A destructuring default [field = d]. *)
Definition or_default (field d : Js.value) : Js.value :=
  match field with
  | Js.VUndefined => d
  | _ => field
  end.

End Options.

Record Query := {
  sql : string;
  bindings : list Js.value
}.

(** The [database] handle as far as [findAll] uses it. *)
Record Database := {
  all : Query → result (list Sqlite.Row);
  get_count : Query → result Z
}.

Definition allowedSortFields : list string :=
  [ "title"; "status"; "priority"; "due_date"; "created_at"; "updated_at";
    "completion_percentage"; "priority_score" ]%string.
Definition allowedSortOrders : list string := [ "ASC"; "DESC" ]%string.

(** [whereConditions.push(c); params.push(...ps)] under a guard. *)
Definition push_if (guard : bool) (c : string) (ps : list Js.value)
    (acc : list string * list Js.value) : list string * list Js.value :=
  if guard then (fst acc ++ [c], snd acc ++ ps) else acc.

(** Build WHERE clause: the conditions and their parameters. *)
Definition where_conditions (options : Options.t) : list string * list Js.value :=
  let user_id := Options.user_id options in
  let status := Options.status options in
  let priority := Options.priority options in
  let is_urgent := Options.is_urgent options in
  let search := Options.search options in
  let acc := ([], []) in
  let acc := push_if (Js.truthy user_id) "user_id = ?" [user_id] acc in
  let acc := push_if (Js.truthy status) "status = ?" [status] acc in
  let acc := push_if (Js.truthy priority) "priority = ?" [priority] acc in
  let acc := push_if (match is_urgent with Js.VUndefined => false | _ => true end)
               "is_urgent = ?" [Js.num (if Js.truthy is_urgent then 1 else 0)] acc in
  let pattern := Js.VString ("%" +:+ Js.ToString search +:+ "%") in
  let acc := push_if (Js.truthy search)
               "(title LIKE ? OR description LIKE ?)" [pattern; pattern] acc in
  acc.

(** [sort_order.toUpperCase()]. *)
Definition call_toUpperCase (v : Js.value) : result string :=
  match v with
  | Js.VString s => Ok (Js.toUpperCase s)
  | Js.VUndefined | Js.VNull =>
      Throw (TypeError "Cannot read properties of null or undefined (reading 'toUpperCase')")
  | _ => Throw (TypeError "sort_order.toUpperCase is not a function")
  end.

Record Plan := {
  whereConditions : list string;
  params : list Js.value;
  whereClause : string;
  validSortBy : string;
  validSortOrder : string;
  offset : Js.number;
  query : Query;
  countQuery : Query
}.

(** [findAll] up to its two calls of the database (the white space of
    the SQL template aside). *)
Definition findAll_plan (options : Options.t) : result Plan :=
  let page := Options.or_default (Options.page options) (Js.num 1) in
  let limit := Options.or_default (Options.limit options) (Js.num 10) in
  let sort_by := Options.or_default (Options.sort_by options) (Js.VString "created_at") in
  let sort_order := Options.or_default (Options.sort_order options) (Js.VString "DESC") in
  let '(whereConditions, params) := where_conditions options in
  let whereClause :=
    if 0 <? Z.of_nat (length whereConditions)
    then "WHERE " +:+ String.concat " AND " whereConditions
    else ""%string in
  (* Validate sort parameters *)
  let validSortBy :=
    if Js.includes allowedSortFields sort_by then Js.ToString sort_by
    else "created_at"%string in
  upper ← call_toUpperCase sort_order;
  validSortOrder ←
    (if Js.includes allowedSortOrders (Js.VString upper)
     then call_toUpperCase sort_order else Ok "DESC"%string);
  (* Build query *)
  let offset := Js.num_mul (Js.num_sub (Js.ToNumber page) (Js.Num 1)) (Js.ToNumber limit) in
  Ok {| whereConditions := whereConditions;
        params := params;
        whereClause := whereClause;
        validSortBy := validSortBy;
        validSortOrder := validSortOrder;
        offset := offset;
        query :=
          {| sql := "SELECT * FROM tasks " +:+ whereClause +:+ " ORDER BY "
                    +:+ validSortBy +:+ " " +:+ validSortOrder
                    +:+ " LIMIT ? OFFSET ?";
             bindings := params ++ [limit; Js.VNumber offset] |};
        countQuery :=
          {| sql := "SELECT COUNT(*) as count FROM tasks " +:+ whereClause;
             bindings := params |} |}.

Record Pagination := {
  pagination_page : Js.value;
  pagination_limit : Js.value;
  pagination_total : Z;
  pagination_pages : Js.double
}.

Record Filters := {
  filters_status : Js.value;
  filters_priority : Js.value;
  filters_is_urgent : Js.value;
  filters_search : Js.value
}.

Record Sorting := {
  sorting_sort_by : string;
  sorting_sort_order : string
}.

Record Found := {
  tasks : list t;
  pagination : Pagination;
  filters : Filters;
  sorting : Sorting
}.

(** [static async findAll(options = {})]. *)
Definition findAll (env : Env) (database : Database) (options : Options.t)
    : result Found :=
  let page := Options.or_default (Options.page options) (Js.num 1) in
  let limit := Options.or_default (Options.limit options) (Js.num 10) in
  plan ← findAll_plan options;
  rows ← all database (query plan);
  totalCount ← get_count database (countQuery plan);
  Ok {| tasks := List.map (fun task => new env (TaskData.of_row task)) rows;
        pagination :=
          {| pagination_page := page;
             pagination_limit := limit;
             pagination_total := totalCount;
             pagination_pages :=
               Js.Math_ceil (Js.div (Js.double_of_Z totalCount)
                                    (Js.double_of_number (Js.ToNumber limit))) |};
        filters :=
          {| filters_status := Options.status options;
             filters_priority := Options.priority options;
             filters_is_urgent := Options.is_urgent options;
             filters_search := Options.search options |};
        sorting :=
          {| sorting_sort_by := validSortBy plan;
             sorting_sort_order := validSortOrder plan |} |}.

(** *** getStatistics *)

Record Statistics := {
  total_tasks : Z;
  completed_tasks : Z;
  in_progress_tasks : Z;
  pending_tasks : Z;
  urgent_tasks : Z;
  avg_completion : Js.double;
  avg_priority_score : Js.double;
  completion_rate : Js.double
}.

(** [x || 0] for a double that may be null. *)
Definition double_or_zero (x : option Js.double) : Js.double :=
  match x with
  | Some d => if Js.double_truthy d then d else Js.double_of_Z 0
  | None => Js.double_of_Z 0
  end.

(** ToNumber of a count that may be null. *)
Definition count_ToNumber (x : option Z) : Js.double :=
  Js.double_of_Z (default 0 x).

(** [static async getStatistics(user_id)]. *)
Definition getStatistics (db : Sqlite.Store) (user_id : string) : Statistics :=
  let stats := Sqlite.select_statistics db user_id in
  {| total_tasks := Sqlite.total_tasks stats;
     completed_tasks := default 0 (Sqlite.completed_tasks stats);
     in_progress_tasks := default 0 (Sqlite.in_progress_tasks stats);
     pending_tasks := default 0 (Sqlite.pending_tasks stats);
     urgent_tasks := default 0 (Sqlite.urgent_tasks stats);
     avg_completion := Js.Math_round (double_or_zero (Sqlite.avg_completion stats));
     avg_priority_score :=
       Js.Math_round (double_or_zero (Sqlite.avg_priority_score stats));
     completion_rate :=
       if Sqlite.total_tasks stats >? 0
       then Js.Math_round
              (Js.mul (Js.div (count_ToNumber (Sqlite.completed_tasks stats))
                              (Js.double_of_Z (Sqlite.total_tasks stats)))
                      (Js.double_of_Z 100))
       else Js.double_of_Z 0 |}.

(** [toResponse()]: a plain object with the twelve fields. *)
Definition toResponse (this : t) : t :=
  {| id := id this;
     title := title this;
     description := description this;
     status := status this;
     priority := priority this;
     is_urgent := is_urgent this;      (* Boolean(this.is_urgent) *)
     due_date := due_date this;
     completion_percentage := completion_percentage this;
     priority_score := priority_score this;
     user_id := user_id this;
     created_at := created_at this;
     updated_at := updated_at this |}.

End Task.

(** ** Seeding of the sample tasks in [initializeDatabase] *)

Module Seed.

Record SampleTask := {
  id : string;
  title : string;
  description : string;
  status : string;
  priority : string;
  is_urgent : Z;
  due_date : option Z;
  user_id : string
}.

(** [sampleTasks], built when the clock reads [clock]. *)
Definition sampleTasks (clock : Z) : list SampleTask :=
  [ {| id := "task-001";
       title := "Complete Project Setup";
       description := "Set up the development environment and install dependencies";
       status := "COMPLETED"; priority := "HIGH"; is_urgent := 1;
       due_date := Some (clock + 86400000);
       user_id := "admin-001" |};
    {| id := "task-002";
       title := "Design Database Schema";
       description := "Create the database structure for the task management system";
       status := "IN_PROGRESS"; priority := "HIGH"; is_urgent := 0;
       due_date := Some (clock + 172800000);
       user_id := "admin-001" |};
    {| id := "task-003";
       title := "Implement Authentication";
       description := "Build user registration and login functionality";
       status := "TODO"; priority := "URGENT"; is_urgent := 1;
       due_date := Some (clock + 43200000);
       user_id := "admin-001" |} ].

(** [Math.ceil(n / d)] for integers, [d > 0]. *)
Definition ceil_div (n d : Z) : Z := - ((- n) / d).

Definition statusPercentages : list (string * Js.value) :=
  [ ("TODO", Js.num 0); ("IN_PROGRESS", Js.num 50);
    ("COMPLETED", Js.num 100); ("CANCELLED", Js.num 0) ]%string.

Definition priorityWeights : list (string * Js.value) :=
  [ ("LOW", Js.num 10); ("MEDIUM", Js.num 25);
    ("HIGH", Js.num 40); ("URGENT", Js.num 60) ]%string.

(** The loop body: [completion_percentage] of a sample task. *)
Definition completion_percentage (task : SampleTask) : Js.value :=
  Js.or (Js.Get statusPercentages (status task)) (Js.num 0).

(** The loop body: [priority_score] of a sample task when the clock
    reads [clock]. *)
Definition priority_score (clock : Z) (task : SampleTask) : Js.number :=
  let priority_score := Js.num 0 in
  let priority_score :=
    Js.add priority_score (Js.or (Js.Get priorityWeights (priority task)) (Js.num 25)) in
  let priority_score :=
    if Js.truthy (Js.num (is_urgent task))
    then Js.add priority_score (Js.num 20) else priority_score in
  let priority_score :=
    match due_date task with
    | Some dueDate =>
        let daysUntilDue := ceil_div (dueDate - clock) (1000 * 60 * 60 * 24) in
        if daysUntilDue <? 0 then Js.add priority_score (Js.num 40)
        else if daysUntilDue <=? 1 then Js.add priority_score (Js.num 35)
        else if daysUntilDue <=? 3 then Js.add priority_score (Js.num 25)
        else if daysUntilDue <=? 7 then Js.add priority_score (Js.num 15)
        else Js.add priority_score (Js.num 5)
    | None => priority_score
    end in
  Js.Math_min priority_score (Js.num 100).

(** [task.due_date]: the text [toISOString()] returned for the instant. *)
Definition due_date_text (task : SampleTask) : option Due.t :=
  (fun instant => Due.text instant None) <$> due_date task.

(** The task object a sample task stands for. *)
Definition to_data (task : SampleTask) : TaskData.t :=
  {| TaskData.id := Some (id task);
     TaskData.title := Some (title task);
     TaskData.description := Some (description task);
     TaskData.status := Some (status task);
     TaskData.priority := Some (priority task);
     TaskData.is_urgent := Some (Js.truthy (Js.num (is_urgent task)));
     TaskData.due_date := due_date_text task;
     TaskData.completion_percentage := None;
     TaskData.priority_score := None;
     TaskData.user_id := Some (user_id task);
     TaskData.created_at := None;
     TaskData.updated_at := None;
     TaskData.others := [] |}.

(** The loop over [sampleTasks]: the derived fields of each task and its
    INSERT, the clock reading [clock n] when the loop reaches task [n]. *)
Fixpoint insert_samples (clock : nat → Z) (n : nat) (tasks : list SampleTask)
    (db : Sqlite.Store) : result Sqlite.Store :=
  match tasks with
  | [] => Ok db
  | task :: tasks' =>
      db' ← Sqlite.insert_task (clock n) db
              (id task) (Some (title task)) (Some (description task))
              (Some (status task)) (Some (priority task))
              (Js.truthy (Js.num (is_urgent task))) (due_date_text task)
              (completion_percentage task) (priority_score (clock n) task)
              (Some (user_id task));
      insert_samples clock (S n) tasks' db'
  end.

(** "Insert sample tasks if none exist": the count of the table, and the
    loop when it is 0; [built] is the clock when [sampleTasks] is built. *)
Definition seed_tasks (built : Z) (clock : nat → Z) (db : Sqlite.Store)
    : result Sqlite.Store :=
  let count := Sqlite.COUNT (snd <$> map_to_list db) in
  if count =? 0 then insert_samples clock 0 (sampleTasks built) db
  else Ok db.

End Seed.


(** ** Table [users] of the SQLite database *)

Module SqliteUsers.

Record Row := {
  id : string;                      (* TEXT PRIMARY KEY *)
  username : string;                (* TEXT UNIQUE NOT NULL *)
  email : string;                   (* TEXT UNIQUE NOT NULL *)
  password : string;                (* TEXT NOT NULL *)
  created_at : Z;
  updated_at : Z
}.

Abbreviation Store := (gmap string Row).

Definition rows (users : Store) : list Row := snd <$> map_to_list users.

Definition has_username (username : string) (r : Row) : bool :=
  String.eqb (SqliteUsers.username r) username.
Definition has_email (email : string) (r : Row) : bool :=
  String.eqb (SqliteUsers.email r) email.

(** [SELECT * FROM users WHERE id = ?] through [database.get]; a value that
    is undefined is bound as NULL, which equals no id. *)
Definition select_by_id (users : Store) (id : option string) : option Row :=
  match id with
  | Some id => users !! id
  | None => None
  end.

(** [SELECT * FROM users WHERE username = ?] through [database.get]: the
    first row found. *)
Definition select_by_username (users : Store) (username : string) : option Row :=
  List.find (has_username username) (rows users).

(** [SELECT * FROM users WHERE email = ?] through [database.get]. *)
Definition select_by_email (users : Store) (email : string) : option Row :=
  List.find (has_email email) (rows users).

(** [INSERT INTO users (id, username, email, password) VALUES (?, ?, ?, ?)];
    [created_at] and [updated_at] take their default. *)
Definition insert_user (clock : Z) (users : Store) (id : string)
    (username email password : option string) : result Store :=
  match username, email, password with
  | None, _, _ => Throw (SqliteConstraint "NOT NULL constraint failed: users.username")
  | _, None, _ => Throw (SqliteConstraint "NOT NULL constraint failed: users.email")
  | _, _, None => Throw (SqliteConstraint "NOT NULL constraint failed: users.password")
  | Some username, Some email, Some password =>
      if existsb (has_username username) (rows users) then
        Throw (SqliteConstraint "UNIQUE constraint failed: users.username")
      else if existsb (has_email email) (rows users) then
        Throw (SqliteConstraint "UNIQUE constraint failed: users.email")
      else
        match users !! id with
        | Some _ => Throw (SqliteConstraint "UNIQUE constraint failed: users.id")
        | None =>
            Ok (<[ id := {| id := id; username := username; email := email;
                            password := password;
                            created_at := Sqlite.CURRENT_TIMESTAMP clock;
                            updated_at := Sqlite.CURRENT_TIMESTAMP clock |} ]> users)
        end
  end.

(** [DELETE FROM users WHERE id = ?], with the number of rows changed. *)
Definition delete_user (users : Store) (id : string) : Store * Z :=
  match users !! id with
  | Some _ => (delete id users, 1)
  | None => (users, 0)
  end.

End SqliteUsers.

(** ** Plain objects carrying user fields *)

Module UserData.

Record t := {
  id : option string;
  username : option string;
  email : option string;
  password : option string;
  created_at : option Z;
  updated_at : option Z
}.

(** The object [database.get] returns for a row of [users]. *)
Definition of_row (r : SqliteUsers.Row) : t :=
  {| id := Some (SqliteUsers.id r);
     username := Some (SqliteUsers.username r);
     email := Some (SqliteUsers.email r);
     password := Some (SqliteUsers.password r);
     created_at := Some (SqliteUsers.created_at r);
     updated_at := Some (SqliteUsers.updated_at r) |}.

(** [{ ...userData, password: hashedPassword }]. *)
Definition with_password (password : string) (data : t) : t :=
  {| id := id data; username := username data; email := email data;
     password := Some password;
     created_at := created_at data; updated_at := updated_at data |}.

End UserData.

(** [bcrypt], as far as the model calls it: the hash a call of
    [bcrypt.hash] returns for a password and a number of rounds. *)
Record Bcrypt := {
  hash : string → Z → string
}.

(** ** class User *)

Module User.

Record t := {
  id : string;
  username : option string;
  email : option string;
  password : option string;
  created_at : option Z;
  updated_at : option Z
}.

(** [constructor(data = {})]. *)
Definition new (env : Env) (data : UserData.t) : t :=
  {| id := TaskData.or_else (UserData.id data) (uuidv4 env);
     username := UserData.username data;
     email := UserData.email data;
     password := UserData.password data;
     created_at := UserData.created_at data;
     updated_at := UserData.updated_at data |}.

(** [this.role]: neither the constructor nor a prototype gives a user a
    [role]. *)
Definition role (this : t) : Js.value := Js.VUndefined.

(** [static async findByUsername(username)]. *)
Definition findByUsername (env : Env) (users : SqliteUsers.Store) (username : string)
    : option t :=
  match SqliteUsers.select_by_username users username with
  | Some userData => Some (new env (UserData.of_row userData))
  | None => None
  end.

(** [static async findByEmail(email)]. *)
Definition findByEmail (env : Env) (users : SqliteUsers.Store) (email : string)
    : option t :=
  match SqliteUsers.select_by_email users email with
  | Some userData => Some (new env (UserData.of_row userData))
  | None => None
  end.

(** [static async findById(id)]. *)
Definition findById (env : Env) (users : SqliteUsers.Store) (id : option string)
    : option t :=
  match SqliteUsers.select_by_id users id with
  | Some userData => Some (new env (UserData.of_row userData))
  | None => None
  end.

(** [static async create(userData)]: the table after the INSERT and the
    user returned. *)
Definition create (bcrypt : Bcrypt) (env : Env) (users : SqliteUsers.Store)
    (userData : UserData.t) : result (SqliteUsers.Store * t) :=
  (* Validate required fields *)
  if TaskData.falsy (UserData.username userData)
     || TaskData.falsy (UserData.email userData)
     || TaskData.falsy (UserData.password userData)
  then Throw (Error "Username, email, and password are required")
  else
    (* Check if user already exists *)
    match findByUsername env users (default ""%string (UserData.username userData)) with
    | Some _ => Throw (Error "Username already exists")
    | None =>
        match findByEmail env users (default ""%string (UserData.email userData)) with
        | Some _ => Throw (Error "Email already exists")
        | None =>
            (* Hash password *)
            let hashedPassword :=
              hash bcrypt (default ""%string (UserData.password userData)) 10 in
            (* Create user *)
            let user := new env (UserData.with_password hashedPassword userData) in
            users' ← SqliteUsers.insert_user (now env) users
                       (id user) (username user) (email user) (password user);
            Ok (users', user)
        end
    end.

(** [static async delete(id)]. *)
Definition delete (users : SqliteUsers.Store) (id : string)
    : SqliteUsers.Store * bool :=
  let '(users', changes) := SqliteUsers.delete_user users id in
  (users', changes >? 0).

(** The object [toJSON()] and [toResponse()] return: the fields of the
    user but [password]. *)
Record Public := {
  public_id : string;
  public_username : option string;
  public_email : option string;
  public_created_at : option Z;
  public_updated_at : option Z
}.

(** [toJSON()]: [const { password, ...userData } = this]. *)
Definition toJSON (this : t) : Public :=
  {| public_id := id this; public_username := username this;
     public_email := email this; public_created_at := created_at this;
     public_updated_at := updated_at this |}.

(** [toResponse()]. *)
Definition toResponse (this : t) : Public :=
  {| public_id := id this; public_username := username this;
     public_email := email this; public_created_at := created_at this;
     public_updated_at := updated_at this |}.

End User.

(** ** The data [initializeDatabase] puts into the two tables *)

Module Initialize.

(** "Insert default admin user if not exists". *)
Definition seed_admin (bcrypt : Bcrypt) (clock : Z) (users : SqliteUsers.Store)
    : result SqliteUsers.Store :=
  let adminExists := SqliteUsers.select_by_username users "admin" in
  match adminExists with
  | Some _ => Ok users
  | None =>
      let hashedPassword := hash bcrypt "admin123" 10 in
      SqliteUsers.insert_user clock users "admin-001"
        (Some "admin"%string) (Some "admin@example.com"%string) (Some hashedPassword)
  end.

(** [initializeDatabase], the tables being there: the admin user when the
    clock reads [started], then the sample tasks, built when it reads
    [built] and inserted when it reads [clock 0], [clock 1], ...; the
    first error ends it. *)
Definition initializeDatabase (bcrypt : Bcrypt) (started built : Z) (clock : nat → Z)
    (users : SqliteUsers.Store) (db : Sqlite.Store)
    : result (SqliteUsers.Store * Sqlite.Store) :=
  users' ← seed_admin bcrypt started users;
  db' ← Seed.seed_tasks built clock db;
  Ok (users', db').

End Initialize.

(** ** Requests and responses *)

Module Http.

(** An entry of [details] in the answer to a request that fails
    validation: [{ field: error.path, message: error.msg, value:
    error.value }]. *)
Record Detail := {
  field : string;
  message : string;
  value : Js.value
}.

(** The bodies the middleware and the task routes send. *)
Inductive body :=
| failure (error message : string)
      (* { error, message } *)
| validation_failure (error message : string) (details : list Detail)
      (* { error, message, details } *)
| success_task (message : option string) (data : Task.t)
      (* { success: true, message, data } *)
| success_user (data : User.Public)
| success_tasks (data : list Task.t) (pagination : Task.Pagination)
    (filters : Task.Filters) (sorting : Task.Sorting)
| success_statistics (data : Task.Statistics)
| success_message (message : string).

Record Response := {
  status : Z;
  json : body
}.

(** [res.status(code).json(body)]; [res.json(body)] answers 200. *)
Definition respond (code : Z) (b : body) : Response := {| status := code; json := b |}.

(** What [requireOwnership] leaves in [req.resource]. *)
Inductive resource :=
| TaskResource (task : Task.t)
| UserResource (user : User.t).

(** [req.query] of GET /: a parameter that is missing is [VUndefined]. *)
Record Query := {
  page : Js.value;
  limit : Js.value;
  status_filter : Js.value;
  priority_filter : Js.value;
  is_urgent : Js.value;
  search : Js.value;
  sort_by : Js.value;
  sort_order : Js.value
}.

Record Request := {
  authorization : option string;    (* req.headers['authorization'] *)
  params_id : string;               (* req.params.id *)
  body_data : TaskData.t;           (* req.body *)
  query : Query;                    (* req.query *)
  user : option User.t;             (* req.user *)
  resource_found : option resource  (* req.resource *)
}.

(** [req.user = user]. *)
Definition set_user (user : User.t) (req : Request) : Request :=
  {| authorization := authorization req; params_id := params_id req;
     body_data := body_data req; query := query req;
     user := Some user; resource_found := resource_found req |}.

(** [req.resource = resource]. *)
Definition set_resource (r : resource) (req : Request) : Request :=
  {| authorization := authorization req; params_id := params_id req;
     body_data := body_data req; query := query req;
     user := user req; resource_found := Some r |}.

(** [req.body] and [req.query] with what a sanitizer wrote to them. *)
Definition set_body (b : TaskData.t) (req : Request) : Request :=
  {| authorization := authorization req; params_id := params_id req;
     body_data := b; query := query req;
     user := user req; resource_found := resource_found req |}.
Definition set_query (q : Query) (req : Request) : Request :=
  {| authorization := authorization req; params_id := params_id req;
     body_data := body_data req; query := q;
     user := user req; resource_found := resource_found req |}.

(** A middleware answers, or calls [next()]. *)
Inductive outcome :=
| Respond (res : Response)
| Next (req : Request).

End Http.

(** ** middleware/auth.js *)

Module Auth.

(** What [jwt.verify] does with a token and a secret: it returns the
    payload, of which [userId] is read, or throws an error with a name. *)
Inductive verified :=
| Decoded (userId : option string)
| Thrown (name : string).

Record Config := {
  verify : string → string → verified;
  JWT_SECRET : option string        (* process.env.JWT_SECRET *)
}.

(** [authHeader && authHeader.split(' ')[1]]. *)
Definition token_of (authHeader : option string) : option string :=
  match authHeader with
  | None => None
  | Some h => if String.eqb h "" then Some h else Js.split " " h !! 1%nat
  end.

Definition authenticateToken (config : Config) (env : Env)
    (users : SqliteUsers.Store) (req : Http.Request) : Http.outcome :=
  let authHeader := Http.authorization req in
  let token := token_of authHeader in
  if TaskData.falsy token then
    Http.Respond (Http.respond 401
      (Http.failure "Access token required"
                    "Please provide a valid authentication token"))
  else
    (* Verify token *)
    match verify config (default ""%string token)
            (TaskData.or_else (JWT_SECRET config) "your-secret-key") with
    | Decoded userId =>
        (* Get user from database *)
        match User.findById env users userId with
        | None =>
            Http.Respond (Http.respond 401
              (Http.failure "Invalid token" "User not found"))
        | Some user =>
            (* Add user to request object *)
            Http.Next (Http.set_user user req)
        end
    | Thrown name =>
        if String.eqb name "JsonWebTokenError" then
          Http.Respond (Http.respond 401
            (Http.failure "Invalid token" "The provided token is invalid"))
        else if String.eqb name "TokenExpiredError" then
          Http.Respond (Http.respond 401
            (Http.failure "Token expired" "The authentication token has expired"))
        else
          Http.Respond (Http.respond 500
            (Http.failure "Authentication error"
                          "An error occurred during authentication"))
    end.

(** [optionalAuth] always calls [next()]; the request it passes on. *)
Definition optionalAuth (config : Config) (env : Env)
    (users : SqliteUsers.Store) (req : Http.Request) : Http.Request :=
  let authHeader := Http.authorization req in
  let token := token_of authHeader in
  if TaskData.falsy token then req
  else
    match verify config (default ""%string token)
            (TaskData.or_else (JWT_SECRET config) "your-secret-key") with
    | Decoded userId =>
        match User.findById env users userId with
        | Some user => Http.set_user user req
        | None => req
        end
    | Thrown _ => req   (* Continue without authentication if token is invalid *)
    end.

Definition authorizeRoles (allowedRoles : list string) (req : Http.Request)
    : Http.outcome :=
  match Http.user req with
  | None =>
      Http.Respond (Http.respond 401
        (Http.failure "Authentication required"
                      "Please log in to access this resource"))
  | Some user =>
      let userRole := Js.or (User.role user) (Js.VString "user") in
      if (0 <? Z.of_nat (length allowedRoles))
         && negb (Js.includes allowedRoles userRole)
      then
        Http.Respond (Http.respond 403
          (Http.failure "Access denied"
                        "You do not have permission to access this resource"))
      else Http.Next req
  end.

(** [resource.user_id] and [resource.id]. *)
Definition resource_user_id (r : Http.resource) : option string :=
  match r with
  | Http.TaskResource task => Task.user_id task
  | Http.UserResource _ => None
  end.
Definition resource_id (r : Http.resource) : string :=
  match r with
  | Http.TaskResource task => Task.id task
  | Http.UserResource user => User.id user
  end.

(** [a !== b] for a field that may be undefined and a string. *)
Definition differs (a : option string) (b : string) : bool :=
  match a with
  | Some a => negb (String.eqb a b)
  | None => true
  end.

Definition requireOwnership (resourceType : string) (env : Env)
    (users : SqliteUsers.Store) (db : Sqlite.Store) (req : Http.Request)
    : Http.outcome :=
  match Http.user req with
  | None =>
      Http.Respond (Http.respond 401
        (Http.failure "Authentication required"
                      "Please log in to access this resource"))
  | Some user =>
      let resourceId := Http.params_id req in
      (* Check ownership *)
      let check (resource : option Http.resource) : Http.outcome :=
        match resource with
        | None =>
            Http.Respond (Http.respond 404
              (Http.failure "Resource not found" (resourceType +:+ " not found")))
        | Some resource =>
            if differs (resource_user_id resource) (User.id user)
               && differs (Some (resource_id resource)) (User.id user)
            then
              Http.Respond (Http.respond 403
                (Http.failure "Access denied"
                              "You can only access your own resources"))
            else Http.Next (Http.set_resource resource req)
        end in
      (* Get resource based on type *)
      if String.eqb resourceType "task" then
        check (Http.TaskResource <$> Task.findById env db resourceId)
      else if String.eqb resourceType "user" then
        check (Http.UserResource <$> User.findById env users (Some resourceId))
      else
        Http.Respond (Http.respond 400
          (Http.failure "Invalid resource type"
                        "Unsupported resource type for ownership check"))
  end.

End Auth.

(** ** middleware/validation.js *)

Module Validation.

(** What the chains of a validator leave behind when they have run on a
    request: the errors of [validationResult(req)], and the body or the
    query as the sanitizers ([trim]) rewrote it.  The rules on the fields
    of a body and of a query ([isLength], [isIn], [isBoolean],
    [isISO8601], [isInt]) are express-validator's and validator.js's and
    enter as they are. *)
Record Chains := {
  taskCreation : TaskData.t → TaskData.t * list Http.Detail;
  taskUpdate : TaskData.t → TaskData.t * list Http.Detail;
  pagination : Http.Query → list Http.Detail;
  taskFilters : Http.Query → Http.Query * list Http.Detail
}.

Definition handleValidationErrors (errors : list Http.Detail)
    (req : Http.Request) : Http.outcome :=
  match errors with
  | [] => Http.Next req
  | _ :: _ =>
      Http.Respond (Http.respond 400
        (Http.validation_failure "Validation failed"
                                 "Please check your input data" errors))
  end.

Definition validateTaskCreation (chains : Chains) (req : Http.Request)
    : Http.outcome :=
  let '(body, errors) := taskCreation chains (Http.body_data req) in
  handleValidationErrors errors (Http.set_body body req).

Definition validateTaskUpdate (chains : Chains) (req : Http.Request)
    : Http.outcome :=
  let '(body, errors) := taskUpdate chains (Http.body_data req) in
  handleValidationErrors errors (Http.set_body body req).

Definition validatePagination (chains : Chains) (req : Http.Request)
    : Http.outcome :=
  handleValidationErrors (pagination chains (Http.query req)) req.

Definition validateTaskFilters (chains : Chains) (req : Http.Request)
    : Http.outcome :=
  let '(query, errors) := taskFilters chains (Http.query req) in
  handleValidationErrors errors (Http.set_query query req).

(** *** The pattern of [validateTaskId] *)

Definition is_digit (c : ascii) : bool :=
  let n := N_of_ascii c in ((48 <=? n) && (n <=? 57))%N.

(** [[0-9a-f]]. *)
Definition is_hex (c : ascii) : bool :=
  let n := N_of_ascii c in is_digit c || ((97 <=? n) && (n <=? 102))%N.

(** [[a-zA-Z0-9-]]. *)
Definition is_alphanumeric_or_dash (c : ascii) : bool :=
  Js.is_lower c || Js.is_upper c || is_digit c || Ascii.eqb c "-".

(** [class{n}] at the head of a text: what follows it. *)
Fixpoint run (class : ascii → bool) (n : nat) (s : string) : option string :=
  match n with
  | O => Some s
  | S n' =>
      match s with
      | String c s' => if class c then run class n' s' else None
      | EmptyString => None
      end
  end.

Definition dash (s : string) : option string :=
  match s with
  | String c s' => if Ascii.eqb c "-" then Some s' else None
  | EmptyString => None
  end.

(** Groups of [[0-9a-f]] of the given sizes, a dash between one and the
    next, and nothing after the last. *)
Fixpoint hex_groups (sizes : list nat) (s : string) : bool :=
  match sizes with
  | [] => false
  | n :: sizes' =>
      match run is_hex n s with
      | Some rest =>
          match sizes' with
          | [] => String.eqb rest ""
          | _ :: _ =>
              match dash rest with
              | Some rest => hex_groups sizes' rest
              | None => false
              end
          end
      | None => false
      end
  end.

(** [/^[0-9a-f]{8}-[0-9a-f]{4}-[0-9a-f]{4}-[0-9a-f]{4}-[0-9a-f]{12}$/]. *)
Definition uuid_pattern (s : string) : bool :=
  hex_groups [8; 4; 4; 4; 12]%nat s.

Fixpoint all_of (class : ascii → bool) (s : string) : bool :=
  match s with
  | EmptyString => true
  | String c s' => class c && all_of class s'
  end.

(** [/^[a-zA-Z0-9-]+$/]. *)
Definition alphanumeric_pattern (s : string) : bool :=
  negb (String.eqb s "") && all_of is_alphanumeric_or_dash s.

(** [param('id').matches(/^...$|^[a-zA-Z0-9-]+$/)]. *)
Definition task_id_matches (id : string) : bool :=
  uuid_pattern id || alphanumeric_pattern id.

Definition validateTaskId (req : Http.Request) : Http.outcome :=
  let id := Http.params_id req in
  let errors :=
    if task_id_matches id then []
    else [ {| Http.field := "id";
              Http.message := "Task ID must be a valid UUID or alphanumeric string";
              Http.value := Js.VString id |} ] in
  handleValidationErrors errors req.

End Validation.

(** ** routes/tasks.js

    The handlers, and the routes as [router.use(authenticateToken)], the
    validators and [requireOwnership('task')] stand before them. *)

Module TaskRoutes.

(** [{ ...req.body, user_id: req.user.id }]. *)
Definition with_user_id (user_id : string) (d : TaskData.t) : TaskData.t :=
  {| TaskData.id := TaskData.id d;
     TaskData.title := TaskData.title d;
     TaskData.description := TaskData.description d;
     TaskData.status := TaskData.status d;
     TaskData.priority := TaskData.priority d;
     TaskData.is_urgent := TaskData.is_urgent d;
     TaskData.due_date := TaskData.due_date d;
     TaskData.completion_percentage := TaskData.completion_percentage d;
     TaskData.priority_score := TaskData.priority_score d;
     TaskData.user_id := Some user_id;
     TaskData.created_at := TaskData.created_at d;
     TaskData.updated_at := TaskData.updated_at d;
     TaskData.others := TaskData.others d |}.

(** The handler of POST /. *)
Definition create_handler (env : Env) (db : Sqlite.Store) (req : Http.Request)
    : Sqlite.Store * Http.Response :=
  let failed :=
    Http.respond 500
      (Http.failure "Task creation failed"
                    "An error occurred while creating the task") in
  match Http.user req with
  | None => (db, failed)      (* req.user.id throws a TypeError, caught *)
  | Some user =>
      let taskData := with_user_id (User.id user) (Http.body_data req) in
      match Task.create env db taskData with
      | Ok (db', task) =>
          (db', Http.respond 201
                  (Http.success_task (Some "Task created successfully"%string)
                                     (Task.toResponse task)))
      | Throw _ => (db, failed)
      end
  end.

(** The handler of GET /statistics. *)
Definition statistics_handler (db : Sqlite.Store) (req : Http.Request)
    : Http.Response :=
  match Http.user req with
  | None =>
      Http.respond 500
        (Http.failure "Statistics retrieval failed"
                      "An error occurred while retrieving statistics")
  | Some user =>
      Http.respond 200 (Http.success_statistics (Task.getStatistics db (User.id user)))
  end.

(** The options the handler of GET / builds from the query. *)
Definition list_options (user : User.t) (q : Http.Query) : Task.Options.t :=
  let page := Task.Options.or_default (Http.page q) (Js.num 1) in
  let limit := Task.Options.or_default (Http.limit q) (Js.num 10) in
  let sort_by := Task.Options.or_default (Http.sort_by q) (Js.VString "created_at") in
  let sort_order := Task.Options.or_default (Http.sort_order q) (Js.VString "DESC") in
  {| Task.Options.user_id := Js.VString (User.id user);
     Task.Options.page := Js.VNumber (Js.parseInt page);
     Task.Options.limit := Js.VNumber (Js.parseInt limit);
     Task.Options.status := Http.status_filter q;
     Task.Options.priority := Http.priority_filter q;
     Task.Options.is_urgent :=
       match Http.is_urgent q with
       | Js.VUndefined => Js.VUndefined
       | Js.VString s => Js.VBool (String.eqb s "true")
       | _ => Js.VBool false
       end;
     Task.Options.search := Http.search q;
     Task.Options.sort_by := sort_by;
     Task.Options.sort_order := sort_order |}.

(** The handler of GET /. *)
Definition list_handler (env : Env) (database : Task.Database) (req : Http.Request)
    : Http.Response :=
  let failed :=
    Http.respond 500
      (Http.failure "Task retrieval failed"
                    "An error occurred while retrieving tasks") in
  match Http.user req with
  | None => failed
  | Some user =>
      match Task.findAll env database (list_options user (Http.query req)) with
      | Ok result =>
          Http.respond 200
            (Http.success_tasks (List.map Task.toResponse (Task.tasks result))
               (Task.pagination result) (Task.filters result) (Task.sorting result))
      | Throw _ => failed
      end
  end.


(** The handler of PUT /:id. *)
Definition update_handler (env : Env) (db : Sqlite.Store) (req : Http.Request)
    : Sqlite.Store * Http.Response :=
  let failed :=
    Http.respond 500
      (Http.failure "Task update failed"
                    "An error occurred while updating the task") in
  match Task.update env db (Http.params_id req) (Http.body_data req) with
  | Ok (db', Some updatedTask) =>
      (db', Http.respond 200
              (Http.success_task (Some "Task updated successfully"%string)
                                 (Task.toResponse updatedTask)))
  | Ok (db', None) => (db', failed)   (* updatedTask.toResponse() throws *)
  | Throw _ => (db, failed)
  end.

(** The handler of DELETE /:id. *)
Definition delete_handler (db : Sqlite.Store) (req : Http.Request)
    : Sqlite.Store * Http.Response :=
  let '(db', deleted) := Task.delete db (Http.params_id req) in
  if negb deleted then
    (db', Http.respond 404
            (Http.failure "Task not found" "The specified task does not exist"))
  else
    (db', Http.respond 200 (Http.success_message "Task deleted successfully")).

(** The routes: [authenticateToken] first, then the validators and the
    ownership check the route names, then the handler. *)
Definition post_task (config : Auth.Config) (chains : Validation.Chains)
    (env : Env) (users : SqliteUsers.Store)
    (db : Sqlite.Store) (req : Http.Request) : Sqlite.Store * Http.Response :=
  match Auth.authenticateToken config env users req with
  | Http.Respond res => (db, res)
  | Http.Next req =>
      match Validation.validateTaskCreation chains req with
      | Http.Respond res => (db, res)
      | Http.Next req => create_handler env db req
      end
  end.

Definition get_statistics (config : Auth.Config) (env : Env)
    (users : SqliteUsers.Store) (db : Sqlite.Store) (req : Http.Request)
    : Http.Response :=
  match Auth.authenticateToken config env users req with
  | Http.Respond res => res
  | Http.Next req => statistics_handler db req
  end.

Definition get_tasks (config : Auth.Config) (chains : Validation.Chains)
    (env : Env) (users : SqliteUsers.Store)
    (database : Task.Database) (req : Http.Request) : Http.Response :=
  match Auth.authenticateToken config env users req with
  | Http.Respond res => res
  | Http.Next req =>
      match Validation.validatePagination chains req with
      | Http.Respond res => res
      | Http.Next req =>
          match Validation.validateTaskFilters chains req with
          | Http.Respond res => res
          | Http.Next req => list_handler env database req
          end
      end
  end.


Definition put_task (config : Auth.Config) (chains : Validation.Chains)
    (env : Env) (users : SqliteUsers.Store)
    (db : Sqlite.Store) (req : Http.Request) : Sqlite.Store * Http.Response :=
  match Auth.authenticateToken config env users req with
  | Http.Respond res => (db, res)
  | Http.Next req =>
      match Validation.validateTaskId req with
      | Http.Respond res => (db, res)
      | Http.Next req =>
          match Validation.validateTaskUpdate chains req with
          | Http.Respond res => (db, res)
          | Http.Next req =>
              match Auth.requireOwnership "task" env users db req with
              | Http.Respond res => (db, res)
              | Http.Next req => update_handler env db req
              end
          end
      end
  end.

Definition delete_task (config : Auth.Config) (env : Env) (users : SqliteUsers.Store)
    (db : Sqlite.Store) (req : Http.Request) : Sqlite.Store * Http.Response :=
  match Auth.authenticateToken config env users req with
  | Http.Respond res => (db, res)
  | Http.Next req =>
      match Validation.validateTaskId req with
      | Http.Respond res => (db, res)
      | Http.Next req =>
          match Auth.requireOwnership "task" env users db req with
          | Http.Respond res => (db, res)
          | Http.Next req => delete_handler db req
          end
      end
  end.

End TaskRoutes.

(** ** Vocabulary of the statements *)

(** The store an operation leaves behind: the one it returns, or the one
    it started from when it throws. *)
Definition store_after {A : Type} (db : Sqlite.Store)
    (r : result (Sqlite.Store * A)) : Sqlite.Store :=
  match r with
  | Ok (db', _) => db'
  | Throw _ => db
  end.

(** The operation returned; it did not throw. *)
Definition succeeds {A : Type} (r : result A) : bool :=
  match r with
  | Ok _ => true
  | Throw _ => false
  end.

(** The task a reader gets for a row ([findById]), whose methods recompute
    the derived fields. *)
Definition task_of_row (env : Env) (r : Sqlite.Row) : Task.t :=
  Task.new env (TaskData.of_row r).

(** Sequences of operations, with the environment each one runs in. *)
Inductive op :=
| Create (env : Env) (taskData : TaskData.t)
| Update (env : Env) (id : string) (updateData : TaskData.t)
| Delete (id : string).

(** A state of a run: the store, and for every task the environment of the
    last write that succeeded on it. *)
Definition run_state : Type := Sqlite.Store * gmap string Env.

Definition step (st : run_state) (o : op) : run_state :=
  let '(db, written) := st in
  match o with
  | Create env taskData =>
      match Task.create env db taskData with
      | Ok (db', task) => (db', <[ Task.id task := env ]> written)
      | Throw _ => st
      end
  | Update env id updateData =>
      match Task.update env db id updateData with
      | Ok (db', _) => (db', <[ id := env ]> written)
      | Throw _ => st
      end
  | Delete id => (fst (Task.delete db id), written)
  end.

Definition run (ops : list op) : run_state := fold_left step ops (∅, ∅).

(** A payload with other values for the two derived fields. *)
Definition with_derived (c p : option Z) (d : TaskData.t) : TaskData.t :=
  {| TaskData.id := TaskData.id d;
     TaskData.title := TaskData.title d;
     TaskData.description := TaskData.description d;
     TaskData.status := TaskData.status d;
     TaskData.priority := TaskData.priority d;
     TaskData.is_urgent := TaskData.is_urgent d;
     TaskData.due_date := TaskData.due_date d;
     TaskData.completion_percentage := c;
     TaskData.priority_score := p;
     TaskData.user_id := TaskData.user_id d;
     TaskData.created_at := TaskData.created_at d;
     TaskData.updated_at := TaskData.updated_at d;
     TaskData.others := TaskData.others d |}.

(** A payload that holds a title and nothing else. *)
Definition title_only (title : string) : TaskData.t :=
  {| TaskData.id := None; TaskData.title := Some title;
     TaskData.description := None; TaskData.status := None;
     TaskData.priority := None; TaskData.is_urgent := None;
     TaskData.due_date := None; TaskData.completion_percentage := None;
     TaskData.priority_score := None; TaskData.user_id := None;
     TaskData.created_at := None; TaskData.updated_at := None;
     TaskData.others := [] |}.

(** The scoring rule in the words of the specification. *)
Definition base_weight (priority : string) : Z :=
  if String.eqb priority "LOW" then 10
  else if String.eqb priority "MEDIUM" then 25
  else if String.eqb priority "HIGH" then 40
  else if String.eqb priority "URGENT" then 60
  else 25.

Definition due_contribution (d : Z) : Z :=
  if d <? 0 then 40
  else if d <=? 1 then 35
  else if d <=? 3 then 25
  else if d <=? 7 then 15
  else 5.

(** The instant of a due date, when there is one: a [due_date] that is
    missing, or that holds the number 0, is none. *)
Definition due_instant (due_date : option Due.t) : option Z :=
  match due_date with
  | Some value => if Due.truthy value then Some (Due.instant value) else None
  | None => None
  end.

Definition specified_score (env : Env) (priority : string) (is_urgent : bool)
    (due_date : option Due.t) : Z :=
  Z.min (base_weight priority
         + (if is_urgent then 20 else 0)
         + match due_instant due_date with
           | Some due => due_contribution (Moment.diff_days (utcOffset env) due (now env))
           | None => 0
           end)
        100.

Definition specified_percentage (status : string) : Z :=
  if String.eqb status "TODO" then 0
  else if String.eqb status "IN_PROGRESS" then 50
  else if String.eqb status "COMPLETED" then 100
  else if String.eqb status "CANCELLED" then 0
  else 0.

(** A name that [Object.prototype] answers to. *)
Definition inherited_key (key : string) : bool :=
  Js.truthy (Js.ObjectPrototype_get key).

(** [needle] occurs in [text], letters compared without regard to case. *)
Definition occurs_in (needle text : string) : Prop :=
  ∃ before after,
    Js.toLowerCase text = before +:+ Js.toLowerCase needle +:+ after.


(** [text] starts with [s], letters compared without regard to case. *)
Fixpoint starts_with (s text : string) : bool :=
  match s, text with
  | EmptyString, _ => true
  | String c s', String d text' =>
      Ascii.eqb (Js.lower c) (Js.lower d) && starts_with s' text'
  | String _ _, EmptyString => false
  end.

(** Some suffix of [text] starts with [s]. *)
Fixpoint occurs (s text : string) : bool :=
  starts_with s text
  || match text with
     | EmptyString => false
     | String _ text' => occurs s text'
     end.

(** Options that hold one field and nothing else. *)
Definition only_search (search : Js.value) : Task.Options.t :=
  {| Task.Options.user_id := Js.VUndefined;
     Task.Options.page := Js.VUndefined;
     Task.Options.limit := Js.VUndefined;
     Task.Options.status := Js.VUndefined;
     Task.Options.priority := Js.VUndefined;
     Task.Options.is_urgent := Js.VUndefined;
     Task.Options.search := search;
     Task.Options.sort_by := Js.VUndefined;
     Task.Options.sort_order := Js.VUndefined |}.

Definition only_sort_order (sort_order : Js.value) : Task.Options.t :=
  {| Task.Options.user_id := Js.VUndefined;
     Task.Options.page := Js.VUndefined;
     Task.Options.limit := Js.VUndefined;
     Task.Options.status := Js.VUndefined;
     Task.Options.priority := Js.VUndefined;
     Task.Options.is_urgent := Js.VUndefined;
     Task.Options.search := Js.VUndefined;
     Task.Options.sort_by := Js.VUndefined;
     Task.Options.sort_order := sort_order |}.

(** A value that is a string, or missing. *)
Definition string_or_undefined (v : Js.value) : bool :=
  match v with
  | Js.VString _ | Js.VUndefined => true
  | _ => false
  end.

(** A value that is a string of ASCII characters, or missing. *)
Fixpoint is_ascii (s : string) : bool :=
  match s with
  | EmptyString => true
  | String c s' => (N_of_ascii c <? 128)%N && is_ascii s'
  end.

Definition ascii_or_undefined (v : Js.value) : bool :=
  match v with
  | Js.VString s => is_ascii s
  | Js.VUndefined => true
  | _ => false
  end.

(** The ordering the specification describes. *)
Definition effective_sort_by (sort_by : Js.value) : string :=
  match sort_by with
  | Js.VString s =>
      if existsb (String.eqb s) Task.allowedSortFields then s else "created_at"%string
  | _ => "created_at"%string
  end.

Definition effective_sort_order (sort_order : Js.value) : string :=
  match sort_order with
  | Js.VString s =>
      let u := Js.toUpperCase s in
      if String.eqb u "ASC" || String.eqb u "DESC" then u else "DESC"%string
  | _ => "DESC"%string
  end.

(** [n / d] rounded to the nearest integer, a half going up ([d > 0]). *)
Definition round_half_up (n d : Z) : Z := (2 * n + d) / (2 * d).

(** *** Sample data *)

Definition noon : Z := 1700000000000.
Definition day : Z := 86400000.

Definition env_at (clock : Z) : Env :=
  {| now := clock; utcOffset := UTC; uuidv4 := "6f1c2a9e" |}.

Definition sample_row (id status : string) (due : option Z) : Sqlite.Row :=
  {| Sqlite.id := id; Sqlite.title := "Write the report";
     Sqlite.description := None; Sqlite.status := Some status;
     Sqlite.priority := Some "MEDIUM"; Sqlite.is_urgent := false;
     Sqlite.due_date := Sqlite.TEXT <$> due;
     Sqlite.completion_percentage := 0; Sqlite.priority_score := 25;
     Sqlite.user_id := "alice";
     Sqlite.created_at := noon; Sqlite.updated_at := noon |}.

Definition one_task : Sqlite.Store :=
  {[ "t1"%string := sample_row "t1" "TODO" (Some (noon + 10 * day)) ]}.

Definition alice_options : Task.Options.t :=
  {| Task.Options.user_id := Js.VString "alice";
     Task.Options.page := Js.num 2; Task.Options.limit := Js.num 10;
     Task.Options.status := Js.VString "TODO";
     Task.Options.priority := Js.VUndefined;
     Task.Options.is_urgent := Js.VBool false;
     Task.Options.search := Js.VString "report";
     Task.Options.sort_by := Js.VString "malicious_field";
     Task.Options.sort_order := Js.VString "asc" |}.

Definition alice_plan : Task.Plan :=
  {| Task.whereConditions :=
       [ "user_id = ?"; "status = ?"; "is_urgent = ?";
         "(title LIKE ? OR description LIKE ?)" ]%string;
     Task.params :=
       [ Js.VString "alice"; Js.VString "TODO"; Js.num 0;
         Js.VString "%report%"; Js.VString "%report%" ];
     Task.whereClause :=
       "WHERE user_id = ? AND status = ? AND is_urgent = ? AND (title LIKE ? OR description LIKE ?)";
     Task.validSortBy := "created_at";
     Task.validSortOrder := "ASC";
     Task.offset := Js.Num 10;
     Task.query :=
       {| Task.sql := "SELECT * FROM tasks WHERE user_id = ? AND status = ? AND is_urgent = ? AND (title LIKE ? OR description LIKE ?) ORDER BY created_at ASC LIMIT ? OFFSET ?";
          Task.bindings :=
            [ Js.VString "alice"; Js.VString "TODO"; Js.num 0;
              Js.VString "%report%"; Js.VString "%report%";
              Js.num 10; Js.num 10 ] |};
     Task.countQuery :=
       {| Task.sql := "SELECT COUNT(*) as count FROM tasks WHERE user_id = ? AND status = ? AND is_urgent = ? AND (title LIKE ? OR description LIKE ?)";
          Task.bindings :=
            [ Js.VString "alice"; Js.VString "TODO"; Js.num 0;
              Js.VString "%report%"; Js.VString "%report%" ] |} |}.

Definition numbered (n : nat) : string :=
  "t" +:+ NilZero.string_of_int (Z.to_int (Z.of_nat n)).

(** [total] tasks of alice, the first [completed] of them COMPLETED. *)
Definition tasks_of_alice (completed total : nat) : Sqlite.Store :=
  list_to_map
    (List.map (fun n => (numbered n,
                         sample_row (numbered n)
                           (if (n <? completed)%nat then "COMPLETED" else "TODO") None))
              (seq 0 total)).

Definition sample_task (title : string) (status priority : string)
    (is_urgent : bool) (due : option Z) : TaskData.t :=
  {| TaskData.id := None; TaskData.title := Some title;
     TaskData.description := None; TaskData.status := Some status;
     TaskData.priority := Some priority; TaskData.is_urgent := Some is_urgent;
     TaskData.due_date := (fun instant => Due.text instant None) <$> due;
     TaskData.completion_percentage := None;
     TaskData.priority_score := None; TaskData.user_id := Some "alice";
     TaskData.created_at := None; TaskData.updated_at := None;
     TaskData.others := [] |}.

(** A payload that holds a status and nothing else. *)
Definition status_only (status : string) : TaskData.t :=
  {| TaskData.id := None; TaskData.title := None;
     TaskData.description := None; TaskData.status := Some status;
     TaskData.priority := None; TaskData.is_urgent := None;
     TaskData.due_date := None; TaskData.completion_percentage := None;
     TaskData.priority_score := None; TaskData.user_id := None;
     TaskData.created_at := None; TaskData.updated_at := None;
     TaskData.others := [] |}.

(** A payload with an id, and with one more own key. *)
Definition with_id (id : string) (d : TaskData.t) : TaskData.t :=
  {| TaskData.id := Some id;
     TaskData.title := TaskData.title d;
     TaskData.description := TaskData.description d;
     TaskData.status := TaskData.status d;
     TaskData.priority := TaskData.priority d;
     TaskData.is_urgent := TaskData.is_urgent d;
     TaskData.due_date := TaskData.due_date d;
     TaskData.completion_percentage := TaskData.completion_percentage d;
     TaskData.priority_score := TaskData.priority_score d;
     TaskData.user_id := TaskData.user_id d;
     TaskData.created_at := TaskData.created_at d;
     TaskData.updated_at := TaskData.updated_at d;
     TaskData.others := TaskData.others d |}.


(** The payload [{ title: 'Renew the lease', user_id: 'alice', due_date:
    '20991231' }]: moment reads the text as the last day of 2099, SQLite
    as the number 20991231. *)
Definition due_20991231 : TaskData.t :=
  {| TaskData.id := None; TaskData.title := Some "Renew the lease"%string;
     TaskData.description := None; TaskData.status := None;
     TaskData.priority := None; TaskData.is_urgent := None;
     TaskData.due_date := Some (Due.text 4102358400000 (Some 20991231));
     TaskData.completion_percentage := None;
     TaskData.priority_score := None; TaskData.user_id := Some "alice"%string;
     TaskData.created_at := None; TaskData.updated_at := None;
     TaskData.others := [] |}.

(** A run that leaves a task in the store. *)
Definition sample_run : list op :=
  [ Create (env_at noon)
      (with_id "t-1" (sample_task "Write the report" "TODO" "LOW" false
                        (Some (noon + day))));
    Create (env_at (noon + day))
      (with_id "t-2" (sample_task "Call the printer" "IN_PROGRESS" "HIGH" true
                        (Some (noon + 5 * day))));
    Update (env_at (noon + 3 * day)) "t-1" (title_only "Write it");
    Update (env_at (noon + 4 * day)) "t-2" (status_only "COMPLETED");
    Delete "t-1" ].

(** Reads of a field through the two setters. *)
Ltac task_fields :=
  cbn [Task.set_priority_score Task.set_completion_percentage
       Task.id Task.title Task.description Task.status Task.priority
       Task.is_urgent Task.due_date Task.completion_percentage
       Task.priority_score Task.user_id Task.created_at Task.updated_at] in *.

(** ** Vocabulary of the further properties *)


(** What the column [due_date] gives back for a value written to it. *)
Definition read_back (value : Due.t) : Due.t :=
  Sqlite.read_datetime (Sqlite.store_datetime value).

(** The column gives the due date of a payload back as it was written, if
    the payload has one. *)
Definition due_date_kept (d : TaskData.t) : Prop :=
  ∀ value, TaskData.due_date d = Some value → read_back value = value.

(** A task as it is read from the row the store made of it: the due date
    as the column gives it back, and the two timestamps of the row. *)
Definition as_stored (created_at updated_at : Z) (task : Task.t) : Task.t :=
  {| Task.id := Task.id task; Task.title := Task.title task;
     Task.description := Task.description task;
     Task.status := Task.status task; Task.priority := Task.priority task;
     Task.is_urgent := Task.is_urgent task;
     Task.due_date := read_back <$> Task.due_date task;
     Task.completion_percentage := Task.completion_percentage task;
     Task.priority_score := Task.priority_score task;
     Task.user_id := Task.user_id task;
     Task.created_at := Some created_at; Task.updated_at := Some updated_at |}.

(** The row [create] inserts and the task it returns, when the INSERT is
    accepted: the fields of the payload, TODO, MEDIUM and false where it
    has none, and the derived fields the rules of the specification give
    for them. *)
Definition created_row (env : Env) (taskData : TaskData.t) : Sqlite.Row :=
  let status := TaskData.or_else (TaskData.status taskData) "TODO" in
  let priority := TaskData.or_else (TaskData.priority taskData) "MEDIUM" in
  let is_urgent := default false (TaskData.is_urgent taskData) in
  {| Sqlite.id := TaskData.or_else (TaskData.id taskData) (uuidv4 env);
     Sqlite.title := default ""%string (TaskData.title taskData);
     Sqlite.description := TaskData.description taskData;
     Sqlite.status := Some status;
     Sqlite.priority := Some priority;
     Sqlite.is_urgent := is_urgent;
     Sqlite.due_date := Sqlite.store_datetime <$> TaskData.due_date taskData;
     Sqlite.completion_percentage := specified_percentage status;
     Sqlite.priority_score :=
       specified_score env priority is_urgent (TaskData.due_date taskData);
     Sqlite.user_id := default ""%string (TaskData.user_id taskData);
     Sqlite.created_at := Sqlite.CURRENT_TIMESTAMP (now env);
     Sqlite.updated_at := Sqlite.CURRENT_TIMESTAMP (now env) |}.

Definition created_task (env : Env) (taskData : TaskData.t) : Task.t :=
  let task := Task.new env taskData in
  Task.set_priority_score
    (Js.Num (specified_score env (Task.priority task) (Task.is_urgent task)
               (Task.due_date task)))
    (Task.set_completion_percentage
       (Js.num (specified_percentage (Task.status task))) task).

(** The merged record of an update: a field of the payload where it has
    one, and otherwise the field of the stored row as [findById] reads it,
    TODO and MEDIUM standing for a status and a priority that are NULL. *)
Definition merged_status (old : Sqlite.Row) (updateData : TaskData.t) : string :=
  default (TaskData.or_else (Sqlite.status old) "TODO") (TaskData.status updateData).
Definition merged_priority (old : Sqlite.Row) (updateData : TaskData.t) : string :=
  default (TaskData.or_else (Sqlite.priority old) "MEDIUM")
          (TaskData.priority updateData).
Definition merged_is_urgent (old : Sqlite.Row) (updateData : TaskData.t) : bool :=
  default (Sqlite.is_urgent old) (TaskData.is_urgent updateData).
Definition merged_due_date (old : Sqlite.Row) (updateData : TaskData.t)
    : option Due.t :=
  match TaskData.due_date updateData with
  | Some value => Some value
  | None => Sqlite.read_datetime <$> Sqlite.due_date old
  end.

(** The row [update] writes over [old], when the UPDATE is accepted: the
    merged record, with the derived fields the rules of the specification
    give for it when the environment is [env]. *)
Definition updated_row (env : Env) (old : Sqlite.Row) (updateData : TaskData.t)
    : Sqlite.Row :=
  {| Sqlite.id := Sqlite.id old;
     Sqlite.title := default (Sqlite.title old) (TaskData.title updateData);
     Sqlite.description :=
       match TaskData.description updateData with
       | Some description => Some description
       | None => Sqlite.description old
       end;
     Sqlite.status := Some (merged_status old updateData);
     Sqlite.priority := Some (merged_priority old updateData);
     Sqlite.is_urgent := merged_is_urgent old updateData;
     Sqlite.due_date := Sqlite.store_datetime <$> merged_due_date old updateData;
     Sqlite.completion_percentage :=
       specified_percentage (merged_status old updateData);
     Sqlite.priority_score :=
       specified_score env (merged_priority old updateData)
                       (merged_is_urgent old updateData)
                       (merged_due_date old updateData);
     Sqlite.user_id := Sqlite.user_id old;
     Sqlite.created_at := Sqlite.created_at old;
     Sqlite.updated_at := Sqlite.CURRENT_TIMESTAMP (now env) |}.

(** The derived fields of a row are those the rules of the specification
    give for its status, its priority, its urgency and its due date when
    the environment is [env]. *)
Definition derived_as_specified (env : Env) (r : Sqlite.Row) : Prop :=
  ∃ status priority,
    Sqlite.status r = Some status
    ∧ Sqlite.priority r = Some priority
    ∧ Sqlite.completion_percentage r = specified_percentage status
    ∧ Sqlite.priority_score r
      = specified_score env priority (Sqlite.is_urgent r)
                        (Sqlite.read_datetime <$> Sqlite.due_date r).

(** An operation that writes no due date but one the column gives back
    as it was written. *)
Definition keeps_due_dates (o : op) : Prop :=
  match o with
  | Create _ taskData => due_date_kept taskData
  | Update _ _ updateData => due_date_kept updateData
  | Delete _ => True
  end.

(** Every row of the store is one whose derived fields were as specified
    in the environment of the last write that succeeded on it. *)
Definition derived_fields_as_specified (st : run_state) : Prop :=
  ∀ id r, fst st !! id = Some r →
    ∃ env, snd st !! id = Some env ∧ derived_as_specified env r.

(** A row as the schema and the two methods want it, stored under its own
    id. *)
Definition row_well_formed (key : string) (r : Sqlite.Row) : Prop :=
  Sqlite.id r = key
  ∧ Sqlite.user_id r ≠ ""%string
  ∧ (∃ s, Sqlite.status r = Some s ∧ In s Sqlite.status_values
          ∧ Sqlite.completion_percentage r = specified_percentage s)
  ∧ (∃ p, Sqlite.priority r = Some p ∧ In p Sqlite.priority_values)
  ∧ In (Sqlite.completion_percentage r) [0; 50; 100]
  ∧ 10 ≤ Sqlite.priority_score r ≤ 100.

Definition store_well_formed (db : Sqlite.Store) : Prop :=
  map_Forall row_well_formed db.

(** The zone of the process has one offset from UTC at all instants. *)
Definition fixed_offset (env : Env) : Prop :=
  ∀ a b, utcOffset env a = utcOffset env b.

(** The number of [?] in the text of a statement. *)
Fixpoint count_placeholders (s : string) : nat :=
  match s with
  | EmptyString => 0%nat
  | String c s' => ((if Ascii.eqb c "?" then 1 else 0) + count_placeholders s')%nat
  end.


(** A sample task in general position. *)
Definition sample_of (priority : string) (is_urgent : Z) (due : option Z)
    : Seed.SampleTask :=
  {| Seed.id := "task-004"; Seed.title := "Review the schema";
     Seed.description := "Read the constraints once more";
     Seed.status := "TODO"; Seed.priority := priority;
     Seed.is_urgent := is_urgent; Seed.due_date := due;
     Seed.user_id := "admin-001" |}.


(** The score the seeding gives a sample task whose priority is not an
    inherited name, and the row it inserts for it. *)
Definition seeded_score (clock : Z) (task : Seed.SampleTask) : Z :=
  Z.min (base_weight (Seed.priority task)
         + (if Js.truthy (Js.num (Seed.is_urgent task)) then 20 else 0)
         + match Seed.due_date task with
           | Some due => due_contribution (Seed.ceil_div (due - clock) 86400000)
           | None => 0
           end)
        100.

Definition seeded_row (clock : Z) (task : Seed.SampleTask) : Sqlite.Row :=
  {| Sqlite.id := Seed.id task; Sqlite.title := Seed.title task;
     Sqlite.description := Some (Seed.description task);
     Sqlite.status := Some (Seed.status task);
     Sqlite.priority := Some (Seed.priority task);
     Sqlite.is_urgent := Js.truthy (Js.num (Seed.is_urgent task));
     Sqlite.due_date := Sqlite.TEXT <$> Seed.due_date task;
     Sqlite.completion_percentage := specified_percentage (Seed.status task);
     Sqlite.priority_score := seeded_score clock task;
     Sqlite.user_id := Seed.user_id task;
     Sqlite.created_at := Sqlite.CURRENT_TIMESTAMP clock;
     Sqlite.updated_at := Sqlite.CURRENT_TIMESTAMP clock |}.

(** A clock that stands still. *)
Definition clock_at (clock : Z) : nat → Z := fun _ => clock.

(** No character of the string is a space. *)
Fixpoint no_space (s : string) : bool :=
  match s with
  | EmptyString => true
  | String c s' => negb (Ascii.eqb c " ") && no_space s'
  end.

(** A request that carries a header, an id, a payload and nothing else. *)
Definition no_query : Http.Query :=
  {| Http.page := Js.VUndefined; Http.limit := Js.VUndefined;
     Http.status_filter := Js.VUndefined; Http.priority_filter := Js.VUndefined;
     Http.is_urgent := Js.VUndefined; Http.search := Js.VUndefined;
     Http.sort_by := Js.VUndefined; Http.sort_order := Js.VUndefined |}.

Definition request (authorization : option string) (id : string)
    (payload : TaskData.t) : Http.Request :=
  {| Http.authorization := authorization; Http.params_id := id;
     Http.body_data := payload; Http.query := no_query;
     Http.user := None; Http.resource_found := None |}.

(** Chains that find no error and rewrite nothing, and chains that ask a
    body for a title. *)
Definition no_errors : Validation.Chains :=
  {| Validation.taskCreation := fun body => (body, []);
     Validation.taskUpdate := fun body => (body, []);
     Validation.pagination := fun _ => [];
     Validation.taskFilters := fun query => (query, []) |}.

Definition title_required : Validation.Chains :=
  {| Validation.taskCreation := fun body =>
       (body,
        if TaskData.falsy (TaskData.title body)
        then [ {| Http.field := "title";
                  Http.message := "Title must be between 1 and 200 characters";
                  Http.value := Js.VString "" |} ]
        else []);
     Validation.taskUpdate := fun body => (body, []);
     Validation.pagination := fun _ => [];
     Validation.taskFilters := fun query => (query, []) |}.

(** Two users, and a [jwt.verify] that takes a token for the id of its
    user. *)
Definition user_row (id : string) : SqliteUsers.Row :=
  {| SqliteUsers.id := id; SqliteUsers.username := id;
     SqliteUsers.email := id +:+ "@example.com";
     SqliteUsers.password := "$2a$10$hash";
     SqliteUsers.created_at := noon; SqliteUsers.updated_at := noon |}.

Definition two_users : SqliteUsers.Store :=
  {[ "alice"%string := user_row "alice"; "bob"%string := user_row "bob" ]}.

Definition plain_tokens : Auth.Config :=
  {| Auth.verify := fun token _ =>
       if String.eqb token "expired" then Auth.Thrown "TokenExpiredError"
       else Auth.Decoded (Some token);
     Auth.JWT_SECRET := None |}.

(** The user [authenticateToken] finds for a row of [two_users]. *)
Definition user_of (id : string) : User.t :=
  User.new (env_at noon) (UserData.of_row (user_row id)).

(** Registrations and removals of users, with the environment and the
    [bcrypt] of each registration. *)
Inductive user_op :=
| Register (bcrypt : Bcrypt) (env : Env) (userData : UserData.t)
| Remove (id : string).

Definition user_step (users : SqliteUsers.Store) (o : user_op) : SqliteUsers.Store :=
  match o with
  | Register bcrypt env userData =>
      match User.create bcrypt env users userData with
      | Ok (users', _) => users'
      | Throw _ => users
      end
  | Remove id => fst (User.delete users id)
  end.

Definition user_run (ops : list user_op) : SqliteUsers.Store :=
  fold_left user_step ops ∅.

(** Every row is stored under its own id, and no two rows share a username
    or an email. *)
Definition users_well_formed (users : SqliteUsers.Store) : Prop :=
  (∀ id r, users !! id = Some r → SqliteUsers.id r = id)
  ∧ ∀ id id' r r',
      users !! id = Some r → users !! id' = Some r' →
      SqliteUsers.username r = SqliteUsers.username r'
      ∨ SqliteUsers.email r = SqliteUsers.email r' →
      id = id'.

(** Some row of the table has the username, the email. *)
Definition username_taken (users : SqliteUsers.Store) (username : string) : Prop :=
  ∃ id r, users !! id = Some r ∧ SqliteUsers.username r = username.
Definition email_taken (users : SqliteUsers.Store) (email : string) : Prop :=
  ∃ id r, users !! id = Some r ∧ SqliteUsers.email r = email.

(** A user with the two timestamps the store gave its row. *)
Definition user_with_timestamps (created_at updated_at : Z) (user : User.t) : User.t :=
  {| User.id := User.id user; User.username := User.username user;
     User.email := User.email user; User.password := User.password user;
     User.created_at := Some created_at; User.updated_at := Some updated_at |}.

Definition registration (username email password : string) : UserData.t :=
  {| UserData.id := None; UserData.username := Some username;
     UserData.email := Some email; UserData.password := Some password;
     UserData.created_at := None; UserData.updated_at := None |}.

(** A [bcrypt] whose hashes are easy to read. *)
Definition marking : Bcrypt := {| hash := fun password _ => "$2a$10$" +:+ password |}.

(** * Properties *)

(** ** The JavaScript fragment *)

Lemma add_num (a b : Z) : Js.add (Js.num a) (Js.num b) = Js.num (a + b).
Proof. reflexivity. Qed.

Lemma Math_min_num (a b : Z) : Js.Math_min (Js.num a) (Js.num b) = Js.Num (Z.min a b).
Proof. reflexivity. Qed.

Lemma eqb_flip (a b : string) : String.eqb a b = String.eqb b a.
Proof. apply String.eqb_sym. Qed.

Lemma own_property_cons (k : string) (v : Js.value) (o : list (string * Js.value))
    (key : string) :
  Js.own_property ((k, v) :: o) key
  = if String.eqb key k then Some v else Js.own_property o key.
Proof. simpl. rewrite (eqb_flip k key). reflexivity. Qed.

(** Whatever [Object.prototype] answers is an object, never a number. *)
Lemma inherited_is_object (key : string) :
  inherited_key key = true → ∃ o, Js.ObjectPrototype_get key = Js.VObject o.
Proof.
  unfold inherited_key, Js.ObjectPrototype_get.
  destruct (String.eqb key "__proto__"); [ eauto | ].
  destruct (String.eqb key "constructor"); [ eauto | ].
  destruct (existsb _ _); [ eauto | discriminate ].
Qed.

Lemma not_inherited_is_undefined (key : string) :
  inherited_key key = false → Js.ObjectPrototype_get key = Js.VUndefined.
Proof.
  unfold inherited_key, Js.ObjectPrototype_get.
  destruct (String.eqb key "__proto__"); [ discriminate | ].
  destruct (String.eqb key "constructor"); [ discriminate | ].
  destruct (existsb _ _); [ discriminate | reflexivity ].
Qed.

(** ** The examples of the specification *)

Example score_urgent_overdue :
  Task.calculatePriorityScore (env_at noon)
    (Task.new (env_at noon) (sample_task "t" "TODO" "URGENT" true (Some (noon - day))))
  = Js.Num 100.
Proof. reflexivity. Qed.

Example score_low_no_due_date :
  Task.calculatePriorityScore (env_at noon)
    (Task.new (env_at noon) (sample_task "t" "TODO" "LOW" false None))
  = Js.Num 10.
Proof. reflexivity. Qed.

Example score_medium_due_in_five_days :
  Task.calculatePriorityScore (env_at noon)
    (Task.new (env_at noon) (sample_task "t" "TODO" "MEDIUM" false (Some (noon + 5 * day))))
  = Js.Num 40.
Proof. reflexivity. Qed.

(** Half a day overdue is still zero whole days: 35 is added, not 40. *)
Example score_medium_overdue_by_half_a_day :
  Task.calculatePriorityScore (env_at noon)
    (Task.new (env_at noon) (sample_task "t" "TODO" "MEDIUM" false (Some (noon - 43200000))))
  = Js.Num 60.
Proof. reflexivity. Qed.

Example malicious_sort_field_falls_back :
  Task.validSortBy <$> Task.findAll_plan alice_options = Ok "created_at"%string.
Proof. reflexivity. Qed.

Example offset_of_page_two :
  Task.offset <$> Task.findAll_plan alice_options = Ok (Js.Num 10).
Proof. reflexivity. Qed.

(** ** The two scoring methods *)

(** The weight table on the keys that are not inherited. *)
Lemma priority_weight (priority : string) :
  inherited_key priority = false →
  Js.or (Js.Get Task.priorityWeights priority) (Js.num 25)
  = Js.num (base_weight priority).
Proof.
  intros H. apply not_inherited_is_undefined in H.
  unfold Js.Get, Task.priorityWeights, base_weight.
  rewrite !own_property_cons.
  destruct (String.eqb priority "LOW"); [ reflexivity | ].
  destruct (String.eqb priority "MEDIUM"); [ reflexivity | ].
  destruct (String.eqb priority "HIGH"); [ reflexivity | ].
  destruct (String.eqb priority "URGENT"); [ reflexivity | ].
  rewrite H. reflexivity.
Qed.

Lemma status_percentage (status : string) :
  inherited_key status = false →
  Js.or (Js.Get Task.statusPercentages status) (Js.num 0)
  = Js.num (specified_percentage status).
Proof.
  intros H. apply not_inherited_is_undefined in H.
  unfold Js.Get, Task.statusPercentages, specified_percentage.
  rewrite !own_property_cons.
  destruct (String.eqb status "TODO"); [ reflexivity | ].
  destruct (String.eqb status "IN_PROGRESS"); [ reflexivity | ].
  destruct (String.eqb status "COMPLETED"); [ reflexivity | ].
  destruct (String.eqb status "CANCELLED"); [ reflexivity | ].
  rewrite H. reflexivity.
Qed.

(** The lookups on a key that is inherited: never an own property. *)
Lemma inherited_weight (priority : string) :
  inherited_key priority = true →
  Js.or (Js.Get Task.priorityWeights priority) (Js.num 25)
  = Js.ObjectPrototype_get priority.
Proof.
  intros H. unfold Js.Get, Task.priorityWeights.
  assert (Hown : ∀ k, inherited_key k = false → String.eqb priority k = false).
  { intros k Hk. destruct (String.eqb_spec priority k); [ | reflexivity ].
    subst. congruence. }
  rewrite !own_property_cons, !Hown by reflexivity. simpl Js.own_property.
  unfold Js.or. fold (inherited_key priority). rewrite H. reflexivity.
Qed.

Lemma inherited_percentage (status : string) :
  inherited_key status = true →
  Js.or (Js.Get Task.statusPercentages status) (Js.num 0)
  = Js.ObjectPrototype_get status.
Proof.
  intros H. unfold Js.Get, Task.statusPercentages.
  assert (Hown : ∀ k, inherited_key k = false → String.eqb status k = false).
  { intros k Hk. destruct (String.eqb_spec status k); [ | reflexivity ].
    subst. congruence. }
  rewrite !own_property_cons, !Hown by reflexivity. simpl Js.own_property.
  unfold Js.or. fold (inherited_key status). rewrite H. reflexivity.
Qed.

(** The names [Object.prototype] answers to. *)
Lemma inherited_names (key : string) :
  inherited_key key = true →
  In key ("__proto__"%string :: Js.ObjectPrototype_functions).
Proof.
  unfold inherited_key, Js.ObjectPrototype_get. intros H.
  destruct (String.eqb_spec key "__proto__"); [ left; congruence | right ].
  destruct (String.eqb_spec key "constructor"); [ left; congruence | ].
  destruct (existsb (String.eqb key) Js.ObjectPrototype_functions) eqn:E;
    [ | discriminate ].
  apply existsb_exists in E. destruct E as (k & Hin & Hk).
  apply String.eqb_eq in Hk. congruence.
Qed.

(** The due-date step adds nothing or one of five amounts. *)
Lemma due_date_step (due_date : option Due.t) (env : Env) :
  (∀ score : Js.value,
     match due_date with
     | Some value =>
         if Due.truthy value then
           let dueDate := Due.instant value in
           let daysUntilDue := Moment.diff_days (utcOffset env) dueDate (now env) in
           if daysUntilDue <? 0 then Js.add score (Js.num 40)
           else if daysUntilDue <=? 1 then Js.add score (Js.num 35)
           else if daysUntilDue <=? 3 then Js.add score (Js.num 25)
           else if daysUntilDue <=? 7 then Js.add score (Js.num 15)
           else Js.add score (Js.num 5)
         else score
     | None => score
     end = score)
  ∨ ∃ k, In k [40; 35; 25; 15; 5]
         ∧ ∀ score : Js.value,
             match due_date with
             | Some value =>
                 if Due.truthy value then
                   let dueDate := Due.instant value in
                   let daysUntilDue :=
                     Moment.diff_days (utcOffset env) dueDate (now env) in
                   if daysUntilDue <? 0 then Js.add score (Js.num 40)
                   else if daysUntilDue <=? 1 then Js.add score (Js.num 35)
                   else if daysUntilDue <=? 3 then Js.add score (Js.num 25)
                   else if daysUntilDue <=? 7 then Js.add score (Js.num 15)
                   else Js.add score (Js.num 5)
                 else score
             | None => score
             end = Js.add score (Js.num k).
Proof.
  destruct due_date as [value|]; [ | left; reflexivity ].
  destruct (Due.truthy value); [ right | left; reflexivity ].
  cbv zeta.
  destruct (_ <? 0); [ exists 40; simpl; auto 10 | ].
  destruct (_ <=? 1); [ exists 35; simpl; auto 10 | ].
  destruct (_ <=? 3); [ exists 25; simpl; auto 10 | ].
  destruct (_ <=? 7); [ exists 15; simpl; auto 10 | ].
  exists 5; simpl; auto 10.
Qed.

Lemma score_of_plain_priority (env : Env) (this : Task.t) :
  inherited_key (Task.priority this) = false →
  Task.calculatePriorityScore env this
  = Js.Num (specified_score env (Task.priority this) (Task.is_urgent this)
              (Task.due_date this)).
Proof.
  intros H. unfold Task.calculatePriorityScore, specified_score, due_instant.
  rewrite (priority_weight _ H), add_num.
  set (w := base_weight (Task.priority this)).
  destruct (Task.is_urgent this), (Task.due_date this) as [due|];
    try destruct (Due.truthy due);
    rewrite ?add_num; unfold due_contribution; cbv zeta;
    repeat match goal with
           | |- context [if ?c then _ else _] => destruct c
           end;
    rewrite ?add_num, Math_min_num; f_equal; lia.
Qed.

(** X1, the score on the priorities that are not inherited names: the
    rule of the specification, an unrecognized priority weighing 25, and a
    due date counting when it is there and is not the number 0. *)
Theorem calculatePriorityScore_rule (env : Env) (this : Task.t) :
  inherited_key (Task.priority this) = false →
  Task.calculatePriorityScore env this
  = Js.Num (specified_score env (Task.priority this) (Task.is_urgent this)
              (Task.due_date this)).
Proof. apply score_of_plain_priority. Qed.

Lemma calculatePriorityScore_rule_witness :
  inherited_key "bogus" = false
  ∧ Task.calculatePriorityScore (env_at noon)
      (Task.new (env_at noon) (sample_task "t" "TODO" "bogus" true (Some (noon + 5 * day))))
    = Js.Num 60.
Proof.
  split; [ reflexivity | ].
  apply (calculatePriorityScore_rule (env_at noon)
           (Task.new (env_at noon) (sample_task "t" "TODO" "bogus" true (Some (noon + 5 * day))))).
  reflexivity.
Defined.

(** X2, the percentage on the statuses that are not inherited names. *)
Theorem calculateCompletionPercentage_rule (this : Task.t) :
  inherited_key (Task.status this) = false →
  Task.calculateCompletionPercentage this
  = Js.num (specified_percentage (Task.status this)).
Proof. intros H. apply status_percentage, H. Qed.

Lemma calculateCompletionPercentage_rule_witness :
  inherited_key "IN_PROGRESS" = false
  ∧ Task.calculateCompletionPercentage
      (Task.new (env_at noon) (sample_task "t" "IN_PROGRESS" "LOW" false None))
    = Js.num 50.
Proof.
  split; [ reflexivity | ].
  apply (calculateCompletionPercentage_rule
           (Task.new (env_at noon) (sample_task "t" "IN_PROGRESS" "LOW" false None))).
  reflexivity.
Defined.

(** C1, where the code departs from it: a priority that names a member of
    [Object.prototype] ("constructor", "toString", ...) is not weighed 25;
    the lookup returns that member, the sum turns into a string and the
    score is NaN, whatever the urgency and the due date. *)
Theorem calculatePriorityScore_inherited (env : Env) (this : Task.t) :
  inherited_key (Task.priority this) = true →
  Task.calculatePriorityScore env this = Js.NaN.
Proof.
  intros H. unfold Task.calculatePriorityScore.
  rewrite (inherited_weight _ H).
  apply inherited_names in H.
  destruct (due_date_step (Task.due_date this) env) as [Hd | (k & Hk & Hd)];
    rewrite Hd; clear Hd.
  - destruct (Task.is_urgent this);
      repeat (destruct H as [<- | H]; [ reflexivity | ]); destruct H.
  - destruct (Task.is_urgent this);
      repeat (destruct Hk as [<- | Hk];
              [ repeat (destruct H as [<- | H]; [ reflexivity | ]); destruct H | ]);
      destruct Hk.
Qed.

Lemma calculatePriorityScore_inherited_witness :
  inherited_key "constructor" = true
  ∧ Task.calculatePriorityScore (env_at noon)
      (Task.new (env_at noon) (sample_task "t" "TODO" "constructor" false None))
    = Js.NaN.
Proof.
  split; [ reflexivity | ].
  apply (calculatePriorityScore_inherited (env_at noon)
           (Task.new (env_at noon) (sample_task "t" "TODO" "constructor" false None))).
  reflexivity.
Defined.

(** C2, where the code departs from it: for a status that names a member
    of [Object.prototype] the method returns that member, an object, and
    not 0. *)
Theorem calculateCompletionPercentage_inherited (this : Task.t) :
  inherited_key (Task.status this) = true →
  ∃ o, Task.calculateCompletionPercentage this = Js.VObject o
       ∧ Task.calculateCompletionPercentage this ≠ Js.num 0.
Proof.
  intros H. unfold Task.calculateCompletionPercentage.
  rewrite (inherited_percentage _ H).
  destruct (inherited_is_object _ H) as [o Ho].
  exists o. rewrite Ho. split; [ reflexivity | discriminate ].
Qed.

Lemma calculateCompletionPercentage_inherited_witness :
  inherited_key "constructor" = true
  ∧ ∃ o, Task.calculateCompletionPercentage
           (Task.new (env_at noon) (sample_task "t" "constructor" "LOW" false None))
         = Js.VObject o
         ∧ Task.calculateCompletionPercentage
             (Task.new (env_at noon) (sample_task "t" "constructor" "LOW" false None))
           ≠ Js.num 0.
Proof.
  split; [ reflexivity | ].
  apply (calculateCompletionPercentage_inherited
           (Task.new (env_at noon) (sample_task "t" "constructor" "LOW" false None))).
  reflexivity.
Defined.

(** ** findAll *)

Lemma findAll_plan_where (options : Task.Options.t) (plan : Task.Plan) :
  Task.findAll_plan options = Ok plan →
  Task.whereConditions plan = fst (Task.where_conditions options)
  ∧ Task.params plan = snd (Task.where_conditions options).
Proof.
  unfold Task.findAll_plan.
  destruct (Task.where_conditions options) as [cs ps].
  unfold mbind, result_bind.
  destruct (Task.call_toUpperCase _) as [u|]; [ | discriminate ].
  destruct (Js.includes _ _); intros [= <-]; split; reflexivity.
Qed.

(** C3 as it is stated fails: with no [user_id] among the options the query
    has no owner condition. *)
Lemma findAll_without_owner_filter :
  ¬ (∀ (options : Task.Options.t) (plan : Task.Plan),
       Task.findAll_plan options = Ok plan →
       In "user_id = ?"%string (Task.whereConditions plan)).
Proof.
  intros H. specialize (H Task.Options.empty _ eq_refl).
  simpl in H. exact H.
Qed.

(** C3, amended: the query [findAll] builds has the owner condition, first
    and bound to [options.user_id], exactly when [options.user_id] is
    truthy, whatever the other options are. *)
Theorem findAll_owner_filter (options : Task.Options.t) (plan : Task.Plan) :
  Task.findAll_plan options = Ok plan →
  (In "user_id = ?"%string (Task.whereConditions plan)
   ↔ Js.truthy (Task.Options.user_id options) = true)
  ∧ (Js.truthy (Task.Options.user_id options) = true →
     ∃ conditions params,
       Task.whereConditions plan = "user_id = ?"%string :: conditions
       ∧ Task.params plan = Task.Options.user_id options :: params).
Proof.
  intros H. apply findAll_plan_where in H. destruct H as [-> ->].
  unfold Task.where_conditions, Task.push_if.
  destruct (Js.truthy (Task.Options.user_id options));
    destruct (Js.truthy (Task.Options.status options));
    destruct (Js.truthy (Task.Options.priority options));
    destruct (Task.Options.is_urgent options) as [ | | ? | ? | ? | ? ];
    destruct (Js.truthy (Task.Options.search options));
    simpl; (split; [ split | ]); intros;
    repeat match goal with
           | H : _ ∨ _ |- _ => destruct H
           | H : False |- _ => destruct H
           end;
    try discriminate; eauto.
Qed.

Lemma findAll_owner_filter_witness :
  Task.findAll_plan alice_options = Ok alice_plan
  ∧ (In "user_id = ?"%string (Task.whereConditions alice_plan)
     ↔ Js.truthy (Task.Options.user_id alice_options) = true)
  ∧ (Js.truthy (Task.Options.user_id alice_options) = true →
     ∃ conditions params,
       Task.whereConditions alice_plan = "user_id = ?"%string :: conditions
       ∧ Task.params alice_plan = Task.Options.user_id alice_options :: params).
Proof.
  split; [ reflexivity | ].
  exact (findAll_owner_filter alice_options alice_plan eq_refl).
Defined.

(** C4, where the code departs from it: a [sort_order] that is neither a
    string nor missing (a number, a boolean, null) has no [toUpperCase];
    [findAll] throws a TypeError and orders nothing. *)
Theorem findAll_sort_order_not_a_string (env : Env) (database : Task.Database)
    (options : Task.Options.t) :
  string_or_undefined (Task.Options.sort_order options) = false →
  ∃ message, Task.findAll env database options = Throw (TypeError message).
Proof.
  intros H. unfold Task.findAll, Task.findAll_plan.
  destruct (Task.where_conditions options) as [cs ps].
  destruct (Task.Options.sort_order options) as [ | | b | n | s | o ];
    try discriminate; simpl; eauto.
Qed.

Lemma findAll_sort_order_not_a_string_witness :
  string_or_undefined (Js.num 1) = false
  ∧ ∃ message,
      Task.findAll (env_at noon)
        {| Task.all := fun _ => Ok []; Task.get_count := fun _ => Ok 0 |}
        (only_sort_order (Js.num 1))
      = Throw (TypeError message).
Proof.
  split; [ reflexivity | ].
  apply (findAll_sort_order_not_a_string (env_at noon)
           {| Task.all := fun _ => Ok []; Task.get_count := fun _ => Ok 0 |}
           (only_sort_order (Js.num 1))).
  reflexivity.
Defined.

Lemma effective_sort_by_allowed (sort_by : Js.value) :
  In (effective_sort_by sort_by) Task.allowedSortFields.
Proof.
  assert (Hdefault : In "created_at"%string Task.allowedSortFields)
    by (simpl; auto 10).
  destruct sort_by as [ | | b | n | s | o ]; try exact Hdefault.
  unfold effective_sort_by.
  destruct (existsb (String.eqb s) Task.allowedSortFields) eqn:E;
    [ | exact Hdefault ].
  apply existsb_exists in E. destruct E as (k & Hin & Hk).
  apply String.eqb_eq in Hk. subst. exact Hin.
Qed.

Lemma effective_sort_order_allowed (sort_order : Js.value) :
  In (effective_sort_order sort_order) Task.allowedSortOrders.
Proof.
  assert (Hdefault : In "DESC"%string Task.allowedSortOrders)
    by (simpl; auto).
  destruct sort_order as [ | | b | n | s | o ]; try exact Hdefault.
  unfold effective_sort_order. cbv zeta.
  destruct (String.eqb_spec (Js.toUpperCase s) "ASC") as [-> | ];
    [ simpl; auto | ].
  destruct (String.eqb_spec (Js.toUpperCase s) "DESC") as [-> | ];
    [ simpl; auto | exact Hdefault ].
Qed.

(** X3, the part of C4 the code does keep: with a [sort_order] that is a
    string of ASCII characters or missing, [findAll] builds its query,
    orders by [options.sort_by] when the allow-list has it and by
    [created_at] otherwise, in the order the upper-cased
    [options.sort_order] names when that is ASC or DESC and in DESC
    otherwise; nothing else reaches the ORDER BY clause, and the sorting it
    returns is this ordering.  (Outside ASCII, [toUpperCase] is not the
    function of this model: it takes U+017F to S.) *)
Theorem findAll_effective_ordering (options : Task.Options.t) :
  ascii_or_undefined (Task.Options.sort_order options) = true →
  ∃ plan,
    Task.findAll_plan options = Ok plan
    ∧ Task.validSortBy plan = effective_sort_by (Task.Options.sort_by options)
    ∧ Task.validSortOrder plan = effective_sort_order (Task.Options.sort_order options)
    ∧ In (Task.validSortBy plan) Task.allowedSortFields
    ∧ In (Task.validSortOrder plan) Task.allowedSortOrders
    ∧ Task.sql (Task.query plan)
      = "SELECT * FROM tasks " +:+ Task.whereClause plan +:+ " ORDER BY "
        +:+ Task.validSortBy plan +:+ " " +:+ Task.validSortOrder plan
        +:+ " LIMIT ? OFFSET ?"
    ∧ ∀ env database found,
        Task.findAll env database options = Ok found →
        Task.sorting found
        = {| Task.sorting_sort_by := Task.validSortBy plan;
             Task.sorting_sort_order := Task.validSortOrder plan |}.
Proof.
  intros H.
  assert (Hplan : ∃ plan, Task.findAll_plan options = Ok plan
                    ∧ Task.validSortBy plan = effective_sort_by (Task.Options.sort_by options)
                    ∧ Task.validSortOrder plan
                      = effective_sort_order (Task.Options.sort_order options)
                    ∧ Task.sql (Task.query plan)
                      = "SELECT * FROM tasks " +:+ Task.whereClause plan +:+ " ORDER BY "
                        +:+ Task.validSortBy plan +:+ " " +:+ Task.validSortOrder plan
                        +:+ " LIMIT ? OFFSET ?").
  { unfold Task.findAll_plan.
    destruct (Task.where_conditions options) as [cs ps].
    assert (Hby : (if Js.includes Task.allowedSortFields
                        (Task.Options.or_default (Task.Options.sort_by options)
                           (Js.VString "created_at"))
                   then Js.ToString (Task.Options.or_default (Task.Options.sort_by options)
                                       (Js.VString "created_at"))
                   else "created_at"%string)
                  = effective_sort_by (Task.Options.sort_by options)).
    { destruct (Task.Options.sort_by options) as [ | | b | n | s | o ];
        reflexivity. }
    rewrite Hby.
    destruct (Task.Options.sort_order options) as [ | | b | n | s | o ];
      try discriminate.
    - eexists. repeat split; reflexivity.
    - unfold effective_sort_order. simpl.
      unfold mbind, result_bind.
      destruct (String.eqb (Js.toUpperCase s) "ASC"),
               (String.eqb (Js.toUpperCase s) "DESC");
        simpl; eexists; repeat split; reflexivity. }
  destruct Hplan as (plan & Hp & Hby & Hord & Hsql).
  exists plan. repeat split; try assumption.
  - rewrite Hby. apply effective_sort_by_allowed.
  - rewrite Hord. apply effective_sort_order_allowed.
  - intros env database found. unfold Task.findAll. rewrite Hp.
    unfold mbind, result_bind.
    destruct (Task.all database _); [ | discriminate ].
    destruct (Task.get_count database _); [ | discriminate ].
    intros [= <-]. reflexivity.
Qed.

Lemma findAll_effective_ordering_witness :
  ascii_or_undefined (Task.Options.sort_order alice_options) = true
  ∧ ∃ plan,
      Task.findAll_plan alice_options = Ok plan
      ∧ Task.validSortBy plan = "created_at"%string
      ∧ Task.validSortOrder plan = "ASC"%string.
Proof.
  split; [ reflexivity | ].
  destruct (findAll_effective_ordering alice_options eq_refl)
    as (plan & Hp & Hby & Hord & _).
  exists plan. repeat split; assumption.
Defined.

(** ** The search condition *)






Lemma toLowerCase_cons (c : ascii) (s : string) :
  Js.toLowerCase (String c s) = String (Js.lower c) (Js.toLowerCase s).
Proof. reflexivity. Qed.

Lemma append_cons (c : ascii) (s t : string) :
  String c s +:+ t = String c (s +:+ t).
Proof. reflexivity. Qed.

Lemma starts_with_spec (s text : string) :
  starts_with s text = true
  ↔ ∃ after, Js.toLowerCase text = Js.toLowerCase s +:+ after.
Proof.
  revert text. induction s as [ | c s IH ]; intros text.
  - split; [ intros _; exists (Js.toLowerCase text); reflexivity | reflexivity ].
  - destruct text as [ | d text ]; cbn [starts_with];
      rewrite ?toLowerCase_cons, ?append_cons.
    + split; [ discriminate | intros (after & H); discriminate ].
    + rewrite andb_true_iff, IH. split.
      * intros (Hc & after & H). apply Ascii.eqb_eq in Hc.
        exists after. rewrite ?toLowerCase_cons, ?append_cons. congruence.
      * intros (after & H). rewrite ?toLowerCase_cons, ?append_cons in H.
        injection H as Hc H. split; [ apply Ascii.eqb_eq; congruence | eauto ].
Qed.

Lemma occurs_spec (s text : string) :
  occurs s text = true ↔ occurs_in s text.
Proof.
  unfold occurs_in. induction text as [ | d text IH ]; cbn [occurs].
  - rewrite orb_false_r, starts_with_spec. split.
    + intros (after & H). exists ""%string, after. exact H.
    + intros (before & after & H). destruct before; [ eauto | discriminate ].
  - rewrite orb_true_iff, starts_with_spec, IH. split.
    + intros [ (after & H) | (before & after & H) ].
      * exists ""%string, after. exact H.
      * exists (String (Js.lower d) before), after.
        rewrite ?toLowerCase_cons, ?append_cons. congruence.
    + intros (before & after & H). destruct before as [ | e before ].
      * left. eauto.
      * right. rewrite ?toLowerCase_cons, ?append_cons in H.
        injection H as He H. eauto.
Qed.

(** C7, where the code departs from it: a search string is handed to LIKE
    as it is, so its [%] and [_] are wildcards.  The search "_" selects a
    task titled "Write the report", in which no underscore occurs. *)
Theorem search_underscore_matches_any_title :
  ∃ plan,
    Task.findAll_plan (only_search (Js.VString "_")) = Ok plan
    ∧ Task.whereConditions plan = [ "(title LIKE ? OR description LIKE ?)"%string ]
    ∧ Task.params plan = [ Js.VString "%_%"; Js.VString "%_%" ]
    ∧ Sqlite.title (sample_row "t1" "TODO" None) = "Write the report"%string
    ∧ Sqlite.description (sample_row "t1" "TODO" None) = None
    ∧ Sqlite.title_or_description_like "%_%" "%_%" (sample_row "t1" "TODO" None) = true
    ∧ ¬ occurs_in "_" (Sqlite.title (sample_row "t1" "TODO" None)).
Proof.
  eexists. repeat split.
  rewrite <- occurs_spec. discriminate.
Qed.



(** ** The two computations of the priority score *)

(** C8: the seeding takes the ceiling of the difference in days, the method
    drops its fraction.  For the second sample task, due two days after it
    was built and scored one millisecond later, the seeding stores 65 and
    the method computes 75. *)
Theorem seeding_and_method_scores_differ :
  ∃ (env : Env) (task : Seed.SampleTask),
    In task (Seed.sampleTasks noon)
    ∧ Seed.priority_score (now env) task = Js.Num 65
    ∧ Task.calculatePriorityScore env (Task.new env (Seed.to_data task)) = Js.Num 75
    ∧ Seed.priority_score (now env) task
      ≠ Task.calculatePriorityScore env (Task.new env (Seed.to_data task)).
Proof.
  exists (env_at (noon + 1)).
  eexists. split; [ right; left; reflexivity | ].
  repeat split. discriminate.
Qed.

(** ** getStatistics *)

Lemma getStatistics_completion_rate (db : Sqlite.Store) (user_id : string) :
  Task.completion_rate (Task.getStatistics db user_id)
  = if Task.total_tasks (Task.getStatistics db user_id) >? 0
    then Js.Math_round
           (Js.mul (Js.div (Js.double_of_Z
                              (Task.completed_tasks (Task.getStatistics db user_id)))
                           (Js.double_of_Z
                              (Task.total_tasks (Task.getStatistics db user_id))))
                   (Js.double_of_Z 100))
    else Js.double_of_Z 0.
Proof. reflexivity. Qed.

(** C6, where the code departs from it: the rate is rounded from
    [(completed / total) * 100] computed in doubles.  With 23 tasks of 40
    COMPLETED that product is 57.49999999999999 and the rate is 57, where
    100 * 23 / 40 = 57.5 rounds to 58. *)
Theorem completion_rate_of_23_in_40 (db : Sqlite.Store) (user_id : string) :
  Task.total_tasks (Task.getStatistics db user_id) = 40 →
  Task.completed_tasks (Task.getStatistics db user_id) = 23 →
  Task.completion_rate (Task.getStatistics db user_id) = Js.double_of_Z 57
  ∧ round_half_up (100 * 23) 40 = 58.
Proof.
  intros Ht Hc. rewrite getStatistics_completion_rate, Ht, Hc.
  split; vm_compute; reflexivity.
Qed.

Lemma completion_rate_of_23_in_40_witness :
  (Task.total_tasks (Task.getStatistics (tasks_of_alice 23 40) "alice") = 40
   ∧ Task.completed_tasks (Task.getStatistics (tasks_of_alice 23 40) "alice") = 23)
  ∧ Task.completion_rate (Task.getStatistics (tasks_of_alice 23 40) "alice")
    = Js.double_of_Z 57
  ∧ round_half_up (100 * 23) 40 = 58.
Proof.
  assert (Ht : Task.total_tasks (Task.getStatistics (tasks_of_alice 23 40) "alice") = 40)
    by (vm_compute; reflexivity).
  assert (Hc : Task.completed_tasks (Task.getStatistics (tasks_of_alice 23 40) "alice") = 23)
    by (vm_compute; reflexivity).
  split; [ split; assumption | ].
  exact (completion_rate_of_23_in_40 (tasks_of_alice 23 40) "alice" Ht Hc).
Defined.

(** X5, the part of C6 the code does keep: [getStatistics] is total; without
    tasks the rate is 0 and nothing is divided; on the empty store the
    count is 0 too; with 2 tasks of 4 COMPLETED the rate is 50. *)
Theorem getStatistics_guards_division (db : Sqlite.Store) (user_id : string) :
  (Task.total_tasks (Task.getStatistics db user_id) = 0 →
   Task.completion_rate (Task.getStatistics db user_id) = Js.double_of_Z 0)
  ∧ (Task.total_tasks (Task.getStatistics ∅ user_id) = 0
     ∧ Task.completion_rate (Task.getStatistics ∅ user_id) = Js.double_of_Z 0)
  ∧ (Task.total_tasks (Task.getStatistics db user_id) = 4 →
     Task.completed_tasks (Task.getStatistics db user_id) = 2 →
     Task.completion_rate (Task.getStatistics db user_id) = Js.double_of_Z 50).
Proof.
  split; [ | split ].
  - intros H. rewrite getStatistics_completion_rate, H. reflexivity.
  - assert (H : Task.total_tasks (Task.getStatistics ∅ user_id) = 0).
    { unfold Task.getStatistics, Sqlite.select_statistics, Sqlite.rows_of_user.
      rewrite map_to_list_empty. reflexivity. }
    split; [ exact H | ].
    rewrite getStatistics_completion_rate, H. reflexivity.
  - intros Ht Hc. rewrite getStatistics_completion_rate, Ht, Hc.
    vm_compute. reflexivity.
Qed.

Lemma getStatistics_guards_division_witness :
  (Task.total_tasks (Task.getStatistics (tasks_of_alice 2 4) "alice") = 4
   ∧ Task.completed_tasks (Task.getStatistics (tasks_of_alice 2 4) "alice") = 2)
  ∧ Task.completion_rate (Task.getStatistics (tasks_of_alice 2 4) "alice")
    = Js.double_of_Z 50
  ∧ Task.total_tasks (Task.getStatistics (tasks_of_alice 2 4) "bob") = 0
  ∧ Task.completion_rate (Task.getStatistics (tasks_of_alice 2 4) "bob")
    = Js.double_of_Z 0.
Proof.
  assert (Ht : Task.total_tasks (Task.getStatistics (tasks_of_alice 2 4) "alice") = 4)
    by (vm_compute; reflexivity).
  assert (Hc : Task.completed_tasks (Task.getStatistics (tasks_of_alice 2 4) "alice") = 2)
    by (vm_compute; reflexivity).
  assert (Hb : Task.total_tasks (Task.getStatistics (tasks_of_alice 2 4) "bob") = 0)
    by (vm_compute; reflexivity).
  split; [ split; assumption | ].
  split; [ exact (proj2 (proj2 (getStatistics_guards_division
                                  (tasks_of_alice 2 4) "alice")) Ht Hc) | ].
  split; [ exact Hb | ].
  exact (proj1 (getStatistics_guards_division (tasks_of_alice 2 4) "bob") Hb).
Defined.

(** ** The store under create, update and delete *)

Lemma check_in_In (allowed : list string) (s : string) :
  Sqlite.check_in allowed (Some s) = true ↔ In s allowed.
Proof.
  simpl. rewrite existsb_exists. split.
  - intros (k & Hin & Hk). apply String.eqb_eq in Hk. subst. exact Hin.
  - intros H. exists s. split; [ exact H | apply String.eqb_refl ].
Qed.

Lemma listed_status_plain (s : string) :
  In s Sqlite.status_values → inherited_key s = false.
Proof. simpl. intros [<-|[<-|[<-|[<-|[]]]]]; reflexivity. Qed.

Lemma listed_priority_plain (s : string) :
  In s Sqlite.priority_values → inherited_key s = false.
Proof. simpl. intros [<-|[<-|[<-|[<-|[]]]]]; reflexivity. Qed.

Lemma listed_status_not_empty (s : string) :
  In s Sqlite.status_values → s ≠ ""%string.
Proof. simpl. intros [<-|[<-|[<-|[<-|[]]]]]; discriminate. Qed.

Lemma listed_priority_not_empty (s : string) :
  In s Sqlite.priority_values → s ≠ ""%string.
Proof. simpl. intros [<-|[<-|[<-|[<-|[]]]]]; discriminate. Qed.

(** With a status and a priority that pass their checks, both methods
    return numbers. *)
Lemma derived_fields_are_numbers (env : Env) (task : Task.t) :
  Sqlite.check_in Sqlite.status_values (Some (Task.status task)) = true →
  Sqlite.check_in Sqlite.priority_values (Some (Task.priority task)) = true →
  ∃ c p,
    Task.calculateCompletionPercentage task = Js.num c
    ∧ Task.calculatePriorityScore env task = Js.Num p.
Proof.
  intros Hs Hp. apply check_in_In in Hs, Hp.
  exists (specified_percentage (Task.status task)),
         (specified_score env (Task.priority task) (Task.is_urgent task)
            (Task.due_date task)).
  split; [ apply status_percentage, listed_status_plain, Hs
         | apply score_of_plain_priority, listed_priority_plain, Hp ].
Qed.

Lemma calculatePriorityScore_set (env : Env) (v : Js.value) (task : Task.t) :
  Task.calculatePriorityScore env (Task.set_completion_percentage v task)
  = Task.calculatePriorityScore env task.
Proof. reflexivity. Qed.

Lemma falsy_false (field : option string) :
  TaskData.falsy field = false → ∃ s, field = Some s ∧ s ≠ ""%string.
Proof.
  destruct field as [s|]; [ | discriminate ]. simpl. intros H.
  exists s. split; [ reflexivity | ]. intros ->. discriminate.
Qed.

Lemma falsy_some (s : string) : s ≠ ""%string → TaskData.falsy (Some s) = false.
Proof. intros H. simpl. destruct (String.eqb_spec s ""); congruence. Qed.

Lemma or_else_not_empty (field : option string) (d : string) :
  d ≠ ""%string → TaskData.or_else field d ≠ ""%string.
Proof.
  intros Hd. unfold TaskData.or_else. destruct field as [s|]; [ | exact Hd ].
  destruct (String.eqb_spec s ""); [ exact Hd | assumption ].
Qed.

Lemma or_else_kept (s d : string) :
  s ≠ ""%string → TaskData.or_else (Some s) d = s.
Proof.
  intros H. unfold TaskData.or_else.
  destruct (String.eqb_spec s ""); [ contradiction | reflexivity ].
Qed.

Lemma specified_percentage_values (s : string) :
  In (specified_percentage s) [0; 50; 100].
Proof.
  unfold specified_percentage.
  repeat match goal with
         | |- context [if ?c then _ else _] => destruct c
         end; simpl; auto.
Qed.

Lemma base_weight_bounds (priority : string) : 10 ≤ base_weight priority ≤ 60.
Proof.
  unfold base_weight.
  repeat match goal with
         | |- context [if ?c then _ else _] => destruct c
         end; lia.
Qed.

Lemma due_contribution_bounds (d : Z) : 5 ≤ due_contribution d ≤ 40.
Proof.
  unfold due_contribution.
  repeat match goal with
         | |- context [if ?c then _ else _] => destruct c
         end; lia.
Qed.

(** The later the day count, the smaller the contribution of the due
    date. *)
Lemma due_contribution_antitone (d d' : Z) :
  d ≤ d' → due_contribution d' ≤ due_contribution d.
Proof.
  intros H. unfold due_contribution.
  repeat match goal with
         | |- context [?a <? ?b] => destruct (Z.ltb_spec a b)
         | |- context [?a <=? ?b] => destruct (Z.leb_spec a b)
         end; lia.
Qed.

Lemma specified_score_bounds (env : Env) (priority : string) (is_urgent : bool)
    (due_date : option Due.t) :
  10 ≤ specified_score env priority is_urgent due_date ≤ 100.
Proof.
  unfold specified_score.
  pose proof (base_weight_bounds priority).
  destruct is_urgent, (due_instant due_date) as [due|];
    try pose proof (due_contribution_bounds
                      (Moment.diff_days (utcOffset env) due (now env)));
    lia.
Qed.

(** [create] as one case analysis: the two required fields, the two CHECK
    constraints, the primary key, and then the row and the task. *)
Lemma create_result (env : Env) (db : Sqlite.Store) (taskData : TaskData.t) :
  Task.create env db taskData
  = if TaskData.falsy (TaskData.title taskData)
       || TaskData.falsy (TaskData.user_id taskData)
    then Throw (Error "Title and user_id are required")
    else if negb (Sqlite.check_in Sqlite.status_values
                    (Some (Task.status (Task.new env taskData))))
    then Throw (SqliteConstraint "CHECK constraint failed: status")
    else if negb (Sqlite.check_in Sqlite.priority_values
                    (Some (Task.priority (Task.new env taskData))))
    then Throw (SqliteConstraint "CHECK constraint failed: priority")
    else match db !! Task.id (Task.new env taskData) with
         | Some _ => Throw (SqliteConstraint "UNIQUE constraint failed: tasks.id")
         | None =>
             Ok (<[ Task.id (Task.new env taskData) := created_row env taskData ]> db,
                 created_task env taskData)
         end.
Proof.
  unfold Task.create.
  destruct (TaskData.falsy (TaskData.title taskData)) eqn:Ht; [ reflexivity | ].
  destruct (TaskData.falsy (TaskData.user_id taskData)) eqn:Hu; [ reflexivity | ].
  apply falsy_false in Ht, Hu.
  destruct Ht as (t & Ht & _), Hu as (u & Hu & _).
  cbn [orb]. cbv zeta. unfold created_row, created_task. cbv zeta.
  rewrite calculatePriorityScore_set.
  set (task := Task.new env taskData).
  unfold Sqlite.insert_task, Sqlite.constraints, mbind, result_bind. task_fields.
  change (Task.title task) with (TaskData.title taskData).
  change (Task.user_id task) with (TaskData.user_id taskData).
  rewrite Ht, Hu.
  destruct (Sqlite.check_in Sqlite.status_values (Some (Task.status task))) eqn:Cs;
    [ | reflexivity ].
  destruct (Sqlite.check_in Sqlite.priority_values (Some (Task.priority task))) eqn:Cp;
    [ | reflexivity ].
  apply check_in_In in Cs, Cp.
  unfold Task.calculateCompletionPercentage.
  rewrite (status_percentage _ (listed_status_plain _ Cs)).
  rewrite (score_of_plain_priority env task (listed_priority_plain _ Cp)).
  cbn [negb Sqlite.real_of_value Js.num default].
  destruct (db !! Task.id task); reflexivity.
Qed.

(** [update] as one case analysis: the row must exist, the payload must
    leave the two methods in place, the merged status and priority must
    pass their CHECK, and then the row written and the task read back. *)
Lemma update_result (env : Env) (db : Sqlite.Store) (id : string)
    (updateData : TaskData.t) :
  Task.update env db id updateData
  = match db !! id with
    | None => Throw (Error "Task not found")
    | Some old =>
        if TaskData.hides updateData "calculateCompletionPercentage"
        then Throw (TypeError "task.calculateCompletionPercentage is not a function")
        else if TaskData.hides updateData "calculatePriorityScore"
        then Throw (TypeError "task.calculatePriorityScore is not a function")
        else if negb (Sqlite.check_in Sqlite.status_values
                        (Some (merged_status old updateData)))
        then Throw (SqliteConstraint "CHECK constraint failed: status")
        else if negb (Sqlite.check_in Sqlite.priority_values
                        (Some (merged_priority old updateData)))
        then Throw (SqliteConstraint "CHECK constraint failed: priority")
        else Ok (<[ id := updated_row env old updateData ]> db,
                 Some (task_of_row env (updated_row env old updateData)))
    end.
Proof.
  unfold Task.update, Task.findById, Sqlite.select_by_id.
  destruct (db !! id) as [old|] eqn:Hold; [ | reflexivity ].
  cbv zeta. unfold Task.call, mbind, result_bind.
  destruct (TaskData.hides updateData "calculateCompletionPercentage");
    [ reflexivity | ].
  destruct (TaskData.hides updateData "calculatePriorityScore"); [ reflexivity | ].
  rewrite calculatePriorityScore_set.
  unfold updated_row. fold (task_of_row env old).
  set (task := Task.assign (task_of_row env old) updateData).
  change (merged_status old updateData) with (Task.status task).
  change (merged_priority old updateData) with (Task.priority task).
  change (merged_is_urgent old updateData) with (Task.is_urgent task).
  change (merged_due_date old updateData) with (Task.due_date task).
  unfold Sqlite.update_task, Sqlite.constraints, mbind, result_bind. task_fields.
  rewrite Hold.
  assert (Ht : Task.title task
               = Some (default (Sqlite.title old) (TaskData.title updateData))).
  { unfold task. cbn. destruct (TaskData.title updateData); reflexivity. }
  rewrite Ht.
  destruct (Sqlite.check_in Sqlite.status_values (Some (Task.status task))) eqn:Cs;
    [ | reflexivity ].
  destruct (Sqlite.check_in Sqlite.priority_values (Some (Task.priority task))) eqn:Cp;
    [ | reflexivity ].
  apply check_in_In in Cs, Cp.
  unfold Task.calculateCompletionPercentage.
  rewrite (status_percentage _ (listed_status_plain _ Cs)).
  rewrite (score_of_plain_priority env task (listed_priority_plain _ Cp)).
  cbn [negb Sqlite.real_of_value Js.num].
  rewrite lookup_insert_eq. reflexivity.
Qed.

(** The task a reader gets for a row with an id, a status and a priority
    that are not empty: the row, field by field. *)
Lemma task_of_stored_row (env : Env) (r : Sqlite.Row) (s p : string) :
  Sqlite.id r ≠ ""%string →
  Sqlite.status r = Some s → s ≠ ""%string →
  Sqlite.priority r = Some p → p ≠ ""%string →
  task_of_row env r
  = {| Task.id := Sqlite.id r; Task.title := Some (Sqlite.title r);
       Task.description := Sqlite.description r;
       Task.status := s; Task.priority := p;
       Task.is_urgent := Sqlite.is_urgent r;
       Task.due_date := Sqlite.read_datetime <$> Sqlite.due_date r;
       Task.completion_percentage := Js.num (Sqlite.completion_percentage r);
       Task.priority_score := Js.Num (Sqlite.priority_score r);
       Task.user_id := Some (Sqlite.user_id r);
       Task.created_at := Some (Sqlite.created_at r);
       Task.updated_at := Some (Sqlite.updated_at r) |}.
Proof.
  intros Hid Hs Hs' Hp Hp'. unfold task_of_row, Task.new, TaskData.of_row.
  cbn [TaskData.id TaskData.title TaskData.description TaskData.status
       TaskData.priority TaskData.is_urgent TaskData.due_date
       TaskData.completion_percentage TaskData.priority_score TaskData.user_id
       TaskData.created_at TaskData.updated_at default].
  rewrite Hs, Hp, !or_else_kept by assumption. reflexivity.
Qed.

(** What the column gives back for a value it gave back is that value. *)
Lemma read_back_read (cell : Sqlite.datetime) :
  read_back (Sqlite.read_datetime cell) = Sqlite.read_datetime cell.
Proof. destruct cell; reflexivity. Qed.

Lemma created_due_date_read (taskData : TaskData.t) :
  due_date_kept taskData →
  Sqlite.read_datetime <$> (Sqlite.store_datetime <$> TaskData.due_date taskData)
  = TaskData.due_date taskData.
Proof.
  intros H. unfold due_date_kept in H.
  destruct (TaskData.due_date taskData) as [value|]; [ | reflexivity ].
  cbn. f_equal. apply H. reflexivity.
Qed.

Lemma merged_due_date_read (old : Sqlite.Row) (updateData : TaskData.t) :
  due_date_kept updateData →
  Sqlite.read_datetime <$> (Sqlite.store_datetime <$> merged_due_date old updateData)
  = merged_due_date old updateData.
Proof.
  intros H. unfold due_date_kept in H. unfold merged_due_date.
  destruct (TaskData.due_date updateData) as [value|].
  - cbn. f_equal. apply H. reflexivity.
  - destruct (Sqlite.due_date old) as [cell|]; [ | reflexivity ].
    cbn. f_equal. apply read_back_read.
Qed.

Lemma created_row_as_specified (env : Env) (taskData : TaskData.t) :
  due_date_kept taskData → derived_as_specified env (created_row env taskData).
Proof.
  intros H. unfold derived_as_specified, created_row. cbv zeta.
  cbn [Sqlite.status Sqlite.priority Sqlite.is_urgent Sqlite.due_date
       Sqlite.completion_percentage Sqlite.priority_score].
  eexists _, _. split; [ reflexivity | ]. split; [ reflexivity | ].
  split; [ reflexivity | ]. rewrite (created_due_date_read _ H). reflexivity.
Qed.

Lemma updated_row_as_specified (env : Env) (old : Sqlite.Row)
    (updateData : TaskData.t) :
  due_date_kept updateData →
  derived_as_specified env (updated_row env old updateData).
Proof.
  intros H. unfold derived_as_specified, updated_row.
  cbn [Sqlite.status Sqlite.priority Sqlite.is_urgent Sqlite.due_date
       Sqlite.completion_percentage Sqlite.priority_score].
  eexists _, _. split; [ reflexivity | ]. split; [ reflexivity | ].
  split; [ reflexivity | ]. rewrite (merged_due_date_read _ _ H). reflexivity.
Qed.

Lemma step_as_specified (st : run_state) (o : op) :
  keeps_due_dates o →
  derived_fields_as_specified st → derived_fields_as_specified (step st o).
Proof.
  destruct st as [db written]. unfold derived_fields_as_specified. cbn [fst snd].
  intros Hkept IH. destruct o as [ env taskData | env id updateData | id ]; cbn [step].
  - rewrite create_result.
    destruct (_ || _); [ exact IH | ].
    destruct (negb _); [ exact IH | ].
    destruct (negb _); [ exact IH | ].
    destruct (db !! _); [ exact IH | ].
    cbn [fst snd]. intros id' r' H. apply lookup_insert_Some in H.
    destruct H as [[<- <-] | [Hne H]].
    + exists env. rewrite lookup_insert_eq.
      split; [ reflexivity | apply created_row_as_specified, Hkept ].
    + rewrite lookup_insert_ne by exact Hne. apply IH, H.
  - rewrite update_result.
    destruct (db !! id) as [old|]; [ | exact IH ].
    destruct (TaskData.hides _ _); [ exact IH | ].
    destruct (TaskData.hides _ _); [ exact IH | ].
    destruct (negb _); [ exact IH | ].
    destruct (negb _); [ exact IH | ].
    cbn [fst snd]. intros id' r' H. apply lookup_insert_Some in H.
    destruct H as [[<- <-] | [Hne H]].
    + exists env. rewrite lookup_insert_eq.
      split; [ reflexivity | apply updated_row_as_specified, Hkept ].
    + rewrite lookup_insert_ne by exact Hne. apply IH, H.
  - unfold Task.delete, Sqlite.delete_task.
    destruct (db !! id) eqn:Hid; cbn [fst snd]; [ | exact IH ].
    intros id' r' H. apply lookup_delete_Some in H. apply IH, H.
Qed.

Lemma run_as_specified (ops : list op) (st : run_state) :
  Forall keeps_due_dates ops →
  derived_fields_as_specified st →
  derived_fields_as_specified (fold_left step ops st).
Proof.
  revert st. induction ops as [ | o ops IH ]; intros st Hkept H; [ exact H | ].
  inversion Hkept as [ | ? ? Ho Hops ]; subst.
  simpl. apply IH; [ exact Hops | apply step_as_specified; assumption ].
Qed.

(** The row [create] writes for a payload whose due date is a text that
    spells a number: the cell holds the number, the score is that of the
    text. *)
Lemma created_row_converted (env : Env) (taskData : TaskData.t) (instant n : Z) :
  TaskData.due_date taskData = Some (Due.text instant (Some n)) →
  Sqlite.due_date (created_row env taskData) = Some (Sqlite.INTEGER n)
  ∧ ∃ priority,
      Sqlite.priority (created_row env taskData) = Some priority
      ∧ Sqlite.priority_score (created_row env taskData)
        = specified_score env priority (Sqlite.is_urgent (created_row env taskData))
            (Some (Due.text instant (Some n))).
Proof.
  intros H. unfold created_row. cbv zeta.
  cbn [Sqlite.priority Sqlite.is_urgent Sqlite.due_date Sqlite.priority_score].
  rewrite H. split; [ reflexivity | ]. eexists. split; reflexivity.
Qed.

Lemma updated_row_converted (env : Env) (old : Sqlite.Row) (updateData : TaskData.t)
    (instant n : Z) :
  TaskData.due_date updateData = Some (Due.text instant (Some n)) →
  Sqlite.due_date (updated_row env old updateData) = Some (Sqlite.INTEGER n)
  ∧ ∃ priority,
      Sqlite.priority (updated_row env old updateData) = Some priority
      ∧ Sqlite.priority_score (updated_row env old updateData)
        = specified_score env priority
            (Sqlite.is_urgent (updated_row env old updateData))
            (Some (Due.text instant (Some n))).
Proof.
  intros H. unfold updated_row, merged_due_date.
  cbn [Sqlite.priority Sqlite.is_urgent Sqlite.due_date Sqlite.priority_score].
  rewrite H. split; [ reflexivity | ]. eexists. split; reflexivity.
Qed.

(** What a [create] and an [update] that succeeded have written. *)
Lemma create_succeeded (env : Env) (db db' : Sqlite.Store) (taskData : TaskData.t)
    (task : Task.t) :
  Task.create env db taskData = Ok (db', task) →
  db !! Task.id task = None
  ∧ db' = <[ Task.id task := created_row env taskData ]> db
  ∧ task = created_task env taskData.
Proof.
  rewrite create_result.
  destruct (_ || _); [ discriminate | ].
  destruct (negb _); [ discriminate | ].
  destruct (negb _); [ discriminate | ].
  destruct (db !! _) eqn:Hfree; [ discriminate | ].
  intros [= <- <-]. split; [ exact Hfree | split; reflexivity ].
Qed.

Lemma update_succeeded (env : Env) (db db' : Sqlite.Store) (id : string)
    (updateData : TaskData.t) (found : option Task.t) :
  Task.update env db id updateData = Ok (db', found) →
  ∃ old,
    db !! id = Some old
    ∧ db' = <[ id := updated_row env old updateData ]> db
    ∧ found = Some (task_of_row env (updated_row env old updateData))
    ∧ TaskData.hides updateData "calculateCompletionPercentage" = false
    ∧ TaskData.hides updateData "calculatePriorityScore" = false
    ∧ In (merged_status old updateData) Sqlite.status_values
    ∧ In (merged_priority old updateData) Sqlite.priority_values.
Proof.
  rewrite update_result.
  destruct (db !! id) as [old|]; [ | discriminate ].
  destruct (TaskData.hides updateData "calculateCompletionPercentage") eqn:H1;
    [ discriminate | ].
  destruct (TaskData.hides updateData "calculatePriorityScore") eqn:H2;
    [ discriminate | ].
  destruct (Sqlite.check_in Sqlite.status_values _) eqn:Cs; cbn [negb];
    [ | discriminate ].
  destruct (Sqlite.check_in Sqlite.priority_values _) eqn:Cp; cbn [negb];
    [ | discriminate ].
  intros [= <- <-]. apply check_in_In in Cs, Cp.
  exists old. repeat split; assumption.
Qed.

(** C5, as far as it holds and where the code departs from it.  A [create]
    or an [update] that succeeds with a due date the column gives back as
    it was written (or with none) leaves a row whose completion percentage
    is that of its status and whose priority score is that of its
    priority, urgency and due date in the environment of the write; along
    every sequence of such creates and updates, and of deletes, from the
    empty store, every row is so with the environment of the last write
    that succeeded on it.  A due date whose text spells a number is stored
    as that number while the score stored is that of the text: created at
    noon with the due date ['20991231'], a MEDIUM task is stored with the
    score 30 and the number 20991231, a due date in 1970, for which the
    rule gives 65. *)
Theorem derived_fields_as_specified_unless_due_date_converted :
  (∀ env db taskData db' task,
     Task.create env db taskData = Ok (db', task) →
     due_date_kept taskData →
     ∃ r, db' !! Task.id task = Some r ∧ derived_as_specified env r)
  ∧ (∀ env db id updateData db' found,
       Task.update env db id updateData = Ok (db', found) →
       due_date_kept updateData →
       ∃ r, db' !! id = Some r ∧ derived_as_specified env r)
  ∧ (∀ ops, Forall keeps_due_dates ops → derived_fields_as_specified (run ops))
  ∧ (∀ env db taskData db' task instant n,
       Task.create env db taskData = Ok (db', task) →
       TaskData.due_date taskData = Some (Due.text instant (Some n)) →
       ∃ r priority,
         db' !! Task.id task = Some r
         ∧ Sqlite.due_date r = Some (Sqlite.INTEGER n)
         ∧ Sqlite.priority r = Some priority
         ∧ Sqlite.priority_score r
           = specified_score env priority (Sqlite.is_urgent r)
               (Some (Due.text instant (Some n))))
  ∧ (∀ env db id updateData db' found instant n,
       Task.update env db id updateData = Ok (db', found) →
       TaskData.due_date updateData = Some (Due.text instant (Some n)) →
       ∃ r priority,
         db' !! id = Some r
         ∧ Sqlite.due_date r = Some (Sqlite.INTEGER n)
         ∧ Sqlite.priority r = Some priority
         ∧ Sqlite.priority_score r
           = specified_score env priority (Sqlite.is_urgent r)
               (Some (Due.text instant (Some n))))
  ∧ (let created := Task.create (env_at noon) ∅ due_20991231 in
     let db := store_after ∅ created in
     succeeds created = true
     ∧ Sqlite.due_date <$> db !! "6f1c2a9e" = Some (Some (Sqlite.INTEGER 20991231))
     ∧ Sqlite.priority <$> db !! "6f1c2a9e" = Some (Some "MEDIUM"%string)
     ∧ Sqlite.is_urgent <$> db !! "6f1c2a9e" = Some false
     ∧ Sqlite.priority_score <$> db !! "6f1c2a9e" = Some 30
     ∧ specified_score (env_at noon) "MEDIUM" false (Some (Due.number 20991231)) = 65
     ∧ ∀ r, db !! "6f1c2a9e" = Some r → ¬ derived_as_specified (env_at noon) r).
Proof.
  split; [ | split; [ | split; [ | split; [ | split ] ] ] ].
  - intros env db taskData db' task E Hkept. apply create_succeeded in E.
    destruct E as (_ & -> & _). eexists. rewrite lookup_insert_eq.
    split; [ reflexivity | apply created_row_as_specified, Hkept ].
  - intros env db id updateData db' found E Hkept. apply update_succeeded in E.
    destruct E as (old & _ & -> & _). eexists. rewrite lookup_insert_eq.
    split; [ reflexivity | apply updated_row_as_specified, Hkept ].
  - intros ops Hkept. apply run_as_specified; [ exact Hkept | ].
    intros id r H. cbn [fst] in H. rewrite lookup_empty in H. discriminate.
  - intros env db taskData db' task instant n E Hdue. apply create_succeeded in E.
    destruct E as (_ & -> & _).
    destruct (created_row_converted env taskData instant n Hdue)
      as (Hcell & priority & Hp & Hscore).
    exists (created_row env taskData), priority. rewrite lookup_insert_eq.
    repeat split; assumption.
  - intros env db id updateData db' found instant n E Hdue.
    apply update_succeeded in E. destruct E as (old & _ & -> & _).
    destruct (updated_row_converted env old updateData instant n Hdue)
      as (Hcell & priority & Hp & Hscore).
    exists (updated_row env old updateData), priority. rewrite lookup_insert_eq.
    repeat split; assumption.
  - cbv zeta.
    assert (E : Task.create (env_at noon) ∅ due_20991231
                = Ok (<[ "6f1c2a9e"%string := created_row (env_at noon) due_20991231 ]> ∅,
                      created_task (env_at noon) due_20991231)).
    { rewrite create_result. reflexivity. }
    rewrite E. cbn [store_after succeeds]. rewrite lookup_insert_eq.
    split; [ reflexivity | ]. split; [ reflexivity | ]. split; [ reflexivity | ].
    split; [ reflexivity | ]. split; [ vm_compute; reflexivity | ].
    split; [ vm_compute; reflexivity | ].
    intros r [= <-] (status & priority & _ & Hp & _ & Hscore).
    injection Hp as <-. vm_compute in Hscore. discriminate Hscore.
Qed.

Lemma derived_fields_as_specified_unless_due_date_converted_witness :
  match Task.create (env_at noon) one_task
          (sample_task "Write the report" "IN_PROGRESS" "HIGH" true (Some (noon + 2 * day)))
  with
  | Ok (db', task) =>
      ∃ r, db' !! Task.id task = Some r ∧ derived_as_specified (env_at noon) r
  | Throw _ => False
  end
  ∧ (Forall keeps_due_dates sample_run
     ∧ fst (run sample_run) ≠ ∅
     ∧ derived_fields_as_specified (run sample_run))
  ∧ match Task.create (env_at noon) ∅ due_20991231 with
    | Ok (db', task) =>
        ∃ r priority,
          db' !! Task.id task = Some r
          ∧ Sqlite.due_date r = Some (Sqlite.INTEGER 20991231)
          ∧ Sqlite.priority r = Some priority
          ∧ Sqlite.priority_score r
            = specified_score (env_at noon) priority (Sqlite.is_urgent r)
                (Some (Due.text 4102358400000 (Some 20991231)))
    | Throw _ => False
    end.
Proof.
  assert (Hkept : ∀ title status priority is_urgent due,
             due_date_kept (sample_task title status priority is_urgent due)).
  { intros title status priority is_urgent [due|] value H; cbn in H;
      [ injection H as <-; reflexivity | discriminate H ]. }
  assert (Hrun : Forall keeps_due_dates sample_run).
  { unfold sample_run.
    repeat (constructor;
            [ cbn [keeps_due_dates]; try exact I;
              intros value H; cbn in H;
              first [ discriminate H | injection H as <-; reflexivity ] | ]).
    constructor. }
  split; [ | split; [ split; [ exact Hrun | split ] | ] ].
  - assert (Hs : succeeds (Task.create (env_at noon) one_task
                   (sample_task "Write the report" "IN_PROGRESS" "HIGH" true
                      (Some (noon + 2 * day)))) = true) by (vm_compute; reflexivity).
    destruct (Task.create _ _ _) as [[db' task]|] eqn:E; [ | discriminate Hs ].
    exact (proj1 derived_fields_as_specified_unless_due_date_converted
             _ _ _ _ _ E (Hkept _ _ _ _ _)).
  - intros H. apply (f_equal (fun db => is_Some (db !! "t-2"%string))) in H.
    assert (Hsome : is_Some (fst (run sample_run) !! "t-2"%string))
      by (vm_compute; eauto).
    rewrite H, lookup_empty in Hsome. destruct Hsome as [? [=]].
  - exact (proj1 (proj2 (proj2 derived_fields_as_specified_unless_due_date_converted))
             sample_run Hrun).
  - assert (Hs : succeeds (Task.create (env_at noon) ∅ due_20991231) = true)
      by (vm_compute; reflexivity).
    destruct (Task.create _ _ _) as [[db' task]|] eqn:E; [ | discriminate Hs ].
    exact (proj1 (proj2 (proj2 (proj2
             derived_fields_as_specified_unless_due_date_converted)))
             _ _ _ _ _ _ _ E eq_refl).
Defined.

(** C9: whatever the payload holds, [id], [user_id] and [created_at]
    included, [update] leaves the [id], the [user_id] and the [created_at]
    of the task in the store as they were, and every other task as it
    was. *)
Theorem update_keeps_identity (env : Env) (db : Sqlite.Store) (id : string)
    (updateData : TaskData.t) (r : Sqlite.Row) :
  db !! id = Some r →
  (∃ r', store_after db (Task.update env db id updateData) !! id = Some r'
         ∧ Sqlite.id r' = Sqlite.id r
         ∧ Sqlite.user_id r' = Sqlite.user_id r
         ∧ Sqlite.created_at r' = Sqlite.created_at r)
  ∧ ∀ id', id' ≠ id →
      store_after db (Task.update env db id updateData) !! id' = db !! id'.
Proof.
  intros Hr.
  destruct (Task.update env db id updateData) as [[db' found]|] eqn:E; simpl.
  - apply update_succeeded in E. destruct E as (old & Hold & -> & _).
    assert (old = r) by congruence. subst old. split.
    + eexists. rewrite lookup_insert_eq. repeat split; reflexivity.
    + intros id' Hne. apply lookup_insert_ne. congruence.
  - split; [ exists r; repeat split; assumption | reflexivity ].
Qed.

Lemma update_keeps_identity_witness :
  one_task !! "t1" = Some (sample_row "t1" "TODO" (Some (noon + 10 * day)))
  ∧ (∃ r', store_after one_task
             (Task.update (env_at (noon + day)) one_task "t1"
                (with_derived (Some 100) (Some 0)
                   {| TaskData.id := Some "t2"; TaskData.title := Some "Write it";
                      TaskData.description := None; TaskData.status := Some "COMPLETED";
                      TaskData.priority := None; TaskData.is_urgent := None;
                      TaskData.due_date := None;
                      TaskData.completion_percentage := None;
                      TaskData.priority_score := None;
                      TaskData.user_id := Some "bob";
                      TaskData.created_at := Some 0;
                      TaskData.updated_at := None;
                      TaskData.others := [] |})) !! "t1" = Some r'
           ∧ Sqlite.id r' = "t1"%string
           ∧ Sqlite.user_id r' = "alice"%string
           ∧ Sqlite.created_at r' = noon).
Proof.
  split; [ reflexivity | ].
  exact (proj1 (update_keeps_identity (env_at (noon + day)) one_task "t1" _
                  (sample_row "t1" "TODO" (Some (noon + 10 * day))) eq_refl)).
Defined.

Lemma update_ignores_derived_fields (env : Env) (db : Sqlite.Store) (id : string)
    (updateData : TaskData.t) (c p : option Z) :
  Task.update env db id (with_derived c p updateData)
  = Task.update env db id updateData.
Proof.
  unfold Task.update. destruct (Task.findById env db id); reflexivity.
Qed.

(** C10: every [update] that succeeds has written, over the row of the
    id, the merged record (a field of the payload where it has one, the
    stored field otherwise) with the completion percentage of the merged
    status and the priority score of the merged priority, urgency and due
    date at the clock of the call, whatever the payload touches; a
    [completion_percentage] or [priority_score] in the payload changes
    nothing; and a task with a due date, updated twice in its title only,
    eleven days apart, gets two different scores (30, then 65). *)
Theorem update_recomputes_derived_fields :
  (∀ env db id updateData db' found,
     Task.update env db id updateData = Ok (db', found) →
     ∃ old r,
       db !! id = Some old ∧ db' !! id = Some r
       ∧ Sqlite.status r = Some (merged_status old updateData)
       ∧ Sqlite.priority r = Some (merged_priority old updateData)
       ∧ Sqlite.is_urgent r = merged_is_urgent old updateData
       ∧ Sqlite.due_date r
         = Sqlite.store_datetime <$> merged_due_date old updateData
       ∧ Sqlite.completion_percentage r
         = specified_percentage (merged_status old updateData)
       ∧ Sqlite.priority_score r
         = specified_score env (merged_priority old updateData)
             (merged_is_urgent old updateData) (merged_due_date old updateData))
  ∧ (∀ env db id updateData c p,
       Task.update env db id (with_derived c p updateData)
       = Task.update env db id updateData)
  ∧ (let first := Task.update (env_at noon) one_task "t1" (title_only "Write it") in
     let db1 := store_after one_task first in
     let second :=
       Task.update (env_at (noon + 11 * day)) db1 "t1" (title_only "Write it up") in
     let db2 := store_after db1 second in
     succeeds first = true ∧ succeeds second = true
     ∧ Sqlite.due_date <$> one_task !! "t1"
       = Some (Some (Sqlite.TEXT (noon + 10 * day)))
     ∧ Sqlite.due_date <$> db1 !! "t1" = Some (Some (Sqlite.TEXT (noon + 10 * day)))
     ∧ Sqlite.due_date <$> db2 !! "t1" = Some (Some (Sqlite.TEXT (noon + 10 * day)))
     ∧ Sqlite.status <$> db1 !! "t1" = Sqlite.status <$> db2 !! "t1"
     ∧ Sqlite.priority <$> db1 !! "t1" = Sqlite.priority <$> db2 !! "t1"
     ∧ Sqlite.is_urgent <$> db1 !! "t1" = Sqlite.is_urgent <$> db2 !! "t1"
     ∧ Sqlite.priority_score <$> db1 !! "t1" = Some 30
     ∧ Sqlite.priority_score <$> db2 !! "t1" = Some 65).
Proof.
  split; [ | split ].
  - intros env db id updateData db' found E. apply update_succeeded in E.
    destruct E as (old & Hold & -> & _).
    exists old, (updated_row env old updateData). rewrite lookup_insert_eq.
    repeat split; assumption.
  - intros. apply update_ignores_derived_fields.
  - cbv zeta. repeat split; vm_compute; reflexivity.
Qed.

Lemma update_recomputes_derived_fields_witness :
  match Task.update (env_at (noon + 11 * day)) one_task "t1"
          (with_derived (Some 100) (Some 0) (status_only "COMPLETED"))
  with
  | Ok (db', _) =>
      ∃ r,
        db' !! "t1" = Some r
        ∧ Sqlite.status r = Some "COMPLETED"%string
        ∧ Sqlite.priority r = Some "MEDIUM"%string
        ∧ Sqlite.is_urgent r = false
        ∧ Sqlite.due_date r = Some (Sqlite.TEXT (noon + 10 * day))
        ∧ Sqlite.completion_percentage r = 100
        ∧ Sqlite.priority_score r = 65
  | Throw _ => False
  end.
Proof.
  assert (Hs : succeeds (Task.update (env_at (noon + 11 * day)) one_task "t1"
                 (with_derived (Some 100) (Some 0) (status_only "COMPLETED"))) = true)
    by (vm_compute; reflexivity).
  destruct (Task.update _ _ _ _) as [[db' found]|] eqn:E; [ | discriminate Hs ].
  destruct (proj1 update_recomputes_derived_fields _ _ _ _ _ _ E)
    as (old & r & Hold & Hr & Hstatus & Hpriority & Hurgent & Hdue & Hc & Hscore).
  injection Hold as <-.
  exists r. split; [ exact Hr | ].
  split; [ exact Hstatus | ]. split; [ exact Hpriority | ].
  split; [ exact Hurgent | ]. split; [ exact Hdue | ].
  split; [ exact Hc | ]. rewrite Hscore. vm_compute. reflexivity.
Defined.

(** ** Further properties of create, findById, update and delete *)

(** X6: [create] succeeds exactly when the title and the owner are present
    and not empty, the status (TODO when missing or empty) and the priority
    (MEDIUM when missing or empty) are among the values of the schema, and
    the id (the one given, a fresh one when missing or empty) is not taken;
    it throws 'Title and user_id are required' exactly when the title or
    the owner is missing or empty. *)
Theorem create_accepts_exactly (env : Env) (db : Sqlite.Store)
    (taskData : TaskData.t) :
  (succeeds (Task.create env db taskData) = true
   ↔ TaskData.falsy (TaskData.title taskData) = false
     ∧ TaskData.falsy (TaskData.user_id taskData) = false
     ∧ In (TaskData.or_else (TaskData.status taskData) "TODO") Sqlite.status_values
     ∧ In (TaskData.or_else (TaskData.priority taskData) "MEDIUM") Sqlite.priority_values
     ∧ db !! TaskData.or_else (TaskData.id taskData) (uuidv4 env) = None)
  ∧ (Task.create env db taskData = Throw (Error "Title and user_id are required")
     ↔ TaskData.falsy (TaskData.title taskData) = true
       ∨ TaskData.falsy (TaskData.user_id taskData) = true).
Proof.
  rewrite create_result.
  change (Task.status (Task.new env taskData))
    with (TaskData.or_else (TaskData.status taskData) "TODO").
  change (Task.priority (Task.new env taskData))
    with (TaskData.or_else (TaskData.priority taskData) "MEDIUM").
  change (Task.id (Task.new env taskData))
    with (TaskData.or_else (TaskData.id taskData) (uuidv4 env)).
  rewrite <- !check_in_In.
  destruct (TaskData.falsy (TaskData.title taskData)),
           (TaskData.falsy (TaskData.user_id taskData)); cbn [orb];
    try (split; [ split; [ discriminate | intros (? & ? & _); discriminate ]
                | split; auto ]).
  destruct (Sqlite.check_in Sqlite.status_values _),
           (Sqlite.check_in Sqlite.priority_values _),
           (db !! _); cbn [negb succeeds];
    (split; [ split; [ try discriminate; intros _; repeat split; reflexivity
                     | intros (_ & _ & ? & ? & ?); try discriminate; reflexivity ]
            | split; [ discriminate | intros [?|?]; discriminate ] ]).
Qed.

(** X7: a task that [create] stored is found under its id, in any later
    environment, with the fields [create] returned, but for the due date,
    which is what the column gives back for the one written (the number,
    for a text that spells one), and with the two timestamps of the store;
    its id is the one given, or the generated one; every other id finds
    what it found before. *)
Theorem create_then_findById (env env' : Env) (db db' : Sqlite.Store)
    (taskData : TaskData.t) (task : Task.t) :
  Task.create env db taskData = Ok (db', task) →
  uuidv4 env ≠ ""%string →
  Task.findById env' db' (Task.id task)
  = Some (as_stored (Sqlite.CURRENT_TIMESTAMP (now env))
            (Sqlite.CURRENT_TIMESTAMP (now env)) task)
  ∧ Task.id task = TaskData.or_else (TaskData.id taskData) (uuidv4 env)
  ∧ Task.findById env' db (Task.id task) = None
  ∧ ∀ id, id ≠ Task.id task → Task.findById env' db' id = Task.findById env' db id.
Proof.
  rewrite create_result. intros H Huuid.
  destruct (TaskData.falsy (TaskData.title taskData)) eqn:Ht; [ discriminate | ].
  destruct (TaskData.falsy (TaskData.user_id taskData)) eqn:Hu; [ discriminate | ].
  apply falsy_false in Ht, Hu.
  destruct Ht as (t & Ht & _), Hu as (u & Hu & _). cbn [orb] in H.
  destruct (Sqlite.check_in Sqlite.status_values _) eqn:Cs; [ | discriminate ].
  destruct (Sqlite.check_in Sqlite.priority_values _) eqn:Cp; [ | discriminate ].
  apply check_in_In in Cs, Cp. cbn [negb] in H.
  destruct (db !! Task.id (Task.new env taskData)) eqn:Hfree; [ discriminate | ].
  injection H as <- <-.
  change (Task.id (created_task env taskData)) with (Task.id (Task.new env taskData)).
  unfold Task.findById, Sqlite.select_by_id.
  rewrite lookup_insert_eq, Hfree.
  split; [ | split; [ reflexivity | split; [ reflexivity | ] ] ].
  - f_equal. fold (task_of_row env' (created_row env taskData)).
    rewrite (task_of_stored_row env' (created_row env taskData)
               (Task.status (Task.new env taskData))
               (Task.priority (Task.new env taskData))).
    + unfold as_stored, created_task, created_row. cbv zeta. task_fields.
      cbn [Sqlite.id Sqlite.title Sqlite.description Sqlite.is_urgent
           Sqlite.due_date Sqlite.completion_percentage Sqlite.priority_score
           Sqlite.user_id Sqlite.created_at Sqlite.updated_at].
      change (Task.title (Task.new env taskData)) with (TaskData.title taskData).
      change (Task.user_id (Task.new env taskData)) with (TaskData.user_id taskData).
      change (Task.due_date (Task.new env taskData))
        with (TaskData.due_date taskData).
      rewrite Ht, Hu. destruct (TaskData.due_date taskData); reflexivity.
    + apply or_else_not_empty, Huuid.
    + reflexivity.
    + apply listed_status_not_empty, Cs.
    + reflexivity.
    + apply listed_priority_not_empty, Cp.
  - intros id Hne.
    rewrite lookup_insert_ne by (intros Heq; apply Hne; symmetry; exact Heq).
    reflexivity.
Qed.

Lemma create_then_findById_witness :
  match Task.create (env_at noon) one_task due_20991231 with
  | Ok (db', task) =>
      uuidv4 (env_at noon) ≠ ""%string
      ∧ Task.findById (env_at (noon + day)) db' (Task.id task)
        = Some (as_stored (Sqlite.CURRENT_TIMESTAMP noon)
                  (Sqlite.CURRENT_TIMESTAMP noon) task)
      ∧ Task.id task = "6f1c2a9e"%string
      ∧ Task.due_date task = Some (Due.text 4102358400000 (Some 20991231))
      ∧ Task.due_date (as_stored (Sqlite.CURRENT_TIMESTAMP noon)
                         (Sqlite.CURRENT_TIMESTAMP noon) task)
        = Some (Due.number 20991231)
  | Throw _ => False
  end.
Proof.
  assert (Hs : succeeds (Task.create (env_at noon) one_task due_20991231) = true)
    by (vm_compute; reflexivity).
  destruct (Task.create _ _ _) as [[db' task]|] eqn:E; [ | discriminate Hs ].
  assert (Huuid : uuidv4 (env_at noon) ≠ ""%string) by discriminate.
  split; [ exact Huuid | ].
  destruct (create_then_findById (env_at noon) (env_at (noon + day)) _ _ _ _ E Huuid)
    as (Hfound & Hid & _).
  split; [ exact Hfound | ]. split; [ exact Hid | ].
  apply create_succeeded in E. destruct E as (_ & _ & ->).
  split; reflexivity.
Defined.

(** X8: [delete] returns true exactly when a task with the id was stored;
    after it no task is found under the id and every other id finds what
    it found before; deleting again returns false and changes nothing. *)
Theorem delete_then_findById (env : Env) (db : Sqlite.Store) (id : string) :
  (snd (Task.delete db id) = true ↔ is_Some (Task.findById env db id))
  ∧ Task.findById env (fst (Task.delete db id)) id = None
  ∧ (∀ id', id' ≠ id →
       Task.findById env (fst (Task.delete db id)) id' = Task.findById env db id')
  ∧ Task.delete (fst (Task.delete db id)) id = (fst (Task.delete db id), false).
Proof.
  unfold Task.delete, Sqlite.delete_task, Task.findById, Sqlite.select_by_id.
  destruct (db !! id) as [r|] eqn:Hid; cbn [fst snd].
  - split; [ split; [ eauto | reflexivity ] | ].
    rewrite lookup_delete_eq. cbn [fst snd].
    split; [ reflexivity | ].
    split; [ | reflexivity ].
    intros id' Hne. rewrite lookup_delete_ne by congruence. reflexivity.
  - rewrite Hid. cbn [fst snd].
    split; [ split; [ discriminate | intros [? [=]] ] | ].
    split; [ reflexivity | ].
    split; [ reflexivity | reflexivity ].
Qed.










(** ** What every stored row satisfies *)






(** X12: for a task whose priority is not an inherited name, in a zone
    with one offset from UTC, the priority score is between 10 and 100 and
    does not decrease as the clock advances. *)
Theorem score_grows_with_the_clock (earlier later : Env) (this : Task.t) :
  inherited_key (Task.priority this) = false →
  fixed_offset earlier → fixed_offset later →
  now earlier ≤ now later →
  ∃ s s',
    Task.calculatePriorityScore earlier this = Js.Num s
    ∧ Task.calculatePriorityScore later this = Js.Num s'
    ∧ 10 ≤ s ∧ s ≤ s' ∧ s' ≤ 100.
Proof.
  intros Hk Hz Hz' Hle.
  exists (specified_score earlier (Task.priority this) (Task.is_urgent this)
            (Task.due_date this)),
         (specified_score later (Task.priority this) (Task.is_urgent this)
            (Task.due_date this)).
  rewrite !score_of_plain_priority by assumption.
  split; [ reflexivity | ]. split; [ reflexivity | ].
  pose proof (specified_score_bounds earlier (Task.priority this)
                (Task.is_urgent this) (Task.due_date this)).
  pose proof (specified_score_bounds later (Task.priority this)
                (Task.is_urgent this) (Task.due_date this)).
  split; [ lia | ]. split; [ | lia ].
  unfold specified_score.
  destruct (due_instant (Task.due_date this)) as [due|]; [ | lia ].
  assert (Hd : due_contribution (Moment.diff_days (utcOffset earlier) due (now earlier))
               ≤ due_contribution (Moment.diff_days (utcOffset later) due (now later))).
  { apply due_contribution_antitone.
    unfold Moment.diff_days, Moment.absFloor.
    rewrite (Hz (now earlier) due), (Hz' (now later) due), !Z.sub_diag.
    apply Z.quot_le_mono; lia. }
  lia.
Qed.

Lemma score_grows_with_the_clock_witness :
  inherited_key "MEDIUM" = false
  ∧ fixed_offset (env_at noon) ∧ fixed_offset (env_at (noon + 9 * day))
  ∧ now (env_at noon) ≤ now (env_at (noon + 9 * day))
  ∧ ∃ s s',
      Task.calculatePriorityScore (env_at noon)
        (Task.new (env_at noon)
           (sample_task "t" "TODO" "MEDIUM" false (Some (noon + 10 * day))))
      = Js.Num s
      ∧ Task.calculatePriorityScore (env_at (noon + 9 * day))
          (Task.new (env_at noon)
             (sample_task "t" "TODO" "MEDIUM" false (Some (noon + 10 * day))))
        = Js.Num s'
      ∧ 10 ≤ s ∧ s ≤ s' ∧ s' ≤ 100.
Proof.
  assert (Hz : ∀ clock, fixed_offset (env_at clock)) by (intros clock a b; reflexivity).
  assert (Hle : now (env_at noon) ≤ now (env_at (noon + 9 * day)))
    by (vm_compute; discriminate).
  split; [ reflexivity | ]. split; [ apply Hz | ]. split; [ apply Hz | ].
  split; [ exact Hle | ].
  exact (score_grows_with_the_clock (env_at noon) (env_at (noon + 9 * day))
           (Task.new (env_at noon)
              (sample_task "t" "TODO" "MEDIUM" false (Some (noon + 10 * day))))
           eq_refl (Hz _) (Hz _) Hle).
Defined.


(** ** Further properties of findAll *)

(** What a plan that [findAll_plan] returns is made of. *)
Lemma findAll_plan_ok (options : Task.Options.t) (plan : Task.Plan) :
  Task.findAll_plan options = Ok plan →
  plan
  = let conditions := fst (Task.where_conditions options) in
    let params := snd (Task.where_conditions options) in
    let whereClause :=
      if 0 <? Z.of_nat (length conditions)
      then "WHERE " +:+ String.concat " AND " conditions
      else ""%string in
    let limit := Task.Options.or_default (Task.Options.limit options) (Js.num 10) in
    let page := Task.Options.or_default (Task.Options.page options) (Js.num 1) in
    let offset :=
      Js.num_mul (Js.num_sub (Js.ToNumber page) (Js.Num 1)) (Js.ToNumber limit) in
    {| Task.whereConditions := conditions;
       Task.params := params;
       Task.whereClause := whereClause;
       Task.validSortBy := effective_sort_by (Task.Options.sort_by options);
       Task.validSortOrder := effective_sort_order (Task.Options.sort_order options);
       Task.offset := offset;
       Task.query :=
         {| Task.sql := "SELECT * FROM tasks " +:+ whereClause +:+ " ORDER BY "
                        +:+ effective_sort_by (Task.Options.sort_by options) +:+ " "
                        +:+ effective_sort_order (Task.Options.sort_order options)
                        +:+ " LIMIT ? OFFSET ?";
            Task.bindings := params ++ [limit; Js.VNumber offset] |};
       Task.countQuery :=
         {| Task.sql := "SELECT COUNT(*) as count FROM tasks " +:+ whereClause;
            Task.bindings := params |} |}.
Proof.
  unfold Task.findAll_plan.
  destruct (Task.where_conditions options) as [cs ps]. cbn [fst snd].
  assert (Hby : (if Js.includes Task.allowedSortFields
                      (Task.Options.or_default (Task.Options.sort_by options)
                         (Js.VString "created_at"))
                 then Js.ToString (Task.Options.or_default (Task.Options.sort_by options)
                                     (Js.VString "created_at"))
                 else "created_at"%string)
                = effective_sort_by (Task.Options.sort_by options)).
  { destruct (Task.Options.sort_by options) as [ | | b | n | s | o ];
      reflexivity. }
  rewrite Hby.
  destruct (Task.Options.sort_order options) as [ | | b | n | s | o ];
    try discriminate.
  - intros [= <-]. reflexivity.
  - unfold effective_sort_order. cbn [Task.Options.or_default Task.call_toUpperCase].
    unfold mbind, result_bind. cbn [Js.includes Task.allowedSortOrders existsb].
    destruct (String.eqb (Js.toUpperCase s) "ASC"),
             (String.eqb (Js.toUpperCase s) "DESC");
      cbn [orb]; intros [= <-]; reflexivity.
Qed.

Lemma count_placeholders_app (a b : string) :
  count_placeholders (a +:+ b) = (count_placeholders a + count_placeholders b)%nat.
Proof.
  induction a as [ | c a IH ]; [ reflexivity | ].
  simpl. rewrite IH. lia.
Qed.

Lemma sort_field_without_placeholder (sort_by : Js.value) :
  count_placeholders (effective_sort_by sort_by) = 0%nat.
Proof.
  pose proof (effective_sort_by_allowed sort_by) as H.
  unfold Task.allowedSortFields in H. simpl in H.
  repeat (destruct H as [<- | H]; [ reflexivity | ]). destruct H.
Qed.

Lemma sort_order_without_placeholder (sort_order : Js.value) :
  count_placeholders (effective_sort_order sort_order) = 0%nat.
Proof.
  pose proof (effective_sort_order_allowed sort_order) as H.
  unfold Task.allowedSortOrders in H. simpl in H.
  repeat (destruct H as [<- | H]; [ reflexivity | ]). destruct H.
Qed.

(** In the WHERE clause every condition holds as many [?] as it pushed
    parameters. *)
Lemma where_clause_placeholders (options : Task.Options.t) :
  count_placeholders
    (if 0 <? Z.of_nat (length (fst (Task.where_conditions options)))
     then "WHERE " +:+ String.concat " AND " (fst (Task.where_conditions options))
     else ""%string)
  = length (snd (Task.where_conditions options)).
Proof.
  unfold Task.where_conditions, Task.push_if.
  destruct (Js.truthy (Task.Options.user_id options));
    destruct (Js.truthy (Task.Options.status options));
    destruct (Js.truthy (Task.Options.priority options));
    destruct (Task.Options.is_urgent options) as [ | | ? | ? | ? | ? ];
    destruct (Js.truthy (Task.Options.search options));
    reflexivity.
Qed.

(** X13: in the two statements [findAll] sends, the number of [?] is the
    number of values bound: the page query binds the parameters of the
    conditions, then the limit and the offset; the count query has the same
    WHERE clause and binds the parameters of the conditions alone. *)
Theorem findAll_placeholders_match_bindings (options : Task.Options.t)
    (plan : Task.Plan) :
  Task.findAll_plan options = Ok plan →
  count_placeholders (Task.sql (Task.query plan))
  = length (Task.bindings (Task.query plan))
  ∧ count_placeholders (Task.sql (Task.countQuery plan))
    = length (Task.bindings (Task.countQuery plan))
  ∧ Task.bindings (Task.query plan)
    = Task.bindings (Task.countQuery plan)
      ++ [ Task.Options.or_default (Task.Options.limit options) (Js.num 10);
           Js.VNumber (Task.offset plan) ]
  ∧ Task.sql (Task.query plan)
    = "SELECT * FROM tasks " +:+ Task.whereClause plan +:+ " ORDER BY "
      +:+ Task.validSortBy plan +:+ " " +:+ Task.validSortOrder plan
      +:+ " LIMIT ? OFFSET ?"
  ∧ Task.sql (Task.countQuery plan)
    = "SELECT COUNT(*) as count FROM tasks " +:+ Task.whereClause plan.
Proof.
  intros H. apply findAll_plan_ok in H. subst plan. cbv zeta.
  cbn [Task.query Task.countQuery Task.sql Task.bindings Task.whereClause
       Task.validSortBy Task.validSortOrder Task.offset].
  pose proof (where_clause_placeholders options) as Hw.
  split; [ | split; [ | repeat split ] ].
  - rewrite !count_placeholders_app, Hw, sort_field_without_placeholder,
      sort_order_without_placeholder, length_app.
    reflexivity.
  - rewrite count_placeholders_app, Hw. reflexivity.
Qed.

Lemma findAll_placeholders_match_bindings_witness :
  Task.findAll_plan alice_options = Ok alice_plan
  ∧ count_placeholders (Task.sql (Task.query alice_plan)) = 7%nat
  ∧ length (Task.bindings (Task.query alice_plan)) = 7%nat.
Proof.
  split; [ reflexivity | ].
  pose proof (findAll_placeholders_match_bindings alice_options alice_plan eq_refl)
    as (H & _).
  split; [ rewrite H | ]; reflexivity.
Defined.




(** ** Further properties of getStatistics *)

Lemma filter_Permutation_stdlib {A : Type} (p : A → bool) (l l' : list A) :
  l ≡ₚ l' → List.filter p l ≡ₚ List.filter p l'.
Proof.
  induction 1 as [ | x l l' H IH | x y l | l l' l'' H1 IH1 H2 IH2 ]; simpl.
  - constructor.
  - destruct (p x); [ constructor | ]; exact IH.
  - destruct (p x), (p y); try reflexivity. constructor.
  - etransitivity; eassumption.
Qed.

Lemma sum_Permutation (l l' : list Z) :
  l ≡ₚ l' → fold_right Z.add 0 l = fold_right Z.add 0 l'.
Proof.
  induction 1 as [ | x l l' H IH | x y l | l l' l'' H1 IH1 H2 IH2 ]; simpl; lia.
Qed.

Lemma SUM_CASE_Permutation (p : Sqlite.Row → bool) (rows rows' : list Sqlite.Row) :
  rows ≡ₚ rows' → Sqlite.SUM_CASE p rows = Sqlite.SUM_CASE p rows'.
Proof.
  intros H. unfold Sqlite.SUM_CASE.
  destruct rows as [ | r rows ].
  - apply Permutation_nil in H. subst. reflexivity.
  - destruct rows' as [ | r' rows' ].
    + symmetry in H. apply Permutation_nil in H. discriminate.
    + f_equal. f_equal. apply Permutation_length, filter_Permutation_stdlib, H.
Qed.

Lemma AVG_Permutation (col : Sqlite.Row → Z) (rows rows' : list Sqlite.Row) :
  rows ≡ₚ rows' → Sqlite.AVG col rows = Sqlite.AVG col rows'.
Proof.
  intros H. unfold Sqlite.AVG, Sqlite.COUNT.
  destruct rows as [ | r rows ].
  - apply Permutation_nil in H. subst. reflexivity.
  - destruct rows' as [ | r' rows' ].
    + symmetry in H. apply Permutation_nil in H. discriminate.
    + rewrite (sum_Permutation _ _ (Permutation_map col H)),
        (Permutation_length H).
      reflexivity.
Qed.

(** The statistics are those of the set of rows of the owner, in whatever
    order the store lists them. *)
Lemma getStatistics_Permutation (db db' : Sqlite.Store) (user_id : string) :
  Sqlite.rows_of_user db user_id ≡ₚ Sqlite.rows_of_user db' user_id →
  Task.getStatistics db user_id = Task.getStatistics db' user_id.
Proof.
  intros H. unfold Task.getStatistics.
  assert (Hs : Sqlite.select_statistics db user_id
               = Sqlite.select_statistics db' user_id).
  { unfold Sqlite.select_statistics. cbv zeta.
    rewrite !(SUM_CASE_Permutation _ _ _ H),
            (AVG_Permutation Sqlite.completion_percentage _ _ H),
            (AVG_Permutation Sqlite.priority_score _ _ H).
    unfold Sqlite.COUNT. rewrite (Permutation_length H). reflexivity. }
  rewrite Hs. reflexivity.
Qed.

Lemma rows_of_user_insert (db : Sqlite.Store) (id : string) (r : Sqlite.Row)
    (user_id : string) :
  db !! id = None →
  Sqlite.rows_of_user (<[ id := r ]> db) user_id
  ≡ₚ (if String.eqb (Sqlite.user_id r) user_id then [r] else [])
     ++ Sqlite.rows_of_user db user_id.
Proof.
  intros H. unfold Sqlite.rows_of_user.
  pose proof (map_to_list_insert db id r H) as Hperm.
  apply (fmap_Permutation snd) in Hperm.
  apply (filter_Permutation_stdlib
           (fun r => String.eqb (Sqlite.user_id r) user_id)) in Hperm.
  rewrite Hperm. simpl. destruct (String.eqb (Sqlite.user_id r) user_id); reflexivity.
Qed.

Lemma rows_of_user_delete (db : Sqlite.Store) (id : string) (r : Sqlite.Row)
    (user_id : string) :
  db !! id = Some r →
  Sqlite.rows_of_user db user_id
  ≡ₚ (if String.eqb (Sqlite.user_id r) user_id then [r] else [])
     ++ Sqlite.rows_of_user (delete id db) user_id.
Proof.
  intros H. unfold Sqlite.rows_of_user.
  pose proof (map_to_list_delete db id r H) as Hperm.
  apply (fmap_Permutation snd) in Hperm.
  apply (filter_Permutation_stdlib
           (fun r => String.eqb (Sqlite.user_id r) user_id)) in Hperm.
  rewrite <- Hperm. simpl. destruct (String.eqb (Sqlite.user_id r) user_id); reflexivity.
Qed.

(** Writing over a row of an owner with a row of the same owner. *)
Lemma rows_of_user_overwrite (db : Sqlite.Store) (id : string) (old r : Sqlite.Row)
    (user_id : string) :
  db !! id = Some old →
  Sqlite.rows_of_user (<[ id := r ]> db) user_id
  ≡ₚ (if String.eqb (Sqlite.user_id r) user_id then [r] else [])
     ++ Sqlite.rows_of_user (delete id db) user_id.
Proof.
  intros H. rewrite <- (insert_delete_eq db id r).
  apply rows_of_user_insert, lookup_delete_eq.
Qed.

Lemma exclusive_counts (p q s : Sqlite.Row → bool) (rows : list Sqlite.Row) :
  (∀ r, p r = true → q r = false ∧ s r = false) →
  (∀ r, q r = true → s r = false) →
  (length (List.filter p rows) + length (List.filter q rows)
   + length (List.filter s rows) ≤ length rows)%nat.
Proof.
  intros Hp Hq. induction rows as [ | r rows IH ]; [ reflexivity | ].
  simpl. destruct (p r) eqn:Ep.
  - destruct (Hp r Ep) as [-> ->]. simpl. lia.
  - destruct (q r) eqn:Eq.
    + rewrite (Hq r Eq). simpl. lia.
    + destruct (s r); simpl; lia.
Qed.

Lemma status_is_exclusive (s s' : string) (r : Sqlite.Row) :
  s ≠ s' → Sqlite.status_is s r = true → Sqlite.status_is s' r = false.
Proof.
  unfold Sqlite.status_is. destruct (Sqlite.status r) as [x|]; [ | discriminate ].
  intros Hne H. apply String.eqb_eq in H. subst x.
  apply String.eqb_neq. exact Hne.
Qed.

Lemma default_SUM_CASE (p : Sqlite.Row → bool) (rows : list Sqlite.Row) :
  default 0 (Sqlite.SUM_CASE p rows) = Z.of_nat (length (List.filter p rows)).
Proof. destruct rows; reflexivity. Qed.

(** X15: in the statistics of an owner no count is negative, the tasks
    completed, in progress and pending together are at most the total, and
    so are the urgent ones. *)
Theorem getStatistics_counts_bounded (db : Sqlite.Store) (user_id : string) :
  let statistics := Task.getStatistics db user_id in
  0 ≤ Task.completed_tasks statistics
  ∧ 0 ≤ Task.in_progress_tasks statistics
  ∧ 0 ≤ Task.pending_tasks statistics
  ∧ 0 ≤ Task.urgent_tasks statistics
  ∧ Task.completed_tasks statistics + Task.in_progress_tasks statistics
    + Task.pending_tasks statistics ≤ Task.total_tasks statistics
  ∧ Task.urgent_tasks statistics ≤ Task.total_tasks statistics.
Proof.
  cbv zeta. unfold Task.getStatistics, Sqlite.select_statistics. cbv zeta.
  cbn [Task.completed_tasks Task.in_progress_tasks Task.pending_tasks
       Task.urgent_tasks Task.total_tasks
       Sqlite.completed_tasks Sqlite.in_progress_tasks Sqlite.pending_tasks
       Sqlite.urgent_tasks Sqlite.total_tasks].
  rewrite !default_SUM_CASE. unfold Sqlite.COUNT.
  set (rows := Sqlite.rows_of_user db user_id).
  pose proof (exclusive_counts (Sqlite.status_is "COMPLETED")
                (Sqlite.status_is "IN_PROGRESS") (Sqlite.status_is "TODO") rows) as H.
  pose proof (filter_length_le Sqlite.is_urgent rows) as Hu.
  assert (H' : (length (List.filter (Sqlite.status_is "COMPLETED") rows)
                + length (List.filter (Sqlite.status_is "IN_PROGRESS") rows)
                + length (List.filter (Sqlite.status_is "TODO") rows)
                ≤ length rows)%nat).
  { apply H.
    - intros r Hr. split; apply (status_is_exclusive "COMPLETED"); (discriminate || exact Hr).
    - intros r Hr. apply (status_is_exclusive "IN_PROGRESS"); (discriminate || exact Hr). }
  lia.
Qed.

(** The statistics of an owner do not change when a task of another owner
    is created, updated or deleted. *)
Lemma statistics_ignore_other_owners (env : Env) (db : Sqlite.Store)
    (user_id : string) :
  (∀ taskData db' task,
     Task.create env db taskData = Ok (db', task) →
     Task.user_id task ≠ Some user_id →
     Task.getStatistics db' user_id = Task.getStatistics db user_id)
  ∧ (∀ id updateData db' found old,
       Task.update env db id updateData = Ok (db', found) →
       db !! id = Some old → Sqlite.user_id old ≠ user_id →
       Task.getStatistics db' user_id = Task.getStatistics db user_id)
  ∧ (∀ id old,
       db !! id = Some old → Sqlite.user_id old ≠ user_id →
       Task.getStatistics (fst (Task.delete db id)) user_id
       = Task.getStatistics db user_id).
Proof.
  split; [ | split ].
  - intros taskData db' task H Hother. rewrite create_result in H.
    destruct (TaskData.falsy (TaskData.title taskData)); [ discriminate | ].
    destruct (TaskData.falsy (TaskData.user_id taskData)) eqn:Hu; [ discriminate | ].
    cbn [orb] in H.
    destruct (negb _); [ discriminate | ]. destruct (negb _); [ discriminate | ].
    destruct (db !! _) eqn:Hfree; [ discriminate | ]. injection H as <- <-.
    apply getStatistics_Permutation. rewrite rows_of_user_insert by exact Hfree.
    apply falsy_false in Hu. destruct Hu as (u & Hu & _).
    change (Task.user_id (created_task env taskData))
      with (TaskData.user_id taskData) in Hother.
    unfold created_row. cbv zeta. cbn [Sqlite.user_id]. rewrite Hu in *.
    cbn [default from_option id].
    destruct (String.eqb_spec u user_id); [ congruence | reflexivity ].
  - intros id updateData db' found old H Hold Hother. apply update_succeeded in H.
    destruct H as (old' & Hold' & -> & _).
    assert (old' = old) by congruence. subst old'.
    apply getStatistics_Permutation.
    rewrite (rows_of_user_overwrite db id old) by exact Hold.
    rewrite (rows_of_user_delete db id old user_id) by exact Hold.
    unfold updated_row. cbv zeta. cbn [Sqlite.user_id].
    destruct (String.eqb_spec (Sqlite.user_id old) user_id);
      [ contradiction | reflexivity ].
  - intros id old Hold Hother. unfold Task.delete, Sqlite.delete_task.
    rewrite Hold. cbn [fst].
    apply getStatistics_Permutation.
    rewrite (rows_of_user_delete db id old user_id) by exact Hold.
    destruct (String.eqb_spec (Sqlite.user_id old) user_id); [ contradiction | reflexivity ].
Qed.

Lemma total_tasks_length (db : Sqlite.Store) (user_id : string) :
  Task.total_tasks (Task.getStatistics db user_id)
  = Z.of_nat (length (Sqlite.rows_of_user db user_id)).
Proof. reflexivity. Qed.

(** The total of an owner under the three writes. *)
Lemma total_follows_writes (env : Env) (db : Sqlite.Store) :
  (∀ taskData db' task user_id,
     Task.create env db taskData = Ok (db', task) →
     Task.user_id task = Some user_id →
     Task.total_tasks (Task.getStatistics db' user_id)
     = Task.total_tasks (Task.getStatistics db user_id) + 1)
  ∧ (∀ id updateData db' found user_id,
       Task.update env db id updateData = Ok (db', found) →
       Task.total_tasks (Task.getStatistics db' user_id)
       = Task.total_tasks (Task.getStatistics db user_id))
  ∧ (∀ id old,
       db !! id = Some old →
       Task.total_tasks (Task.getStatistics (fst (Task.delete db id)) (Sqlite.user_id old))
       = Task.total_tasks (Task.getStatistics db (Sqlite.user_id old)) - 1).
Proof.
  split; [ | split ].
  - intros taskData db' task user_id H Hown. rewrite create_result in H.
    destruct (TaskData.falsy (TaskData.title taskData)); [ discriminate | ].
    destruct (TaskData.falsy (TaskData.user_id taskData)) eqn:Hu; [ discriminate | ].
    cbn [orb] in H.
    destruct (negb _); [ discriminate | ]. destruct (negb _); [ discriminate | ].
    destruct (db !! _) eqn:Hfree; [ discriminate | ]. injection H as <- <-.
    rewrite !total_tasks_length.
    rewrite (Permutation_length (rows_of_user_insert db _ _ user_id Hfree)).
    change (Task.user_id (created_task env taskData))
      with (TaskData.user_id taskData) in Hown.
    unfold created_row. cbv zeta. cbn [Sqlite.user_id]. rewrite Hown.
    cbn [default from_option id]. rewrite String.eqb_refl. cbn [app length]. lia.
  - intros id updateData db' found user_id H. apply update_succeeded in H.
    destruct H as (old & Hold & -> & _).
    rewrite !total_tasks_length.
    rewrite (Permutation_length (rows_of_user_overwrite db id old _ user_id Hold)).
    rewrite (Permutation_length (rows_of_user_delete db id old user_id Hold)).
    unfold updated_row. cbv zeta. cbn [Sqlite.user_id].
    destruct (String.eqb (Sqlite.user_id old) user_id); reflexivity.
  - intros id old Hold. unfold Task.delete, Sqlite.delete_task.
    rewrite Hold. cbn [fst]. rewrite !total_tasks_length.
    rewrite (Permutation_length (rows_of_user_delete db id old _ Hold)).
    rewrite String.eqb_refl. cbn [app length]. lia.
Qed.

(** X16: the statistics of an owner follow the writes on the tasks of that
    owner and no others: the total goes up by one when the owner creates a
    task, stays under every update and goes down by one when a task of the
    owner is deleted; and when a task of another owner is created, updated
    or deleted, the statistics of the owner stay as they are, field by
    field. *)
Theorem getStatistics_follows_writes_of_owner (env : Env) (db : Sqlite.Store) :
  (∀ taskData db' task user_id,
     Task.create env db taskData = Ok (db', task) →
     (Task.user_id task = Some user_id →
      Task.total_tasks (Task.getStatistics db' user_id)
      = Task.total_tasks (Task.getStatistics db user_id) + 1)
     ∧ (Task.user_id task ≠ Some user_id →
        Task.getStatistics db' user_id = Task.getStatistics db user_id))
  ∧ (∀ id updateData db' found old user_id,
       Task.update env db id updateData = Ok (db', found) →
       db !! id = Some old →
       Task.total_tasks (Task.getStatistics db' user_id)
       = Task.total_tasks (Task.getStatistics db user_id)
       ∧ (Sqlite.user_id old ≠ user_id →
          Task.getStatistics db' user_id = Task.getStatistics db user_id))
  ∧ (∀ id old user_id,
       db !! id = Some old →
       Task.total_tasks (Task.getStatistics (fst (Task.delete db id)) (Sqlite.user_id old))
       = Task.total_tasks (Task.getStatistics db (Sqlite.user_id old)) - 1
       ∧ (Sqlite.user_id old ≠ user_id →
          Task.getStatistics (fst (Task.delete db id)) user_id
          = Task.getStatistics db user_id)).
Proof.
  split; [ | split ].
  - intros taskData db' task user_id H. split.
    + apply (proj1 (total_follows_writes env db) _ _ _ _ H).
    + apply (proj1 (statistics_ignore_other_owners env db user_id) _ _ _ H).
  - intros id updateData db' found old user_id H Hold. split.
    + apply (proj1 (proj2 (total_follows_writes env db)) _ _ _ _ _ H).
    + apply (proj1 (proj2 (statistics_ignore_other_owners env db user_id))
               _ _ _ _ _ H Hold).
  - intros id old user_id Hold. split.
    + apply (proj2 (proj2 (total_follows_writes env db)) _ _ Hold).
    + apply (proj2 (proj2 (statistics_ignore_other_owners env db user_id)) _ _ Hold).
Qed.

Lemma getStatistics_follows_writes_of_owner_witness :
  match Task.create (env_at noon) one_task
          (sample_task "Call the printer" "TODO" "HIGH" false None)
  with
  | Ok (db', task) =>
      Task.user_id task = Some "alice"%string
      ∧ Task.user_id task ≠ Some "bob"%string
      ∧ Task.total_tasks (Task.getStatistics db' "alice")
        = Task.total_tasks (Task.getStatistics one_task "alice") + 1
      ∧ Task.getStatistics db' "bob" = Task.getStatistics one_task "bob"
  | Throw _ => False
  end.
Proof.
  assert (Hu : Task.user_id <$> (snd <$> Task.create (env_at noon) one_task
                                   (sample_task "Call the printer" "TODO" "HIGH"
                                      false None))
               = Ok (Some "alice"%string)) by (vm_compute; reflexivity).
  destruct (Task.create _ _ _) as [[db' task]|] eqn:E; [ | discriminate Hu ].
  injection Hu as Hu.
  assert (Hb : Task.user_id task ≠ Some "bob"%string) by (rewrite Hu; discriminate).
  destruct (proj1 (getStatistics_follows_writes_of_owner (env_at noon) one_task)
              _ _ _ "alice"%string E) as [Htotal _].
  destruct (proj1 (getStatistics_follows_writes_of_owner (env_at noon) one_task)
              _ _ _ "bob"%string E) as [_ Hsame].
  split; [ exact Hu | ]. split; [ exact Hb | ].
  split; [ exact (Htotal Hu) | exact (Hsame Hb) ].
Defined.

(** ** The seeding of the sample tasks *)

Lemma seed_score_of_plain_priority (clock : Z) (task : Seed.SampleTask) :
  inherited_key (Seed.priority task) = false →
  Seed.priority_score clock task = Js.Num (seeded_score clock task).
Proof.
  intros H. unfold Seed.priority_score, seeded_score.
  change Seed.priorityWeights with Task.priorityWeights.
  rewrite (priority_weight _ H), add_num.
  change (1000 * 60 * 60 * 24) with 86400000.
  set (w := base_weight (Seed.priority task)).
  destruct (Js.truthy (Js.num (Seed.is_urgent task))),
           (Seed.due_date task) as [due|];
    rewrite ?add_num; unfold due_contribution;
    repeat match goal with
           | |- context [if ?c then _ else _] => destruct c
           end;
    rewrite ?add_num, Math_min_num; f_equal; lia.
Qed.

Lemma seeded_score_bounds (clock : Z) (task : Seed.SampleTask) :
  10 ≤ seeded_score clock task ≤ 100.
Proof.
  unfold seeded_score.
  pose proof (base_weight_bounds (Seed.priority task)).
  destruct (Js.truthy _), (Seed.due_date task) as [due|];
    try pose proof (due_contribution_bounds (Seed.ceil_div (due - clock) 86400000));
    lia.
Qed.

(** The ceiling of a number of days against its whole part. *)
Lemma ceil_and_trunc (x : Z) :
  Z.quot x 86400000 ≤ Seed.ceil_div x 86400000 ≤ Z.quot x 86400000 + 1
  ∧ (x ≤ 0 → Seed.ceil_div x 86400000 = Z.quot x 86400000)
  ∧ ((86400000 | x) → Seed.ceil_div x 86400000 = Z.quot x 86400000).
Proof.
  unfold Seed.ceil_div. split; [ | split ].
  - Z.to_euclidean_division_equations. lia.
  - intros H. Z.to_euclidean_division_equations. lia.
  - intros [k ->]. Z.to_euclidean_division_equations. lia.
Qed.

Lemma due_contribution_step (d d' : Z) :
  d ≤ d' ≤ d + 1 →
  due_contribution d' ≤ due_contribution d ≤ due_contribution d' + 10.
Proof.
  intros H. unfold due_contribution.
  repeat match goal with
         | |- context [?a <? ?b] => destruct (Z.ltb_spec a b)
         | |- context [?a <=? ?b] => destruct (Z.leb_spec a b)
         end; lia.
Qed.

Lemma base_weight_or_else (priority : string) :
  base_weight (TaskData.or_else (Some priority) "MEDIUM") = base_weight priority.
Proof.
  unfold TaskData.or_else.
  destruct (String.eqb_spec priority ""); [ subst; reflexivity | reflexivity ].
Qed.

Lemma inherited_key_or_else (key default : string) :
  inherited_key key = false → inherited_key default = false →
  inherited_key (TaskData.or_else (Some key) default) = false.
Proof.
  intros H Hd. unfold TaskData.or_else. destruct (String.eqb key ""); assumption.
Qed.

(** X17: on a sample task whose priority is not an inherited name, in a
    zone with one offset from UTC, the seeding and the method at one clock
    give the same completion percentage, and a score of the seeding that
    is at most the score of the method and at most 10 below it; the two
    scores agree when the task has no due date, when the due date is not
    after the clock, and when it is a whole number of days after it. *)
Theorem seeding_score_against_method (env : Env) (task : Seed.SampleTask) :
  inherited_key (Seed.priority task) = false →
  fixed_offset env →
  ∃ s m,
    Seed.priority_score (now env) task = Js.Num s
    ∧ Task.calculatePriorityScore env (Task.new env (Seed.to_data task)) = Js.Num m
    ∧ s ≤ m ≤ s + 10
    ∧ (match Seed.due_date task with
       | Some due => due ≤ now env ∨ (86400000 | due - now env)
       | None => True
       end → s = m)
    ∧ Seed.completion_percentage task
      = Task.calculateCompletionPercentage (Task.new env (Seed.to_data task)).
Proof.
  intros Hk Hz.
  exists (seeded_score (now env) task),
         (specified_score env (Task.priority (Task.new env (Seed.to_data task)))
            (Task.is_urgent (Task.new env (Seed.to_data task)))
            (Task.due_date (Task.new env (Seed.to_data task)))).
  split; [ apply seed_score_of_plain_priority, Hk | ].
  split; [ apply score_of_plain_priority;
           apply (inherited_key_or_else _ "MEDIUM" Hk); reflexivity | ].
  assert (Hscore :
            specified_score env (Task.priority (Task.new env (Seed.to_data task)))
              (Task.is_urgent (Task.new env (Seed.to_data task)))
              (Task.due_date (Task.new env (Seed.to_data task)))
            = Z.min (base_weight (Seed.priority task)
                     + (if Js.truthy (Js.num (Seed.is_urgent task)) then 20 else 0)
                     + match Seed.due_date task with
                       | Some due =>
                           due_contribution (Z.quot (due - now env) 86400000)
                       | None => 0
                       end)
                    100).
  { unfold specified_score.
    change (Task.priority (Task.new env (Seed.to_data task)))
      with (TaskData.or_else (Some (Seed.priority task)) "MEDIUM").
    change (Task.is_urgent (Task.new env (Seed.to_data task)))
      with (Js.truthy (Js.num (Seed.is_urgent task))).
    change (Task.due_date (Task.new env (Seed.to_data task)))
      with (Seed.due_date_text task).
    rewrite base_weight_or_else. unfold Seed.due_date_text.
    destruct (Seed.due_date task) as [due|]; [ | reflexivity ].
    cbn [fmap option_fmap option_map due_instant Due.truthy Due.instant].
    unfold Moment.diff_days, Moment.absFloor.
    rewrite (Hz (now env) due), Z.sub_diag, Z.mul_0_l, Z.sub_0_r. reflexivity. }
  rewrite Hscore. unfold seeded_score.
  split; [ | split ].
  - destruct (Seed.due_date task) as [due|]; [ | lia ].
    destruct (ceil_and_trunc (due - now env)) as (Hc & _).
    pose proof (due_contribution_step _ _ Hc). lia.
  - destruct (Seed.due_date task) as [due|]; [ | reflexivity ].
    destruct (ceil_and_trunc (due - now env)) as (_ & Hle & Hdiv).
    intros [H|H]; [ rewrite Hle by lia | rewrite Hdiv by exact H ]; reflexivity.
  - unfold Seed.completion_percentage, Task.calculateCompletionPercentage.
    change Seed.statusPercentages with Task.statusPercentages.
    change (Task.status (Task.new env (Seed.to_data task)))
      with (TaskData.or_else (Some (Seed.status task)) "TODO").
    unfold TaskData.or_else.
    destruct (String.eqb_spec (Seed.status task) "") as [-> | ]; reflexivity.
Qed.

Lemma seeding_score_against_method_witness :
  inherited_key (Seed.priority (sample_of "URGENT" 1 (Some (noon + 302400000)))) = false
  ∧ fixed_offset (env_at noon)
  ∧ ∃ s m,
      Seed.priority_score (now (env_at noon))
        (sample_of "URGENT" 1 (Some (noon + 302400000))) = Js.Num s
      ∧ Task.calculatePriorityScore (env_at noon)
          (Task.new (env_at noon)
             (Seed.to_data (sample_of "URGENT" 1 (Some (noon + 302400000))))) = Js.Num m
      ∧ s ≤ m ≤ s + 10
      ∧ s = 95 ∧ m = 100.
Proof.
  assert (Hz : fixed_offset (env_at noon)) by (intros a b; reflexivity).
  split; [ reflexivity | ]. split; [ exact Hz | ].
  destruct (seeding_score_against_method (env_at noon)
              (sample_of "URGENT" 1 (Some (noon + 302400000))) eq_refl Hz)
    as (s & m & Hs & Hm & Hsm & _).
  exists s, m. split; [ exact Hs | ]. split; [ exact Hm | ]. split; [ exact Hsm | ].
  vm_compute in Hs, Hm. injection Hs as <-. injection Hm as <-.
  split; reflexivity.
Defined.

(** The INSERT of the loop, on a sample task with a status and a priority
    of the schema and an id that is free. *)
Lemma insert_sample_ok (clock : Z) (db : Sqlite.Store) (task : Seed.SampleTask) :
  In (Seed.status task) Sqlite.status_values →
  In (Seed.priority task) Sqlite.priority_values →
  db !! Seed.id task = None →
  Sqlite.insert_task clock db
    (Seed.id task) (Some (Seed.title task)) (Some (Seed.description task))
    (Some (Seed.status task)) (Some (Seed.priority task))
    (Js.truthy (Js.num (Seed.is_urgent task))) (Seed.due_date_text task)
    (Seed.completion_percentage task) (Seed.priority_score clock task)
    (Some (Seed.user_id task))
  = Ok (<[ Seed.id task := seeded_row clock task ]> db).
Proof.
  intros Hs Hp Hfree.
  unfold Sqlite.insert_task, Sqlite.constraints, mbind, result_bind.
  rewrite (proj2 (check_in_In _ _) Hs), (proj2 (check_in_In _ _) Hp).
  rewrite (seed_score_of_plain_priority _ _ (listed_priority_plain _ Hp)).
  unfold Seed.completion_percentage.
  change Seed.statusPercentages with Task.statusPercentages.
  rewrite (status_percentage _ (listed_status_plain _ Hs)).
  cbn [negb Sqlite.real_of_value Js.num]. rewrite Hfree.
  unfold seeded_row, Seed.due_date_text.
  destruct (Seed.due_date task); reflexivity.
Qed.

Lemma seeded_row_well_formed (clock : Z) (task : Seed.SampleTask) :
  In (Seed.status task) Sqlite.status_values →
  In (Seed.priority task) Sqlite.priority_values →
  Seed.user_id task ≠ ""%string →
  row_well_formed (Seed.id task) (seeded_row clock task).
Proof.
  intros Hs Hp Hu. unfold row_well_formed, seeded_row.
  cbn [Sqlite.id Sqlite.status Sqlite.priority Sqlite.user_id
       Sqlite.completion_percentage Sqlite.priority_score].
  split; [ reflexivity | ]. split; [ exact Hu | ].
  split; [ eauto | ]. split; [ eauto | ].
  split; [ apply specified_percentage_values | apply seeded_score_bounds ].
Qed.

Lemma seed_tasks_not_empty (built : Z) (clock : nat → Z) (db : Sqlite.Store) :
  db ≠ ∅ → Seed.seed_tasks built clock db = Ok db.
Proof.
  intros H. unfold Seed.seed_tasks, Sqlite.COUNT. cbv zeta.
  destruct (map_to_list db) as [ | kv l ] eqn:E.
  - apply map_to_list_empty_iff in E. contradiction.
  - reflexivity.
Qed.

(** X18: the seeding of the sample tasks never fails and touches an empty
    table only: a table with a task is left as it is; an empty one gets the
    three sample tasks, under their ids, owned by admin-001, each a row as
    the schema and the two methods want it (status and priority of the
    schema, the completion percentage of its status, a score between 10
    and 100); and seeding again, at any time, changes nothing. *)
Theorem seeding_touches_an_empty_table_only (built : Z) (clock : nat → Z)
    (db : Sqlite.Store) :
  ∃ db',
    Seed.seed_tasks built clock db = Ok db'
    ∧ (db ≠ ∅ → db' = db)
    ∧ (db = ∅ →
       dom db' = ({[ "task-001"; "task-002"; "task-003" ]} : gset string)
       ∧ store_well_formed db'
       ∧ ∀ id r, db' !! id = Some r → Sqlite.user_id r = "admin-001"%string)
    ∧ ∀ built' clock', Seed.seed_tasks built' clock' db' = Ok db'.
Proof.
  destruct (decide (db = ∅)) as [-> | Hne].
  - unfold Seed.seed_tasks. rewrite map_to_list_empty. cbv zeta.
    cbn [fmap list_fmap Sqlite.COUNT length Z.of_nat Z.eqb].
    unfold Seed.sampleTasks. cbn [Seed.insert_samples].
    rewrite insert_sample_ok; [ | simpl; auto 10 | simpl; auto 10 | apply lookup_empty ].
    unfold mbind at 1, result_bind at 1.
    rewrite insert_sample_ok;
      [ | simpl; auto 10 | simpl; auto 10
        | rewrite lookup_insert_ne by discriminate; apply lookup_empty ].
    unfold mbind at 1, result_bind at 1.
    rewrite insert_sample_ok;
      [ | simpl; auto 10 | simpl; auto 10
        | rewrite !lookup_insert_ne by discriminate; apply lookup_empty ].
    unfold mbind, result_bind.
    eexists. split; [ reflexivity | ].
    split; [ intros H; contradiction | ].
    split.
    + intros _. split; [ | split ].
      * rewrite !dom_insert_L, dom_empty_L. cbn [Seed.id]. set_solver.
      * repeat (apply map_Forall_insert_2;
                [ apply seeded_row_well_formed;
                  [ simpl; auto 10 | simpl; auto 10 | discriminate ] | ]).
        apply map_Forall_empty.
      * intros id r H.
        repeat (apply lookup_insert_Some in H;
                destruct H as [[_ <-] | [_ H]]; [ reflexivity | ]).
        rewrite lookup_empty in H. discriminate.
    + intros built' clock'. apply seed_tasks_not_empty.
      apply insert_non_empty.
  - exists db. split; [ apply seed_tasks_not_empty, Hne | ].
    split; [ reflexivity | ].
    split; [ intros H; contradiction | ].
    intros built' clock'. apply seed_tasks_not_empty, Hne.
Qed.

Lemma seeding_touches_an_empty_table_only_witness :
  ∃ db',
    Seed.seed_tasks noon (clock_at (noon + 1)) ∅ = Ok db'
    ∧ dom db' = ({[ "task-001"; "task-002"; "task-003" ]} : gset string)
    ∧ Seed.seed_tasks (noon + day) (clock_at (noon + day)) db' = Ok db'.
Proof.
  destruct (seeding_touches_an_empty_table_only noon (clock_at (noon + 1)) ∅)
    as (db' & Hseed & _ & Hempty & Hagain).
  exists db'. split; [ exact Hseed | ].
  split; [ exact (proj1 (Hempty eq_refl)) | apply Hagain ].
Defined.

(** ** The authentication middleware *)

Lemma split_first_word (scheme rest : string) :
  no_space scheme = true →
  Js.split " " (scheme +:+ " " +:+ rest) = scheme :: Js.split " " rest.
Proof.
  induction scheme as [ | c scheme IH ]; intros H.
  - reflexivity.
  - simpl in H. apply andb_true_iff in H. destruct H as [Hc Hs].
    apply negb_true_iff in Hc.
    change (String c scheme +:+ " " +:+ rest)
      with (String c (scheme +:+ " " +:+ rest)).
    cbn [Js.split]. rewrite Hc, (IH Hs). reflexivity.
Qed.

Lemma split_one_word (header : string) :
  no_space header = true → Js.split " " header = [header].
Proof.
  induction header as [ | c header IH ]; intros H; [ reflexivity | ].
  simpl in H. apply andb_true_iff in H. destruct H as [Hc Hs].
  apply negb_true_iff in Hc. cbn [Js.split]. rewrite Hc, (IH Hs). reflexivity.
Qed.

Lemma split_not_empty (sep : ascii) (s : string) : Js.split sep s ≠ [].
Proof.
  destruct s as [ | c s ]; [ discriminate | ].
  cbn [Js.split]. destruct (Ascii.eqb c sep); [ discriminate | ].
  destruct (Js.split sep s); discriminate.
Qed.

(** X19: the token [authenticateToken] reads is the second of the words of
    the Authorization header that single spaces separate, whatever the
    first word is (Bearer is not asked for); a header without a space, an
    empty header and a missing header give no token, and the request is
    answered 401 without the token being verified. *)
Theorem token_is_second_word (scheme rest : string) :
  no_space scheme = true →
  Auth.token_of (Some (scheme +:+ " " +:+ rest)) = head (Js.split " " rest)
  ∧ Auth.token_of (Some scheme) = (if String.eqb scheme "" then Some scheme else None)
  ∧ ∀ config env users req,
      Http.authorization req = None ∨ Http.authorization req = Some scheme →
      Auth.authenticateToken config env users req
      = Http.Respond (Http.respond 401
          (Http.failure "Access token required"
                        "Please provide a valid authentication token")).
Proof.
  intros H.
  assert (Hone : Auth.token_of (Some scheme)
                 = if String.eqb scheme "" then Some scheme else None).
  { unfold Auth.token_of. destruct (String.eqb scheme ""); [ reflexivity | ].
    rewrite (split_one_word _ H). reflexivity. }
  split; [ | split; [ exact Hone | ] ].
  - unfold Auth.token_of.
    assert (Hne : String.eqb (scheme +:+ " " +:+ rest) "" = false)
      by (destruct scheme; reflexivity).
    rewrite Hne, (split_first_word _ _ H).
    destruct (Js.split " " rest) eqn:E; [ | reflexivity ].
    destruct (split_not_empty _ _ E).
  - intros config env users req [Hh | Hh]; unfold Auth.authenticateToken;
      cbv zeta; rewrite Hh; [ reflexivity | ].
    rewrite Hone. destruct (String.eqb_spec scheme "") as [-> | ]; reflexivity.
Qed.

Lemma token_is_second_word_witness :
  no_space "Basic" = true
  ∧ Auth.token_of (Some "Basic alice now") = Some "alice"%string
  ∧ Auth.token_of (Some "Basic") = None.
Proof.
  split; [ reflexivity | ].
  destruct (token_is_second_word "Basic" "alice now" eq_refl) as (H1 & H2 & _).
  split; [ exact H1 | exact H2 ].
Defined.

(** What lets a request through [authenticateToken]. *)
Lemma authenticateToken_next (config : Auth.Config) (env : Env)
    (users : SqliteUsers.Store) (req req' : Http.Request) :
  Auth.authenticateToken config env users req = Http.Next req'
  ↔ ∃ token userId row,
      Auth.token_of (Http.authorization req) = Some token
      ∧ token ≠ ""%string
      ∧ Auth.verify config token
          (TaskData.or_else (Auth.JWT_SECRET config) "your-secret-key")
        = Auth.Decoded (Some userId)
      ∧ users !! userId = Some row
      ∧ req' = Http.set_user (User.new env (UserData.of_row row)) req.
Proof.
  unfold Auth.authenticateToken. cbv zeta. split.
  - destruct (TaskData.falsy (Auth.token_of (Http.authorization req))) eqn:Ht;
      [ discriminate | ].
    apply falsy_false in Ht. destruct Ht as (token & Ht & Hne). rewrite Ht.
    cbn [default from_option id].
    destruct (Auth.verify config token _) as [userId | name] eqn:Hv.
    + unfold User.findById, SqliteUsers.select_by_id.
      destruct userId as [userId|]; [ | discriminate ].
      destruct (users !! userId) as [row|] eqn:Hrow; [ | discriminate ].
      intros [= <-]. exists token, userId, row. repeat split; assumption.
    + destruct (String.eqb name "JsonWebTokenError"); [ discriminate | ].
      destruct (String.eqb name "TokenExpiredError"); discriminate.
  - intros (token & userId & row & Ht & Hne & Hv & Hrow & ->).
    rewrite Ht, (falsy_some _ Hne). cbn [default from_option id]. rewrite Hv.
    unfold User.findById, SqliteUsers.select_by_id. rewrite Hrow. reflexivity.
Qed.


(** X20: [authenticateToken] lets a request through exactly when the
    header holds a token that is not empty, [jwt.verify] accepts it under
    the secret of the environment ('your-secret-key' when none is set),
    and its [userId] is the id of a user in the table; the request goes on
    with that user as [req.user] and is otherwise as it was.  Every other
    request is answered 401, or 500 when [jwt.verify] throws an error that
    is neither a JsonWebTokenError nor a TokenExpiredError. *)
Theorem authenticateToken_decides (config : Auth.Config) (env : Env)
    (users : SqliteUsers.Store) (req : Http.Request) :
  (∀ req',
     Auth.authenticateToken config env users req = Http.Next req'
     ↔ ∃ token userId row,
         Auth.token_of (Http.authorization req) = Some token
         ∧ token ≠ ""%string
         ∧ Auth.verify config token
             (TaskData.or_else (Auth.JWT_SECRET config) "your-secret-key")
           = Auth.Decoded (Some userId)
         ∧ users !! userId = Some row
         ∧ req' = Http.set_user (User.new env (UserData.of_row row)) req)
  ∧ (∀ res,
       Auth.authenticateToken config env users req = Http.Respond res →
       Http.status res = 401
       ∨ (Http.status res = 500
          ∧ ∃ token name,
              Auth.token_of (Http.authorization req) = Some token
              ∧ Auth.verify config token
                  (TaskData.or_else (Auth.JWT_SECRET config) "your-secret-key")
                = Auth.Thrown name
              ∧ name ≠ "JsonWebTokenError"%string
              ∧ name ≠ "TokenExpiredError"%string))
  ∧ Auth.optionalAuth config env users req
    = match Auth.authenticateToken config env users req with
      | Http.Next req' => req'
      | Http.Respond _ => req
      end.
Proof.
  split; [ intros req'; apply authenticateToken_next | ].
  split;
    [ | unfold Auth.optionalAuth, Auth.authenticateToken; cbv zeta;
        destruct (TaskData.falsy _); [ reflexivity | ];
        destruct (Auth.verify config _ _) as [userId | name];
        [ destruct (User.findById env users userId); reflexivity | ];
        destruct (String.eqb name "JsonWebTokenError"); [ reflexivity | ];
        destruct (String.eqb name "TokenExpiredError"); reflexivity ].
  intros res. unfold Auth.authenticateToken. cbv zeta.
  destruct (TaskData.falsy (Auth.token_of (Http.authorization req))) eqn:Ht;
    [ intros [= <-]; left; reflexivity | ].
  apply falsy_false in Ht. destruct Ht as (token & Ht & Hne). rewrite Ht.
  cbn [default from_option id].
  destruct (Auth.verify config token _) as [userId | name] eqn:Hv.
  - destruct (User.findById env users userId); [ discriminate | ].
    intros [= <-]; left; reflexivity.
  - destruct (String.eqb_spec name "JsonWebTokenError");
      [ intros [= <-]; left; reflexivity | ].
    destruct (String.eqb_spec name "TokenExpiredError");
      [ intros [= <-]; left; reflexivity | ].
    intros [= <-]. right. split; [ reflexivity | ].
    exists token, name. repeat split; assumption.
Qed.

Lemma authenticateToken_decides_witness :
  match Auth.authenticateToken plain_tokens (env_at noon) two_users
          (request (Some "Bearer expired") "t1" TaskData.empty)
  with
  | Http.Respond res =>
      Http.json res
      = Http.failure "Token expired" "The authentication token has expired"
      ∧ (Http.status res = 401
         ∨ (Http.status res = 500
            ∧ ∃ token name,
                Auth.token_of (Some "Bearer expired") = Some token
                ∧ Auth.verify plain_tokens token
                    (TaskData.or_else (Auth.JWT_SECRET plain_tokens) "your-secret-key")
                  = Auth.Thrown name
                ∧ name ≠ "JsonWebTokenError"%string
                ∧ name ≠ "TokenExpiredError"%string))
  | Http.Next _ => False
  end.
Proof.
  destruct (Auth.authenticateToken _ _ _ _) as [res | req'] eqn:E.
  - split; [ revert E; vm_compute; intros [= <-]; reflexivity | ].
    exact (proj1 (proj2 (authenticateToken_decides plain_tokens (env_at noon) two_users
                           (request (Some "Bearer expired") "t1" TaskData.empty)))
             res E).
  - vm_compute in E. discriminate.
Defined.

(** ** The task routes *)


Lemma differs_true (a b : string) : Auth.differs (Some a) b = true ↔ a ≠ b.
Proof.
  unfold Auth.differs. destruct (String.eqb_spec a b); simpl; split; congruence.
Qed.

(** The ownership check of a task, by the row of the id. *)
Lemma requireOwnership_task (env : Env) (users : SqliteUsers.Store)
    (db : Sqlite.Store) (req : Http.Request) (user : User.t) :
  Http.user req = Some user →
  Auth.requireOwnership "task" env users db req
  = match db !! Http.params_id req with
    | None =>
        Http.Respond (Http.respond 404
          (Http.failure "Resource not found" "task not found"))
    | Some r =>
        if Auth.differs (Some (Sqlite.user_id r)) (User.id user)
           && Auth.differs (Some (Task.id (task_of_row env r))) (User.id user)
        then
          Http.Respond (Http.respond 403
            (Http.failure "Access denied" "You can only access your own resources"))
        else Http.Next (Http.set_resource (Http.TaskResource (task_of_row env r)) req)
    end.
Proof.
  intros Hu. unfold Auth.requireOwnership. rewrite Hu. cbv zeta.
  change (String.eqb "task" "task") with true. cbv iota.
  unfold Task.findById, Sqlite.select_by_id.
  destruct (db !! Http.params_id req) as [r|]; reflexivity.
Qed.

Lemma create_frame (env : Env) (db : Sqlite.Store) (taskData : TaskData.t)
    (id : string) (r : Sqlite.Row) :
  db !! id = Some r →
  store_after db (Task.create env db taskData) !! id = Some r.
Proof.
  intros Hr. destruct (Task.create env db taskData) as [[db' task]|] eqn:E;
    [ | exact Hr ].
  apply create_succeeded in E. destruct E as (Hfree & -> & _).
  cbn [store_after]. rewrite lookup_insert_ne by congruence. exact Hr.
Qed.

Lemma update_frame (env : Env) (db : Sqlite.Store) (id id' : string)
    (updateData : TaskData.t) :
  id' ≠ id →
  store_after db (Task.update env db id updateData) !! id' = db !! id'.
Proof.
  intros Hne.
  destruct (Task.update env db id updateData) as [[db' found]|] eqn:E;
    [ | reflexivity ].
  apply update_succeeded in E. destruct E as (old & _ & -> & _).
  cbn [store_after]. apply lookup_insert_ne. congruence.
Qed.

Lemma update_handler_store (env : Env) (db : Sqlite.Store) (req : Http.Request) :
  fst (TaskRoutes.update_handler env db req)
  = store_after db (Task.update env db (Http.params_id req) (Http.body_data req)).
Proof.
  unfold TaskRoutes.update_handler. cbv zeta.
  destruct (Task.update _ _ _ _) as [[db' [task|]]|]; reflexivity.
Qed.

Lemma create_handler_store (env : Env) (db : Sqlite.Store) (req : Http.Request)
    (user : User.t) :
  Http.user req = Some user →
  fst (TaskRoutes.create_handler env db req)
  = store_after db (Task.create env db
                      (TaskRoutes.with_user_id (User.id user) (Http.body_data req))).
Proof.
  intros Hu. unfold TaskRoutes.create_handler. cbv zeta. rewrite Hu.
  destruct (Task.create _ _ _) as [[db' task]|]; reflexivity.
Qed.

Lemma delete_handler_store (db : Sqlite.Store) (req : Http.Request) :
  fst (TaskRoutes.delete_handler db req) = fst (Task.delete db (Http.params_id req)).
Proof.
  unfold TaskRoutes.delete_handler.
  destruct (Task.delete db (Http.params_id req)) as [db' deleted].
  destruct deleted; reflexivity.
Qed.

Lemma authenticated_user (config : Auth.Config) (env : Env)
    (users : SqliteUsers.Store) (req req' : Http.Request) :
  Auth.authenticateToken config env users req = Http.Next req' →
  ∃ user, Http.user req' = Some user
          ∧ Http.params_id req' = Http.params_id req
          ∧ Http.body_data req' = Http.body_data req
          ∧ Http.query req' = Http.query req.
Proof.
  intros H. apply authenticateToken_next in H.
  destruct H as (token & userId & row & _ & _ & _ & _ & ->).
  eexists. repeat split; reflexivity.
Qed.

(** The validators: they answer 400, or pass the request on, the body as
    the chains left it. *)
Lemma validateTaskId_result (req : Http.Request) :
  Validation.validateTaskId req
  = if Validation.task_id_matches (Http.params_id req) then Http.Next req
    else Http.Respond (Http.respond 400
           (Http.validation_failure "Validation failed" "Please check your input data"
              [ {| Http.field := "id";
                   Http.message := "Task ID must be a valid UUID or alphanumeric string";
                   Http.value := Js.VString (Http.params_id req) |} ])).
Proof.
  unfold Validation.validateTaskId. cbv zeta.
  destruct (Validation.task_id_matches (Http.params_id req)); reflexivity.
Qed.

Lemma validateTaskCreation_result (chains : Validation.Chains) (req : Http.Request) :
  Validation.validateTaskCreation chains req
  = match snd (Validation.taskCreation chains (Http.body_data req)) with
    | [] =>
        Http.Next (Http.set_body
                     (fst (Validation.taskCreation chains (Http.body_data req))) req)
    | error :: errors =>
        Http.Respond (Http.respond 400
          (Http.validation_failure "Validation failed" "Please check your input data"
             (error :: errors)))
    end.
Proof.
  unfold Validation.validateTaskCreation.
  destruct (Validation.taskCreation chains (Http.body_data req)) as [body [ | e es ]];
    reflexivity.
Qed.

Lemma validateTaskUpdate_result (chains : Validation.Chains) (req : Http.Request) :
  Validation.validateTaskUpdate chains req
  = match snd (Validation.taskUpdate chains (Http.body_data req)) with
    | [] =>
        Http.Next (Http.set_body
                     (fst (Validation.taskUpdate chains (Http.body_data req))) req)
    | error :: errors =>
        Http.Respond (Http.respond 400
          (Http.validation_failure "Validation failed" "Please check your input data"
             (error :: errors)))
    end.
Proof.
  unfold Validation.validateTaskUpdate.
  destruct (Validation.taskUpdate chains (Http.body_data req)) as [body [ | e es ]];
    reflexivity.
Qed.

(** X21: through POST /, PUT /:id and DELETE /:id a task stays in the
    store as it is, unless the request is authenticated and the user it is
    authenticated as is the owner of the task or has the id of the task
    as id. *)
Theorem routes_leave_tasks_of_others (config : Auth.Config)
    (chains : Validation.Chains) (env : Env)
    (users : SqliteUsers.Store) (db : Sqlite.Store) (req : Http.Request)
    (id : string) (r : Sqlite.Row) :
  db !! id = Some r →
  (∀ req' user,
     Auth.authenticateToken config env users req = Http.Next req' →
     Http.user req' = Some user →
     Sqlite.user_id r ≠ User.id user
     ∧ Task.id (task_of_row env r) ≠ User.id user) →
  fst (TaskRoutes.post_task config chains env users db req) !! id = Some r
  ∧ fst (TaskRoutes.put_task config chains env users db req) !! id = Some r
  ∧ fst (TaskRoutes.delete_task config env users db req) !! id = Some r.
Proof.
  intros Hr Hother.
  unfold TaskRoutes.post_task, TaskRoutes.put_task, TaskRoutes.delete_task.
  destruct (Auth.authenticateToken config env users req) as [res | req'] eqn:Ha;
    [ repeat split; exact Hr | ].
  destruct (authenticated_user _ _ _ _ _ Ha) as (user & Hu & Hid & _).
  destruct (Hother req' user eq_refl Hu) as [Howner Hsame].
  split; [ | split ].
  - rewrite validateTaskCreation_result.
    destruct (snd (Validation.taskCreation chains (Http.body_data req')));
      [ | exact Hr ].
    rewrite (create_handler_store _ _ _ user) by exact Hu. apply create_frame, Hr.
  - rewrite validateTaskId_result.
    destruct (Validation.task_id_matches (Http.params_id req')); [ | exact Hr ].
    rewrite validateTaskUpdate_result.
    destruct (snd (Validation.taskUpdate chains (Http.body_data req')));
      [ | exact Hr ].
    rewrite (requireOwnership_task _ _ _ _ user) by exact Hu.
    cbn [Http.set_body Http.params_id].
    destruct (decide (Http.params_id req' = id)) as [-> | Hne].
    + rewrite Hr.
      rewrite (proj2 (differs_true _ _) Howner), (proj2 (differs_true _ _) Hsame).
      exact Hr.
    + destruct (db !! Http.params_id req') as [r'|]; [ | exact Hr ].
      destruct (_ && _); [ exact Hr | ].
      rewrite update_handler_store.
      cbn [Http.set_resource Http.set_body Http.params_id Http.body_data].
      rewrite update_frame by congruence. exact Hr.
  - rewrite validateTaskId_result.
    destruct (Validation.task_id_matches (Http.params_id req')); [ | exact Hr ].
    rewrite (requireOwnership_task _ _ _ _ _ Hu).
    destruct (decide (Http.params_id req' = id)) as [-> | Hne].
    + rewrite Hr.
      rewrite (proj2 (differs_true _ _) Howner), (proj2 (differs_true _ _) Hsame).
      exact Hr.
    + destruct (db !! Http.params_id req') as [r'|] eqn:Hr'; [ | exact Hr ].
      destruct (_ && _); [ exact Hr | ].
      rewrite delete_handler_store. cbn [Http.set_resource Http.params_id].
      unfold Task.delete, Sqlite.delete_task. rewrite Hr'. cbn [fst].
      rewrite lookup_delete_ne by congruence. exact Hr.
Qed.

Lemma plain_token_authenticates (id : string) (req : Http.Request) :
  two_users !! id = Some (user_row id) →
  Http.authorization req = Some ("Bearer " +:+ id) →
  no_space id = true → id ≠ ""%string → id ≠ "expired"%string →
  Auth.authenticateToken plain_tokens (env_at noon) two_users req
  = Http.Next (Http.set_user (user_of id) req).
Proof.
  intros Hrow Hh Hs Hne He. apply authenticateToken_next.
  exists id, id, (user_row id).
  split.
  { rewrite Hh. unfold Auth.token_of.
    change (String.eqb ("Bearer " +:+ id) "") with false. cbv iota.
    change ("Bearer " +:+ id) with ("Bearer" +:+ " " +:+ id).
    rewrite (split_first_word "Bearer" id eq_refl).
    rewrite (split_one_word _ Hs). reflexivity. }
  split; [ exact Hne | ].
  split; [ | split; [ exact Hrow | reflexivity ] ].
  unfold plain_tokens. cbn [Auth.verify].
  destruct (String.eqb_spec id "expired"); [ contradiction | reflexivity ].
Qed.

Lemma routes_leave_tasks_of_others_witness :
  one_task !! "t1"%string = Some (sample_row "t1" "TODO" (Some (noon + 10 * day)))
  ∧ (∀ req' user,
       Auth.authenticateToken plain_tokens (env_at noon) two_users
         (request (Some "Bearer bob") "t1" (title_only "Mine now")) = Http.Next req' →
       Http.user req' = Some user →
       Sqlite.user_id (sample_row "t1" "TODO" (Some (noon + 10 * day))) ≠ User.id user
       ∧ Task.id (task_of_row (env_at noon)
                    (sample_row "t1" "TODO" (Some (noon + 10 * day))))
         ≠ User.id user)
  ∧ fst (TaskRoutes.put_task plain_tokens no_errors (env_at noon) two_users one_task
           (request (Some "Bearer bob") "t1" (title_only "Mine now"))) !! "t1"%string
    = Some (sample_row "t1" "TODO" (Some (noon + 10 * day)))
  ∧ fst (TaskRoutes.delete_task plain_tokens (env_at noon) two_users one_task
           (request (Some "Bearer bob") "t1" (title_only "Mine now"))) !! "t1"%string
    = Some (sample_row "t1" "TODO" (Some (noon + 10 * day))).
Proof.
  assert (Hr : one_task !! "t1"%string
               = Some (sample_row "t1" "TODO" (Some (noon + 10 * day))))
    by reflexivity.
  assert (Hother :
            ∀ req' user,
              Auth.authenticateToken plain_tokens (env_at noon) two_users
                (request (Some "Bearer bob") "t1" (title_only "Mine now"))
              = Http.Next req' →
              Http.user req' = Some user →
              Sqlite.user_id (sample_row "t1" "TODO" (Some (noon + 10 * day)))
              ≠ User.id user
              ∧ Task.id (task_of_row (env_at noon)
                           (sample_row "t1" "TODO" (Some (noon + 10 * day))))
                ≠ User.id user).
  { intros req' user Hn Hu.
    rewrite (plain_token_authenticates "bob") in Hn;
      [ | reflexivity | reflexivity | reflexivity | discriminate | discriminate ].
    injection Hn as <-. injection Hu as <-. split; discriminate. }
  split; [ exact Hr | ]. split; [ exact Hother | ].
  destruct (routes_leave_tasks_of_others plain_tokens no_errors (env_at noon)
              two_users one_task
              (request (Some "Bearer bob") "t1" (title_only "Mine now")) "t1" _
              Hr Hother) as (_ & Hput & Hdelete).
  split; [ exact Hput | exact Hdelete ].
Defined.

(** X22: a user has no role, so [authorizeRoles] takes every
    authenticated user for a 'user': a request [authenticateToken] let
    through passes [authorizeRoles(allowedRoles)] exactly when the list is
    empty or holds 'user', and is answered 403 otherwise, as by
    [authorizeRoles(['admin'])]; a request without a user is answered
    401. *)
Theorem authorizeRoles_knows_one_role (config : Auth.Config) (env : Env)
    (users : SqliteUsers.Store) (req req' : Http.Request)
    (allowedRoles : list string) :
  Auth.authenticateToken config env users req = Http.Next req' →
  (Auth.authorizeRoles allowedRoles req' = Http.Next req'
   ↔ allowedRoles = [] ∨ In "user"%string allowedRoles)
  ∧ (¬ (allowedRoles = [] ∨ In "user"%string allowedRoles) →
     Auth.authorizeRoles allowedRoles req'
     = Http.Respond (Http.respond 403
         (Http.failure "Access denied"
                       "You do not have permission to access this resource")))
  ∧ Auth.authorizeRoles [ "admin"%string ] req'
    = Http.Respond (Http.respond 403
        (Http.failure "Access denied"
                      "You do not have permission to access this resource"))
  ∧ (Http.user req = None →
     Auth.authorizeRoles allowedRoles req
     = Http.Respond (Http.respond 401
         (Http.failure "Authentication required"
                       "Please log in to access this resource"))).
Proof.
  intros Ha. destruct (authenticated_user _ _ _ _ _ Ha) as (user & Hu & _).
  assert (Hin : Js.includes allowedRoles (Js.or (User.role user) (Js.VString "user"))
                = true ↔ In "user"%string allowedRoles).
  { cbn [User.role Js.or Js.truthy Js.includes]. rewrite existsb_exists. split.
    - intros (x & Hx & Heq). apply String.eqb_eq in Heq. subst. exact Hx.
    - intros H. exists "user"%string. split; [ exact H | reflexivity ]. }
  unfold Auth.authorizeRoles. rewrite Hu. cbv zeta.
  split; [ | split; [ | split ] ].
  - destruct allowedRoles as [ | role roles ]; [ cbn; tauto | ].
    change (0 <? Z.of_nat (length (role :: roles))) with true. cbn [andb].
    destruct (Js.includes (role :: roles) _) eqn:E.
    + cbn [negb]. split; [ intros _; right; apply Hin; reflexivity | reflexivity ].
    + cbn [negb]. split; [ discriminate | ].
      intros [H | H]; [ discriminate H | ]. apply Hin in H. congruence.
  - intros Hno. destruct allowedRoles as [ | role roles ]; [ tauto | ].
    change (0 <? Z.of_nat (length (role :: roles))) with true. cbn [andb].
    destruct (Js.includes (role :: roles) _) eqn:E; [ | reflexivity ].
    destruct Hno. right. apply Hin. reflexivity.
  - reflexivity.
  - intros Hnone. rewrite Hnone. reflexivity.
Qed.

Lemma authorizeRoles_knows_one_role_witness :
  Auth.authenticateToken plain_tokens (env_at noon) two_users
    (request (Some "Bearer alice") "t1" TaskData.empty)
  = Http.Next (Http.set_user (user_of "alice")
                 (request (Some "Bearer alice") "t1" TaskData.empty))
  ∧ Http.status
      <$> match Auth.authorizeRoles [ "admin"%string ]
                  (Http.set_user (user_of "alice")
                     (request (Some "Bearer alice") "t1" TaskData.empty))
          with
          | Http.Respond res => Some res
          | Http.Next _ => None
          end
    = Some 403.
Proof.
  assert (Ha : Auth.authenticateToken plain_tokens (env_at noon) two_users
                 (request (Some "Bearer alice") "t1" TaskData.empty)
               = Http.Next (Http.set_user (user_of "alice")
                              (request (Some "Bearer alice") "t1" TaskData.empty))).
  { apply (plain_token_authenticates "alice");
      [ reflexivity | reflexivity | reflexivity | discriminate | discriminate ]. }
  split; [ exact Ha | ].
  destruct (authorizeRoles_knows_one_role plain_tokens (env_at noon) two_users _ _
              [ "admin"%string ] Ha) as (_ & _ & H & _).
  rewrite H. reflexivity.
Defined.

(** X23: a task that POST / creates is owned by the user the request is
    authenticated as, whatever [user_id] the body holds.  When the chains
    of [validateTaskCreation] find an error, the route answers 400 and
    stores nothing; when they find none, it answers 201 with a task of
    that owner, stored under an id that was free, or it answers 500 and
    stores nothing. *)
Theorem post_task_owner (config : Auth.Config) (chains : Validation.Chains)
    (env : Env) (users : SqliteUsers.Store) (db : Sqlite.Store)
    (req req' : Http.Request) (user : User.t) :
  Auth.authenticateToken config env users req = Http.Next req' →
  Http.user req' = Some user →
  let errors := snd (Validation.taskCreation chains (Http.body_data req)) in
  let answer := TaskRoutes.post_task config chains env users db req in
  (errors ≠ [] ∧ Http.status (snd answer) = 400 ∧ fst answer = db)
  ∨ (errors = [] ∧ Http.status (snd answer) = 201
     ∧ ∃ task r,
         Http.json (snd answer)
         = Http.success_task (Some "Task created successfully"%string) task
         ∧ Task.user_id task = Some (User.id user)
         ∧ db !! Task.id task = None
         ∧ fst answer !! Task.id task = Some r
         ∧ Sqlite.user_id r = User.id user)
  ∨ (errors = [] ∧ Http.status (snd answer) = 500 ∧ fst answer = db).
Proof.
  intros Ha Hu. cbv zeta.
  destruct (authenticated_user _ _ _ _ _ Ha) as (user' & Hu' & _ & Hbody & _).
  unfold TaskRoutes.post_task. rewrite Ha, validateTaskCreation_result, Hbody.
  destruct (snd (Validation.taskCreation chains (Http.body_data req)))
    as [ | error errors ];
    [ right | left; split; [ discriminate | split; reflexivity ] ].
  unfold TaskRoutes.create_handler. cbv zeta.
  cbn [Http.set_body Http.user Http.body_data]. rewrite Hu.
  rewrite create_result.
  destruct (TaskData.falsy _ || TaskData.falsy _) eqn:Hreq;
    [ right; repeat split; reflexivity | ].
  destruct (negb _); [ right; repeat split; reflexivity | ].
  destruct (negb _); [ right; repeat split; reflexivity | ].
  destruct (db !! _) eqn:Hfree; [ right; repeat split; reflexivity | ].
  left. split; [ reflexivity | ]. split; [ reflexivity | ].
  apply orb_false_iff in Hreq. destruct Hreq as [_ Hreq].
  apply falsy_false in Hreq. destruct Hreq as (u & Hsome & _).
  cbn [TaskRoutes.with_user_id TaskData.user_id] in Hsome. injection Hsome as <-.
  eexists. eexists. cbn [fst snd Http.respond Http.json].
  split; [ reflexivity | ].
  split; [ reflexivity | ].
  split; [ exact Hfree | ].
  split; [ apply lookup_insert_eq | reflexivity ].
Qed.

Lemma post_task_owner_witness :
  Auth.authenticateToken plain_tokens (env_at noon) two_users
    (request (Some "Bearer bob") ""
       (sample_task "Call the printer" "TODO" "HIGH" false None))
  = Http.Next (Http.set_user (user_of "bob")
                 (request (Some "Bearer bob") ""
                    (sample_task "Call the printer" "TODO" "HIGH" false None)))
  ∧ TaskData.user_id (sample_task "Call the printer" "TODO" "HIGH" false None)
    = Some "alice"%string
  ∧ Sqlite.user_id
      <$> fst (TaskRoutes.post_task plain_tokens title_required (env_at noon)
                 two_users one_task
                 (request (Some "Bearer bob") ""
                    (sample_task "Call the printer" "TODO" "HIGH" false None)))
          !! "6f1c2a9e"%string
    = Some "bob"%string
  ∧ Http.status
      (snd (TaskRoutes.post_task plain_tokens title_required (env_at noon)
              two_users one_task
              (request (Some "Bearer bob") "" (status_only "TODO"))))
    = 400.
Proof.
  assert (Ha : Auth.authenticateToken plain_tokens (env_at noon) two_users
                 (request (Some "Bearer bob") ""
                    (sample_task "Call the printer" "TODO" "HIGH" false None))
               = Http.Next (Http.set_user (user_of "bob")
                              (request (Some "Bearer bob") ""
                                 (sample_task "Call the printer" "TODO" "HIGH" false
                                    None)))).
  { apply (plain_token_authenticates "bob");
      [ reflexivity | reflexivity | reflexivity | discriminate | discriminate ]. }
  split; [ exact Ha | ]. split; [ reflexivity | ].
  split; [ | vm_compute; reflexivity ].
  destruct (post_task_owner plain_tokens title_required (env_at noon) two_users
              one_task _ _ (user_of "bob") Ha eq_refl)
    as [(Herr & _) | [(_ & _ & task & r & Hjson & _ & _ & Hr & Hu) | (_ & H500 & _)]].
  - exfalso. apply Herr. reflexivity.
  - assert (Hid : Task.id task = "6f1c2a9e"%string).
    { revert Hjson. vm_compute. intros [= <-]. reflexivity. }
    rewrite Hid in Hr. rewrite Hr. cbn [fmap option_fmap option_map]. rewrite Hu.
    reflexivity.
  - vm_compute in H500. discriminate.
Defined.

(** X24: the query GET / sends for a user with an id is scoped to that
    user: the owner condition is its first condition, bound to the id of
    the user the request is authenticated as, whatever the query string
    holds; and it has the urgency condition exactly when the query string
    has [is_urgent], bound to 1 when that is the text 'true' and to 0 for
    any other text. *)
Theorem get_tasks_scoped_to_requester (user : User.t) (q : Http.Query)
    (plan : Task.Plan) :
  User.id user ≠ ""%string →
  Task.findAll_plan (TaskRoutes.list_options user q) = Ok plan →
  (∃ conditions params,
     Task.whereConditions plan = "user_id = ?"%string :: conditions
     ∧ Task.params plan = Js.VString (User.id user) :: params)
  ∧ (In "is_urgent = ?"%string (Task.whereConditions plan)
     ↔ Http.is_urgent q ≠ Js.VUndefined)
  ∧ (∀ s, Http.is_urgent q = Js.VString s →
          In (Js.num (if String.eqb s "true" then 1 else 0)) (Task.params plan)).
Proof.
  intros Hid H. apply findAll_plan_where in H. destruct H as [-> ->].
  unfold Task.where_conditions, Task.push_if, TaskRoutes.list_options. cbv zeta.
  cbn [Task.Options.user_id Task.Options.status Task.Options.priority
       Task.Options.is_urgent Task.Options.search Js.truthy].
  apply String.eqb_neq in Hid. rewrite Hid. cbn [negb].
  split; [ | split; [ split | ] ].
  - destruct (Js.truthy (Http.status_filter q));
      destruct (Js.truthy (Http.priority_filter q));
      destruct (Http.is_urgent q) as [ | | ? | ? | ? | ? ];
      destruct (Js.truthy (Http.search q));
      cbn [fst snd app]; eauto.
  - intros Hin Hq. rewrite Hq in Hin.
    destruct (Js.truthy (Http.status_filter q));
      destruct (Js.truthy (Http.priority_filter q));
      destruct (Js.truthy (Http.search q));
      simpl in Hin;
      repeat (destruct Hin as [Hin | Hin]; [ discriminate Hin | ]);
      contradiction.
  - intros Hq.
    destruct (Http.is_urgent q) as [ | | ? | ? | ? | ? ]; [ contradiction | .. ];
      destruct (Js.truthy (Http.status_filter q));
      destruct (Js.truthy (Http.priority_filter q));
      destruct (Js.truthy (Http.search q));
      simpl; auto 10.
  - intros s Hs. rewrite Hs.
    destruct (Js.truthy (Http.status_filter q));
      destruct (Js.truthy (Http.priority_filter q));
      destruct (Js.truthy (Http.search q));
      destruct (String.eqb s "true");
      simpl; auto 10.
Qed.

Lemma get_tasks_scoped_to_requester_witness :
  User.id (user_of "bob") ≠ ""%string
  ∧ match Task.findAll_plan
            (TaskRoutes.list_options (user_of "bob")
               {| Http.page := Js.VString "2"; Http.limit := Js.VString "10";
                  Http.status_filter := Js.VUndefined;
                  Http.priority_filter := Js.VUndefined;
                  Http.is_urgent := Js.VString "false";
                  Http.search := Js.VUndefined;
                  Http.sort_by := Js.VUndefined; Http.sort_order := Js.VUndefined |})
    with
    | Ok plan =>
        (∃ conditions params,
           Task.whereConditions plan = "user_id = ?"%string :: conditions
           ∧ Task.params plan = Js.VString "bob" :: params)
        ∧ Task.offset plan = Js.Num 10
    | Throw _ => False
    end.
Proof.
  assert (Hid : User.id (user_of "bob") ≠ ""%string) by discriminate.
  split; [ exact Hid | ].
  destruct (Task.findAll_plan _) as [plan|] eqn:E.
  - split; [ exact (proj1 (get_tasks_scoped_to_requester _ _ _ Hid E)) | ].
    revert E. vm_compute. intros [= <-]. reflexivity.
  - vm_compute in E. discriminate.
Defined.






(** ** class User *)

Lemma rows_lookup (users : SqliteUsers.Store) (r : SqliteUsers.Row) :
  In r (SqliteUsers.rows users) ↔ ∃ id, users !! id = Some r.
Proof.
  unfold SqliteUsers.rows. rewrite <- list_elem_of_In, list_elem_of_fmap. split.
  - intros ([id r'] & -> & H). apply elem_of_map_to_list in H. eauto.
  - intros [id H]. exists (id, r). split; [ reflexivity | ].
    apply elem_of_map_to_list, H.
Qed.

Lemma no_row_with (p : SqliteUsers.Row → bool) (users : SqliteUsers.Store) :
  existsb p (SqliteUsers.rows users) = false
  ↔ ∀ id r, users !! id = Some r → p r = false.
Proof.
  split.
  - intros H id r Hr. destruct (p r) eqn:E; [ | reflexivity ].
    assert (existsb p (SqliteUsers.rows users) = true); [ | congruence ].
    apply existsb_exists. exists r. split; [ apply rows_lookup; eauto | exact E ].
  - intros H. destruct (existsb p (SqliteUsers.rows users)) eqn:E; [ | reflexivity ].
    apply existsb_exists in E. destruct E as (r & Hin & Hp).
    apply rows_lookup in Hin. destruct Hin as [id Hr].
    rewrite (H id r Hr) in Hp. discriminate.
Qed.

Lemma find_existsb {A : Type} (p : A → bool) (l : list A) :
  List.find p l = None ↔ existsb p l = false.
Proof.
  induction l as [ | x l IH ]; simpl; [ tauto | ].
  destruct (p x); simpl; [ split; discriminate | exact IH ].
Qed.

Lemma username_taken_find (users : SqliteUsers.Store) (username : string) :
  username_taken users username
  ↔ is_Some (SqliteUsers.select_by_username users username).
Proof.
  unfold SqliteUsers.select_by_username, username_taken. split.
  - intros (id & r & Hr & Hu).
    destruct (List.find _ _) eqn:E; [ eauto | ].
    apply find_existsb in E.
    pose proof (proj1 (no_row_with _ _) E id r Hr) as Hp.
    unfold SqliteUsers.has_username in Hp. rewrite Hu, String.eqb_refl in Hp.
    discriminate.
  - intros [r E]. apply find_some in E. destruct E as [Hin Hp].
    apply rows_lookup in Hin. destruct Hin as [id Hr].
    apply String.eqb_eq in Hp. eauto.
Qed.

Lemma email_taken_find (users : SqliteUsers.Store) (email : string) :
  email_taken users email
  ↔ is_Some (SqliteUsers.select_by_email users email).
Proof.
  unfold SqliteUsers.select_by_email, email_taken. split.
  - intros (id & r & Hr & Hu).
    destruct (List.find _ _) eqn:E; [ eauto | ].
    apply find_existsb in E.
    pose proof (proj1 (no_row_with _ _) E id r Hr) as Hp.
    unfold SqliteUsers.has_email in Hp. rewrite Hu, String.eqb_refl in Hp.
    discriminate.
  - intros [r E]. apply find_some in E. destruct E as [Hin Hp].
    apply rows_lookup in Hin. destruct Hin as [id Hr].
    apply String.eqb_eq in Hp. eauto.
Qed.

(** [User.create] as one case analysis: the three required fields, the
    username, the email, the primary key, and then the row and the user. *)
Lemma user_create_result (bcrypt : Bcrypt) (env : Env) (users : SqliteUsers.Store)
    (userData : UserData.t) (username email password : string) :
  UserData.username userData = Some username → username ≠ ""%string →
  UserData.email userData = Some email → email ≠ ""%string →
  UserData.password userData = Some password → password ≠ ""%string →
  User.create bcrypt env users userData
  = match SqliteUsers.select_by_username users username with
    | Some _ => Throw (Error "Username already exists")
    | None =>
        match SqliteUsers.select_by_email users email with
        | Some _ => Throw (Error "Email already exists")
        | None =>
            let id := TaskData.or_else (UserData.id userData) (uuidv4 env) in
            match users !! id with
            | Some _ => Throw (SqliteConstraint "UNIQUE constraint failed: users.id")
            | None =>
                Ok (<[ id := {| SqliteUsers.id := id;
                                SqliteUsers.username := username;
                                SqliteUsers.email := email;
                                SqliteUsers.password := hash bcrypt password 10;
                                SqliteUsers.created_at :=
                                  Sqlite.CURRENT_TIMESTAMP (now env);
                                SqliteUsers.updated_at :=
                                  Sqlite.CURRENT_TIMESTAMP (now env) |} ]> users,
                    User.new env
                      (UserData.with_password (hash bcrypt password 10) userData))
            end
        end
    end.
Proof.
  intros Hu Hu' He He' Hp Hp'. unfold User.create.
  rewrite Hu, He, Hp, !falsy_some by assumption. cbn [orb default from_option id].
  unfold User.findByUsername, User.findByEmail.
  destruct (SqliteUsers.select_by_username users username) eqn:Eu; [ reflexivity | ].
  destruct (SqliteUsers.select_by_email users email) eqn:Ee; [ reflexivity | ].
  cbv zeta. unfold SqliteUsers.insert_user, mbind, result_bind.
  cbn [User.new User.id User.username User.email User.password
       UserData.with_password UserData.id UserData.username UserData.email
       UserData.password].
  rewrite Hu, He.
  apply find_existsb in Eu, Ee. rewrite Eu, Ee.
  destruct (users !! _); reflexivity.
Qed.

(** X27: [User.create] throws 'Username, email, and password are
    required' exactly when one of the three is missing or empty; with all
    three present it throws 'Username already exists' exactly when a row
    has the username, 'Email already exists' exactly when none has the
    username and one has the email, and it succeeds exactly when no row has
    the username, none has the email and the id (the one given, else a
    fresh one) is free. *)
Theorem user_create_accepts_exactly (bcrypt : Bcrypt) (env : Env)
    (users : SqliteUsers.Store) (userData : UserData.t) :
  (User.create bcrypt env users userData
   = Throw (Error "Username, email, and password are required")
   ↔ TaskData.falsy (UserData.username userData) = true
     ∨ TaskData.falsy (UserData.email userData) = true
     ∨ TaskData.falsy (UserData.password userData) = true)
  ∧ ∀ username email password,
      UserData.username userData = Some username → username ≠ ""%string →
      UserData.email userData = Some email → email ≠ ""%string →
      UserData.password userData = Some password → password ≠ ""%string →
      (User.create bcrypt env users userData = Throw (Error "Username already exists")
       ↔ username_taken users username)
      ∧ (User.create bcrypt env users userData = Throw (Error "Email already exists")
         ↔ ¬ username_taken users username ∧ email_taken users email)
      ∧ (succeeds (User.create bcrypt env users userData) = true
         ↔ ¬ username_taken users username ∧ ¬ email_taken users email
           ∧ users !! TaskData.or_else (UserData.id userData) (uuidv4 env) = None).
Proof.
  split.
  - unfold User.create.
    destruct (TaskData.falsy (UserData.username userData)) eqn:Hu;
      [ split; auto | ].
    destruct (TaskData.falsy (UserData.email userData)) eqn:He;
      [ split; auto | ].
    destruct (TaskData.falsy (UserData.password userData)) eqn:Hp;
      [ split; auto | ].
    cbn [orb]. split; [ | intros [H | [H | H]]; discriminate H ].
    fold (User.create bcrypt env users userData).
    apply falsy_false in Hu, He, Hp.
    destruct Hu as (username & Hu & Hu'), He as (email & He & He'),
             Hp as (password & Hp & Hp').
    assert (Hc := user_create_result bcrypt env users _ _ _ _ Hu Hu' He He' Hp Hp').
    unfold User.create in Hc. rewrite Hu, He, Hp, !falsy_some in Hc by assumption.
    cbn [orb] in Hc. rewrite Hu, He, Hp, Hc. cbv zeta.
    destruct (SqliteUsers.select_by_username users username); [ discriminate | ].
    destruct (SqliteUsers.select_by_email users email); [ discriminate | ].
    destruct (users !! _); discriminate.
  - intros username email password Hu Hu' He He' Hp Hp'.
    rewrite (user_create_result _ _ _ _ _ _ _ Hu Hu' He He' Hp Hp').
    rewrite (username_taken_find users username), (email_taken_find users email).
    cbv zeta.
    destruct (SqliteUsers.select_by_username users username) eqn:Eu.
    { split; [ split; eauto | ].
      split; (split; [ discriminate | intros [H _]; destruct H; eauto ]). }
    destruct (SqliteUsers.select_by_email users email) eqn:Ee.
    { split; [ split; [ discriminate | intros [? [=]] ] | ].
      split; [ split; [ intros _; split; [ intros [? [=]] | eauto ] | reflexivity ] | ].
      split; [ discriminate | intros (_ & H & _); destruct H; eauto ]. }
    destruct (users !! _) eqn:Eid;
      (split; [ split; [ discriminate | intros [? [=]] ] | ]);
      (split; [ split; [ discriminate | intros [_ [? [=]]] ] | ]).
    + split; [ discriminate | intros (_ & _ & [=]) ].
    + split; [ intros _ | reflexivity ].
      split; [ intros [? [=]] | ]. split; [ intros [? [=]] | reflexivity ].
Qed.

Lemma user_create_accepts_exactly_witness :
  UserData.username (registration "alice" "alice@example.org" "S3cret")
  = Some "alice"%string
  ∧ (User.create marking (env_at noon) two_users
       (registration "alice" "alice@example.org" "S3cret")
     = Throw (Error "Username already exists")
     ↔ username_taken two_users "alice")
  ∧ username_taken two_users "alice".
Proof.
  split; [ reflexivity | ].
  split.
  - exact (proj1 (proj2 (user_create_accepts_exactly marking (env_at noon) two_users
                           (registration "alice" "alice@example.org" "S3cret"))
                    "alice"%string "alice@example.org"%string "S3cret"%string
                    eq_refl ltac:(discriminate) eq_refl ltac:(discriminate)
                    eq_refl ltac:(discriminate))).
  - exists "alice"%string, (user_row "alice"). split; reflexivity.
Defined.

Lemma user_step_well_formed (users : SqliteUsers.Store) (o : user_op) :
  users_well_formed users → users_well_formed (user_step users o).
Proof.
  intros [Hid Huniq]. destruct o as [ bcrypt env userData | id ]; cbn [user_step].
  - destruct (User.create bcrypt env users userData) as [[users' user]|] eqn:E;
      [ | split; assumption ].
    assert (Hreq : TaskData.falsy (UserData.username userData) = false
                   ∧ TaskData.falsy (UserData.email userData) = false
                   ∧ TaskData.falsy (UserData.password userData) = false).
    { unfold User.create in E.
      destruct (TaskData.falsy (UserData.username userData)); [ discriminate | ].
      destruct (TaskData.falsy (UserData.email userData)); [ discriminate | ].
      destruct (TaskData.falsy (UserData.password userData)); [ discriminate | ].
      auto. }
    destruct Hreq as (Hu & He & Hp). apply falsy_false in Hu, He, Hp.
    destruct Hu as (username & Hu & Hu'), He as (email & He & He'),
             Hp as (password & Hp & Hp').
    rewrite (user_create_result _ _ _ _ _ _ _ Hu Hu' He He' Hp Hp') in E.
    destruct (SqliteUsers.select_by_username users username) as [?|] eqn:Eu;
      [ discriminate | ].
    destruct (SqliteUsers.select_by_email users email) as [?|] eqn:Ee;
      [ discriminate | ].
    cbv zeta in E. destruct (users !! _) as [?|] eqn:Efree; [ discriminate | ].
    injection E as <- _.
    apply find_existsb in Eu, Ee.
    pose proof (proj1 (no_row_with _ _) Eu) as Nu.
    pose proof (proj1 (no_row_with _ _) Ee) as Ne.
    unfold SqliteUsers.has_username in Nu. unfold SqliteUsers.has_email in Ne.
    split.
    + intros k x H. apply lookup_insert_Some in H.
      destruct H as [[<- <-] | [_ H]]; [ reflexivity | exact (Hid k x H) ].
    + intros id id' x x' H H' Hsame.
      apply lookup_insert_Some in H, H'.
      destruct H as [[<- <-] | [Hne H]], H' as [[<- <-] | [Hne' H']].
      * reflexivity.
      * exfalso. cbn [SqliteUsers.username SqliteUsers.email] in Hsame.
        pose proof (Nu _ _ H') as N1. pose proof (Ne _ _ H') as N2.
        apply String.eqb_neq in N1, N2. destruct Hsame; congruence.
      * exfalso. cbn [SqliteUsers.username SqliteUsers.email] in Hsame.
        pose proof (Nu _ _ H) as N1. pose proof (Ne _ _ H) as N2.
        apply String.eqb_neq in N1, N2. destruct Hsame; congruence.
      * exact (Huniq id id' x x' H H' Hsame).
  - unfold User.delete, SqliteUsers.delete_user.
    destruct (users !! id) as [?|] eqn:E; cbn [fst]; [ | split; assumption ].
    split.
    + intros id' x H. apply lookup_delete_Some in H. apply Hid, H.
    + intros id1 id2 x x' H H'. apply lookup_delete_Some in H, H'.
      apply Huniq; [ apply H | apply H' ].
Qed.

(** X28: along every sequence of registrations ([User.create]) and
    removals ([User.delete]) from the empty table, every row is stored
    under its own id and no two rows share a username or an email. *)
Theorem usernames_and_emails_unique (ops : list user_op) :
  users_well_formed (user_run ops).
Proof.
  unfold user_run.
  assert (H : ∀ users, users_well_formed users →
                       users_well_formed (fold_left user_step ops users)).
  { induction ops as [ | o ops IH ]; intros users Hw; [ exact Hw | ].
    simpl. apply IH, user_step_well_formed, Hw. }
  apply H. split.
  - intros id r E. rewrite lookup_empty in E. discriminate.
  - intros id id' r r' E. rewrite lookup_empty in E. discriminate.
Qed.

(** X29: a user that [User.create] stored is found by its username, by its
    email and by its id, in any later environment, as the user [create]
    returned with the two timestamps of the store; the password stored and
    returned is the hash [bcrypt] gave, not the password of the payload;
    and what [toResponse] and [toJSON] give is the same for every
    password. *)
Theorem user_create_then_find (bcrypt : Bcrypt) (env env' : Env)
    (users users' : SqliteUsers.Store) (userData : UserData.t) (user : User.t)
    (username email password : string) :
  User.create bcrypt env users userData = Ok (users', user) →
  UserData.username userData = Some username →
  UserData.email userData = Some email →
  UserData.password userData = Some password →
  uuidv4 env ≠ ""%string →
  let found :=
    Some (user_with_timestamps (Sqlite.CURRENT_TIMESTAMP (now env))
            (Sqlite.CURRENT_TIMESTAMP (now env)) user) in
  User.findByUsername env' users' username = found
  ∧ User.findByEmail env' users' email = found
  ∧ User.findById env' users' (Some (User.id user)) = found
  ∧ User.password user = Some (hash bcrypt password 10)
  ∧ SqliteUsers.password <$> users' !! User.id user = Some (hash bcrypt password 10)
  ∧ ∀ other,
      User.toResponse user
      = User.toResponse (User.new env (UserData.with_password other userData))
      ∧ User.toJSON user
        = User.toJSON (User.new env (UserData.with_password other userData)).
Proof.
  intros E Hu He Hp Huuid. cbv zeta.
  assert (Hreq : username ≠ ""%string ∧ email ≠ ""%string ∧ password ≠ ""%string).
  { unfold User.create in E. rewrite Hu, He, Hp in E.
    destruct (TaskData.falsy (Some username)) eqn:F1; [ discriminate | ].
    destruct (TaskData.falsy (Some email)) eqn:F2; [ discriminate | ].
    destruct (TaskData.falsy (Some password)) eqn:F3; [ discriminate | ].
    apply falsy_false in F1, F2, F3.
    destruct F1 as (? & [= <-] & ?), F2 as (? & [= <-] & ?), F3 as (? & [= <-] & ?).
    auto. }
  destruct Hreq as (Hu' & He' & Hp').
  rewrite (user_create_result _ _ _ _ _ _ _ Hu Hu' He He' Hp Hp') in E.
  destruct (SqliteUsers.select_by_username users username) as [?|] eqn:Eu;
    [ discriminate | ].
  destruct (SqliteUsers.select_by_email users email) as [?|] eqn:Ee;
    [ discriminate | ].
  cbv zeta in E. destruct (users !! _) as [?|] eqn:Efree; [ discriminate | ].
  injection E as <- <-.
  set (id := TaskData.or_else (UserData.id userData) (uuidv4 env)) in *.
  set (row := {| SqliteUsers.id := id; SqliteUsers.username := username;
                 SqliteUsers.email := email;
                 SqliteUsers.password := hash bcrypt password 10;
                 SqliteUsers.created_at := Sqlite.CURRENT_TIMESTAMP (now env);
                 SqliteUsers.updated_at := Sqlite.CURRENT_TIMESTAMP (now env) |}).
  assert (Hidne : id ≠ ""%string) by (apply or_else_not_empty, Huuid).
  assert (Hfound : User.new env' (UserData.of_row row)
                   = user_with_timestamps (Sqlite.CURRENT_TIMESTAMP (now env))
                       (Sqlite.CURRENT_TIMESTAMP (now env))
                       (User.new env
                          (UserData.with_password (hash bcrypt password 10) userData))).
  { unfold User.new, user_with_timestamps, UserData.of_row, UserData.with_password, row.
    cbn [UserData.id UserData.username UserData.email UserData.password
         UserData.created_at UserData.updated_at
         SqliteUsers.id SqliteUsers.username SqliteUsers.email SqliteUsers.password
         SqliteUsers.created_at SqliteUsers.updated_at
         User.id User.username User.email User.password].
    rewrite (or_else_kept _ _ Hidne), Hu, He. reflexivity. }
  apply find_existsb in Eu, Ee.
  pose proof (proj1 (no_row_with _ _) Eu) as Nu.
  pose proof (proj1 (no_row_with _ _) Ee) as Ne.
  assert (Hrows : ∀ r, In r (SqliteUsers.rows (<[ id := row ]> users)) →
                       r = row ∨ ∃ k, users !! k = Some r).
  { intros r Hin. apply rows_lookup in Hin. destruct Hin as [k Hk].
    apply lookup_insert_Some in Hk. destruct Hk as [[_ <-] | [_ Hk]]; eauto. }
  assert (Hin : In row (SqliteUsers.rows (<[ id := row ]> users))).
  { apply rows_lookup. exists id. apply lookup_insert_eq. }
  split; [ | split; [ | split; [ | split; [ | split ] ] ] ].
  - unfold User.findByUsername, SqliteUsers.select_by_username.
    destruct (List.find _ _) as [r|] eqn:F.
    + apply find_some in F. destruct F as [Hr Hpr].
      destruct (Hrows r Hr) as [-> | [k Hk]]; [ rewrite Hfound; reflexivity | ].
      rewrite (Nu k r Hk) in Hpr. discriminate.
    + pose proof (find_none _ _ F row Hin) as Hn.
      unfold SqliteUsers.has_username, row in Hn.
      cbn [SqliteUsers.username] in Hn. rewrite String.eqb_refl in Hn. discriminate.
  - unfold User.findByEmail, SqliteUsers.select_by_email.
    destruct (List.find _ _) as [r|] eqn:F.
    + apply find_some in F. destruct F as [Hr Hpr].
      destruct (Hrows r Hr) as [-> | [k Hk]]; [ rewrite Hfound; reflexivity | ].
      rewrite (Ne k r Hk) in Hpr. discriminate.
    + pose proof (find_none _ _ F row Hin) as Hn.
      unfold SqliteUsers.has_email, row in Hn.
      cbn [SqliteUsers.email] in Hn. rewrite String.eqb_refl in Hn. discriminate.
  - unfold User.findById, SqliteUsers.select_by_id.
    change (User.id (User.new env
                       (UserData.with_password (hash bcrypt password 10) userData)))
      with id.
    rewrite lookup_insert_eq, Hfound. reflexivity.
  - reflexivity.
  - change (User.id (User.new env
                       (UserData.with_password (hash bcrypt password 10) userData)))
      with id.
    rewrite lookup_insert_eq. reflexivity.
  - intros other. split; reflexivity.
Qed.

Lemma user_create_then_find_witness :
  match User.create marking (env_at noon) two_users
          (registration "carol" "carol@example.com" "S3cret")
  with
  | Ok (users', user) =>
      uuidv4 (env_at noon) ≠ ""%string
      ∧ User.findByUsername (env_at (noon + day)) users' "carol"
        = Some (user_with_timestamps (Sqlite.CURRENT_TIMESTAMP noon)
                  (Sqlite.CURRENT_TIMESTAMP noon) user)
      ∧ User.password user = Some "$2a$10$S3cret"%string
  | Throw _ => False
  end.
Proof.
  assert (Hs : succeeds (User.create marking (env_at noon) two_users
                           (registration "carol" "carol@example.com" "S3cret")) = true)
    by (vm_compute; reflexivity).
  destruct (User.create _ _ _ _) as [[users' user]|] eqn:E; [ | discriminate Hs ].
  assert (Huuid : uuidv4 (env_at noon) ≠ ""%string) by discriminate.
  split; [ exact Huuid | ].
  destruct (user_create_then_find marking (env_at noon) (env_at (noon + day)) _ _ _ _
              "carol" "carol@example.com" "S3cret" E eq_refl eq_refl eq_refl Huuid)
    as (Hname & _ & _ & Hpw & _).
  split; [ exact Hname | exact Hpw ].
Defined.

(** ** initializeDatabase *)

Lemma seed_tasks_total (built : Z) (clock : nat → Z) (db : Sqlite.Store) :
  ∃ db', Seed.seed_tasks built clock db = Ok db'
         ∧ db' ≠ ∅
         ∧ (∀ id r, db !! id = Some r → db' !! id = Some r).
Proof.
  destruct (decide (db = ∅)) as [-> | Hne].
  - unfold Seed.seed_tasks. rewrite map_to_list_empty. cbv zeta.
    cbn [fmap list_fmap Sqlite.COUNT length Z.of_nat Z.eqb].
    unfold Seed.sampleTasks. cbn [Seed.insert_samples].
    rewrite insert_sample_ok; [ | simpl; auto 10 | simpl; auto 10 | apply lookup_empty ].
    unfold mbind at 1, result_bind at 1.
    rewrite insert_sample_ok;
      [ | simpl; auto 10 | simpl; auto 10
        | rewrite lookup_insert_ne by discriminate; apply lookup_empty ].
    unfold mbind at 1, result_bind at 1.
    rewrite insert_sample_ok;
      [ | simpl; auto 10 | simpl; auto 10
        | rewrite !lookup_insert_ne by discriminate; apply lookup_empty ].
    unfold mbind, result_bind.
    eexists. split; [ reflexivity | ].
    split; [ apply insert_non_empty | ].
    intros id r H. rewrite lookup_empty in H. discriminate.
  - exists db. split; [ apply seed_tasks_not_empty, Hne | ]. split; [ exact Hne | auto ].
Qed.

(** X30: [initializeDatabase] succeeds exactly when a user named admin
    exists, or else no user has the id admin-001 or the email
    admin@example.com; when it succeeds a user named admin exists, the
    table of tasks is not empty, every user and every task that was there
    is there unchanged, and running it again, at any time, succeeds and
    changes nothing. *)
Theorem initializeDatabase_idempotent (bcrypt : Bcrypt) (started built : Z)
    (clock : nat → Z) (users : SqliteUsers.Store) (db : Sqlite.Store) :
  (succeeds (Initialize.initializeDatabase bcrypt started built clock users db) = true
   ↔ username_taken users "admin"
     ∨ (¬ email_taken users "admin@example.com" ∧ users !! "admin-001"%string = None))
  ∧ ∀ users' db',
      Initialize.initializeDatabase bcrypt started built clock users db
      = Ok (users', db') →
      username_taken users' "admin"
      ∧ db' ≠ ∅
      ∧ (∀ id r, users !! id = Some r → users' !! id = Some r)
      ∧ (∀ id r, db !! id = Some r → db' !! id = Some r)
      ∧ ∀ bcrypt' started' built' clock',
          Initialize.initializeDatabase bcrypt' started' built' clock' users' db'
          = Ok (users', db').
Proof.
  unfold Initialize.initializeDatabase.
  destruct (seed_tasks_total built clock db) as (db1 & Hseed & Hne & Hkeep).
  assert (Hadmin :
            Initialize.seed_admin bcrypt started users
            = match SqliteUsers.select_by_username users "admin" with
              | Some _ => Ok users
              | None =>
                  if existsb (SqliteUsers.has_email "admin@example.com")
                       (SqliteUsers.rows users)
                  then Throw (SqliteConstraint "UNIQUE constraint failed: users.email")
                  else match users !! "admin-001"%string with
                       | Some _ =>
                           Throw (SqliteConstraint "UNIQUE constraint failed: users.id")
                       | None =>
                           Ok (<[ "admin-001"%string :=
                                    {| SqliteUsers.id := "admin-001";
                                       SqliteUsers.username := "admin";
                                       SqliteUsers.email := "admin@example.com";
                                       SqliteUsers.password := hash bcrypt "admin123" 10;
                                       SqliteUsers.created_at :=
                                         Sqlite.CURRENT_TIMESTAMP started;
                                       SqliteUsers.updated_at :=
                                         Sqlite.CURRENT_TIMESTAMP started |} ]> users)
                       end
              end).
  { unfold Initialize.seed_admin. cbv zeta.
    destruct (SqliteUsers.select_by_username users "admin") eqn:Eu; [ reflexivity | ].
    unfold SqliteUsers.insert_user. apply find_existsb in Eu. rewrite Eu. reflexivity. }
  rewrite Hadmin, Hseed. unfold mbind, result_bind.
  rewrite (username_taken_find users "admin"), (email_taken_find users "admin@example.com").
  unfold SqliteUsers.select_by_email at 1. 
  assert (Hagain : ∀ users1 bcrypt' started' built' clock',
             is_Some (SqliteUsers.select_by_username users1 "admin") →
             match Initialize.seed_admin bcrypt' started' users1 with
             | Ok users2 =>
                 match Seed.seed_tasks built' clock' db1 with
                 | Ok db2 => Ok (users2, db2)
                 | Throw e => Throw e
                 end
             | Throw e => Throw e
             end = Ok (users1, db1)).
  { intros users1 bcrypt' started' built' clock' [x Hx].
    unfold Initialize.seed_admin. cbv zeta. rewrite Hx.
    rewrite (seed_tasks_not_empty _ _ _ Hne). reflexivity. }
  destruct (SqliteUsers.select_by_username users "admin") as [x|] eqn:Eu.
  - split; [ split; [ intros _; left; eauto | reflexivity ] | ].
    intros users' db' [= <- <-].
    split; [ apply username_taken_find; rewrite Eu; eauto | ].
    split; [ exact Hne | ]. split; [ auto | ]. split; [ exact Hkeep | ].
    intros. apply Hagain. rewrite Eu. eauto.
  - destruct (List.find (SqliteUsers.has_email "admin@example.com")
                (SqliteUsers.rows users)) as [y|] eqn:Ee.
    + assert (Hex : existsb (SqliteUsers.has_email "admin@example.com")
                      (SqliteUsers.rows users) = true).
      { destruct (existsb _ _) eqn:Ex; [ reflexivity | ].
        apply find_existsb in Ex. congruence. }
      rewrite Hex.
      split; [ | intros users' db' [=] ].
      split; [ discriminate | ].
      intros [[? [=]] | [Hno _]]. destruct Hno. eauto.
    + apply find_existsb in Ee. rewrite Ee.
      destruct (users !! "admin-001"%string) as [z|] eqn:Eid.
      * split; [ | intros users' db' [=] ].
        split; [ discriminate | ].
        intros [[? [=]] | [_ [=]]].
      * split.
        { split; [ intros _; right; split; [ intros [? [=]] | reflexivity ]
                 | reflexivity ]. }
        intros users' db' [= <- <-].
        assert (Htaken : username_taken
                           (<[ "admin-001"%string :=
                                 {| SqliteUsers.id := "admin-001";
                                    SqliteUsers.username := "admin";
                                    SqliteUsers.email := "admin@example.com";
                                    SqliteUsers.password := hash bcrypt "admin123" 10;
                                    SqliteUsers.created_at :=
                                      Sqlite.CURRENT_TIMESTAMP started;
                                    SqliteUsers.updated_at :=
                                      Sqlite.CURRENT_TIMESTAMP started |} ]> users)
                           "admin").
        { eexists. eexists. split; [ apply lookup_insert_eq | reflexivity ]. }
        split; [ exact Htaken | ].
        split; [ exact Hne | ].
        split; [ intros id r Hr; rewrite lookup_insert_ne by congruence; exact Hr | ].
        split; [ exact Hkeep | ].
        intros. apply Hagain. apply username_taken_find, Htaken.
Qed.

Lemma initializeDatabase_idempotent_witness :
  match Initialize.initializeDatabase marking noon noon (clock_at (noon + 1)) ∅ ∅ with
  | Ok (users', db') =>
      username_taken users' "admin"
      ∧ db' ≠ ∅
      ∧ Initialize.initializeDatabase marking (noon + day) (noon + day)
          (clock_at (noon + day)) users' db'
        = Ok (users', db')
  | Throw _ => False
  end.
Proof.
  assert (Hs : succeeds (Initialize.initializeDatabase marking noon noon
                           (clock_at (noon + 1)) ∅ ∅) = true)
    by (vm_compute; reflexivity).
  destruct (Initialize.initializeDatabase _ _ _ _ _ _) as [[users' db']|] eqn:E;
    [ | discriminate Hs ].
  destruct (proj2 (initializeDatabase_idempotent marking noon noon
                     (clock_at (noon + 1)) ∅ ∅) users' db' E)
    as (Hadmin & Hne & _ & _ & Hagain).
  split; [ exact Hadmin | ]. split; [ exact Hne | apply Hagain ].
Defined.
